(** * Scholarship recommender: the front-end script [static/js/script.js]

    A shallow embedding of the page script of the scholarship recommender
    web application, and the properties of it that its specification
    states.

    The script has three layers, and so has this development:

    - [Number]: the Number-valued helpers [formatScore] and
      [getScoreColor].  A JavaScript Number is an IEEE 754 binary64 value;
      it is modelled by the Standard Library's [spec_float] at precision 53
      and exponent bound 1024, so that the product [score * 100] rounds as
      it does in the engine and the comparisons treat NaN as they do there.
    - [Dom]: the part of the document the script reads and writes (forms
      with their fields and buttons, collapsible panels, the alert
      container, timers, in-flight requests), the handlers installed at
      [DOMContentLoaded], [submitFeedback] with its promise chain, and
      [showAlert].  Handlers are computations in a state-and-exception
      monad over the page, because a thrown [TypeError] keeps the writes
      made before it.  A form answers to the names of its controls
      before it answers to the methods of its prototype, and a value
      decoded from a response need not have a text: both are modelled,
      as a call or a concatenation that throws.
    - [ScholarshipAPI]: the static helper [getRecommendations].

    After the properties of the specification come properties read off
    the code itself: what the two score helpers show together, and what
    holds of the page along every run of its events. *)

From Stdlib Require Import ZArith QArith Qround Qabs Lqa String Ascii List Lia Bool.
From Stdlib Require Import Floats.SpecFloat.
From stdpp Require Import base option list.

Open Scope Z_scope.

Set Warnings "-register-all".

(** The double quote character, for the markup the script writes. *)
Definition dq : string := String "034"%char EmptyString.
(** The line feed of the template literal in [showAlert]. *)
Definition nl : string := String "010"%char EmptyString.

(* ===================================================================== *)
(** * Numbers *)
(* ===================================================================== *)

Module Number.

(** binary64 *)
Definition prec : Z := 53.
Definition emax : Z := 1024.

Abbreviation number := spec_float.

Definition mul : number -> number -> number := SFmul prec emax.
Definition of_Z (z : Z) : number := binary_normalize prec emax z 0 false.

(** The Number denoted by the decimal literal [d * 10^-k], for a literal
    of at most fifteen digits: numerator and power of ten are Numbers
    themselves, and IEEE division rounds their quotient correctly. *)
Definition decimal (d : Z) (k : Z) : number :=
  SFdiv prec emax (of_Z d) (of_Z (10 ^ k)).

(** The literals of the script. *)
Definition n100 : number := Eval vm_compute in of_Z 100.
Definition n0_8 : number := Eval vm_compute in decimal 8 1.
Definition n0_6 : number := Eval vm_compute in decimal 6 1.
Definition n0 : number := S754_zero false.
Definition n1 : number := Eval vm_compute in of_Z 1.

Definition is_nan (x : number) : bool :=
  match x with S754_nan => true | _ => false end.

Definition is_finite (x : number) : bool :=
  match x with S754_zero _ | S754_finite _ _ _ => true | _ => false end.

(** A [spec_float] that is a binary64 value: 53 bits of mantissa at most,
    in canonical form. *)
Definition valid (x : number) : bool := valid_binary prec emax x.

(** The exact value of a finite Number. *)
Definition pow2 (k : Z) : positive := Z.to_pos (2 ^ k).

Definition to_Q (x : number) : Q :=
  match x with
  | S754_finite s m e =>
      if 0 <=? e then inject_Z (cond_Zopp s (Zpos m * 2 ^ e))
      else Qmake (cond_Zopp s (Zpos m)) (pow2 (- e))
  | _ => 0%Q
  end.

(** ** Relational operators

    [x < y] is the abstract operation IsLessThan: undefined ([None]) when
    an operand is NaN.  [x >= y] is [false] when IsLessThan(x, y) is true
    or undefined, and [true] otherwise. *)
Definition IsLessThan (x y : number) : option bool :=
  match SFcompare x y with
  | None => None
  | Some Lt => Some true
  | Some _ => Some false
  end.

Definition js_lt (x y : number) : bool :=
  match IsLessThan x y with Some true => true | _ => false end.

Definition js_ge (x y : number) : bool :=
  match IsLessThan x y with Some false => true | _ => false end.

(** [x <= y] is [false] when IsLessThan(y, x) is true or undefined. *)
Definition js_le (x y : number) : bool :=
  match IsLessThan y x with Some false => true | _ => false end.

(** ** [getScoreColor] *)
Definition getScoreColor (score : number) : string :=
  if js_ge score n0_8 then "success"
  else if js_ge score n0_6 then "warning"
  else "secondary".

(** ** [Number.prototype.toFixed] at one fraction digit

    The builtin works on the exact value [x] of the Number: it takes the
    integer [n] for which [n / 10 - x] is as close to zero as possible (the
    larger one if there are two), writes the decimal digits of [n], pads
    them on the left to two characters and puts the point before the last
    one.  Negative values are handled through their magnitude; NaN and the
    infinities print their names. *)

Definition digit_char (d : Z) : ascii := ascii_of_nat (48 + Z.to_nat d).

Fixpoint dec_digits_aux (fuel : nat) (n : Z) : list ascii :=
  match fuel with
  | O => []
  | S fuel' =>
      if n <? 10 then [digit_char n]
      else dec_digits_aux fuel' (n / 10) ++ [digit_char (n mod 10)]
  end.

(** The digits of the decimal representation of [n >= 0]. *)
Definition dec_digits (n : Z) : list ascii :=
  dec_digits_aux (S (Z.to_nat (Z.log2 n))) n.

(** [n] with [n / 10 - x] closest to zero, ties to the larger [n], for
    [x = m * 2^e]: the floor of [10 x + 1/2]. *)
Definition nearest_tenths (m : positive) (e : Z) : Z :=
  if 0 <=? e then 10 * (Zpos m * 2 ^ e)
  else (20 * Zpos m + 2 ^ (- e)) / (2 * 2 ^ (- e)).

(** Steps 10.c-10.d of the builtin for one fraction digit. *)
Definition insert_point (ds : list ascii) : list ascii :=
  let k := length ds in
  let ds' := if (k <=? 1)%nat then repeat "0"%char (2 - k) ++ ds else ds in
  let k' := length ds' in
  take (k' - 1) ds' ++ "."%char :: drop (k' - 1) ds'.

(** Is [m * 2^e >= 10^21]? *)
Definition ge_1e21 (m : positive) (e : Z) : bool :=
  if 0 <=? e then 10 ^ 21 <=? Zpos m * 2 ^ e
  else 10 ^ 21 * 2 ^ (- e) <=? Zpos m.

(** [None] stands for the one branch that is not modelled: a magnitude of
    [10^21] or more, which the builtin hands to Number::toString and its
    exponent notation. *)
Definition toFixed1 (x : number) : option string :=
  match x with
  | S754_nan => Some "NaN"%string
  | S754_infinity false => Some "Infinity"%string
  | S754_infinity true => Some "-Infinity"%string
  | S754_zero _ => Some (string_of_list_ascii (insert_point (dec_digits 0)))
  | S754_finite s m e =>
      if ge_1e21 m e then None
      else
        let body := insert_point (dec_digits (nearest_tenths m e)) in
        Some (string_of_list_ascii ((if s then ["-"%char] else []) ++ body))
  end.

(** ** [formatScore] *)
Definition formatScore (score : number) : option string :=
  match toFixed1 (mul score n100) with
  | Some s => Some (s ++ "%")%string
  | None => None
  end.

(** ** The reading of the specification

    "The percentage of s rounded to one decimal": the exact product
    [s * 100], rounded to the nearest tenth, written with one digit after
    the point. *)
Definition round_tenths (q : Q) : Z := Qfloor (q * 10 + (1 # 2))%Q.

Definition show_tenths (n : Z) : string :=
  string_of_list_ascii
    (dec_digits (n / 10) ++ "."%char :: [digit_char (n mod 10)]).

Definition percent_exact (s : number) : string :=
  (show_tenths (round_tenths (to_Q s * 100)) ++ "%")%string.

(** ** Two scores *)

(** The Numbers the literals [0.873] and [0.0315] denote. *)
Definition score_0_873 : number := Eval vm_compute in decimal 873 3.
Definition score_0_0315 : number := Eval vm_compute in decimal 315 4.

(** ** Vocabulary of the properties of the scores *)

(** The tiers of the colours, lowest first. *)
Definition tier (label : string) : nat :=
  if String.eqb label "success" then 2%nat
  else if String.eqb label "warning" then 1%nat
  else 0%nat.

(** Whether a shifted mantissa has lost a bit that was set. *)
Definition inexact (mrs : shr_record) : bool := shr_r mrs || shr_s mrs.

End Number.

(* ===================================================================== *)
(** * The page and its handlers *)
(* ===================================================================== *)

Module Dom.

Open Scope nat_scope.
Open Scope string_scope.

(** ** Errors *)

(** What a handler can throw and a promise can be rejected with. *)
Inductive Exn :=
  | TypeError (what : string)   (* a property read or a call on null or
                                   undefined, a call of what is not a
                                   function, a value without a primitive *)
  | SyntaxError                 (* [response.json()] on a body that is not JSON *)
  | NetworkError.               (* the rejection of [fetch] *)

(** ** Values decoded from a response body *)

(** What [JSON.parse] returns.  A number carries the text ToString gives
    it, which is all the script can observe of it; an object carries its
    own properties, each key once. *)
Inductive Json :=
  | JNull
  | JBool (b : bool)
  | JNum (text : string)
  | JStr (s : string)
  | JArr (items : list Json)
  | JObj (props : list (string * Json)).

(** How a [fetch] ends: rejected, or fulfilled with a response whose body
    decodes ([Some]) or does not ([None]). *)
Inductive FetchOutcome :=
  | Rejected
  | Response (body : option Json).

(** ** Elements *)

Record Button := {
  btn_type : option string;        (* the [type] attribute, in lower case *)
  btn_innerHTML : string;
  btn_disabled : bool }.

(** The state of a control that holds one text: [Text] for an input in
    value mode (text, hidden, number, ...), a [textarea] or a [select]
    with one selected option, with its value and its default value;
    [Check] for a checkbox or a radio button, with the value of its
    [value] attribute ([on] where there is none), its checkedness and
    its default checkedness.  File inputs, [select multiple], the
    [dirname] attribute and the hidden input named [_charset_] are not
    modelled. *)
Inductive Control :=
  | Text (value default : string)
  | Check (value : string) (checked default : bool).

(** A listed control of a form other than a button.  [fld_name] is its
    [name] attribute, empty where there is none; [fld_disabled]: the
    control is disabled, by its own attribute or by a [fieldset]. *)
Record Field := {
  fld_name : string;
  fld_disabled : bool;
  fld_control : Control }.

(** [form_named]: the names, other than the names of its fields, under
    which the form element answers to a property read: the [id]
    attributes of its fields, and the [name] and [id] attributes of its
    buttons, fieldsets, outputs, objects and images. *)
Record Form := {
  form_feedback : bool;              (* carries the class [feedback-form] *)
  form_student : option string;      (* [data-student] *)
  form_scholarship : option string;  (* [data-scholarship] *)
  form_fields : list Field;          (* document order *)
  form_buttons : list Button;        (* descendant buttons, document order *)
  form_named : list string;
  form_collapse : option nat }.      (* what [closest('.collapse')] finds *)

(** An element of class [collapse]. [panel_show]: it also has the class
    [show]. [panel_instance]: Bootstrap holds a Collapse instance for it,
    so that [bootstrap.Collapse.getInstance] does not return null. *)
Record Panel := {
  panel_id : string;
  panel_show : bool;
  panel_instance : bool }.

(** A child of the container; [node_id] is the identity of the element. *)
Record Node := {
  node_id : nat;
  node_className : string;
  node_innerHTML : string }.

(** A pending [setTimeout]: the only callback the script registers is the
    removal of an alert, so a timer is its due time and the [alertDiv] its
    closure holds. *)
Record Timer := {
  timer_due : nat;
  timer_node : nat }.

(** A call of [fetch]. *)
Record Request := {
  req_method : string;
  req_url : string;
  req_body : option (list (string * string)) }.

(** ** The page *)

Record Page := {
  page_forms : list Form;              (* [querySelectorAll('form')] *)
  page_panels : list Panel;            (* [querySelectorAll('.collapse')] *)
  page_toggles : list (option string); (* [data-bs-target] of each [.feedback-btn] *)
  page_container : option (list Node); (* children of the first [.container] *)
  page_timers : list Timer;
  page_fetched : list Request;         (* every [fetch] called, in order *)
  page_pending : list nat;             (* the [formElement] of each feedback
                                          request still in flight *)
  page_console : list string;          (* [console.error] *)
  page_uncaught : list Exn;            (* errors no handler caught *)
  page_now : nat;                      (* milliseconds *)
  page_next_node : nat }.              (* identities handed out so far *)

Definition set_forms (v : list Form) (p : Page) : Page :=
  {| page_forms := v; page_panels := page_panels p;
     page_toggles := page_toggles p; page_container := page_container p;
     page_timers := page_timers p; page_fetched := page_fetched p;
     page_pending := page_pending p;
     page_console := page_console p; page_uncaught := page_uncaught p;
     page_now := page_now p; page_next_node := page_next_node p |}.

Definition set_panels (v : list Panel) (p : Page) : Page :=
  {| page_forms := page_forms p; page_panels := v;
     page_toggles := page_toggles p; page_container := page_container p;
     page_timers := page_timers p; page_fetched := page_fetched p;
     page_pending := page_pending p;
     page_console := page_console p; page_uncaught := page_uncaught p;
     page_now := page_now p; page_next_node := page_next_node p |}.

Definition set_container (v : option (list Node)) (p : Page) : Page :=
  {| page_forms := page_forms p; page_panels := page_panels p;
     page_toggles := page_toggles p; page_container := v;
     page_timers := page_timers p; page_fetched := page_fetched p;
     page_pending := page_pending p;
     page_console := page_console p; page_uncaught := page_uncaught p;
     page_now := page_now p; page_next_node := page_next_node p |}.

Definition set_timers (v : list Timer) (p : Page) : Page :=
  {| page_forms := page_forms p; page_panels := page_panels p;
     page_toggles := page_toggles p; page_container := page_container p;
     page_timers := v; page_fetched := page_fetched p;
     page_pending := page_pending p;
     page_console := page_console p; page_uncaught := page_uncaught p;
     page_now := page_now p; page_next_node := page_next_node p |}.

Definition set_fetched (v : list Request) (p : Page) : Page :=
  {| page_forms := page_forms p; page_panels := page_panels p;
     page_toggles := page_toggles p; page_container := page_container p;
     page_timers := page_timers p; page_fetched := v;
     page_pending := page_pending p;
     page_console := page_console p; page_uncaught := page_uncaught p;
     page_now := page_now p; page_next_node := page_next_node p |}.

Definition set_pending (v : list nat) (p : Page) : Page :=
  {| page_forms := page_forms p; page_panels := page_panels p;
     page_toggles := page_toggles p; page_container := page_container p;
     page_timers := page_timers p; page_fetched := page_fetched p;
     page_pending := v;
     page_console := page_console p; page_uncaught := page_uncaught p;
     page_now := page_now p; page_next_node := page_next_node p |}.

Definition set_console (v : list string) (p : Page) : Page :=
  {| page_forms := page_forms p; page_panels := page_panels p;
     page_toggles := page_toggles p; page_container := page_container p;
     page_timers := page_timers p; page_fetched := page_fetched p;
     page_pending := page_pending p;
     page_console := v; page_uncaught := page_uncaught p;
     page_now := page_now p; page_next_node := page_next_node p |}.

Definition set_uncaught (v : list Exn) (p : Page) : Page :=
  {| page_forms := page_forms p; page_panels := page_panels p;
     page_toggles := page_toggles p; page_container := page_container p;
     page_timers := page_timers p; page_fetched := page_fetched p;
     page_pending := page_pending p;
     page_console := page_console p; page_uncaught := v;
     page_now := page_now p; page_next_node := page_next_node p |}.

Definition set_now (v : nat) (p : Page) : Page :=
  {| page_forms := page_forms p; page_panels := page_panels p;
     page_toggles := page_toggles p; page_container := page_container p;
     page_timers := page_timers p; page_fetched := page_fetched p;
     page_pending := page_pending p;
     page_console := page_console p; page_uncaught := page_uncaught p;
     page_now := v; page_next_node := page_next_node p |}.

Definition set_next_node (v : nat) (p : Page) : Page :=
  {| page_forms := page_forms p; page_panels := page_panels p;
     page_toggles := page_toggles p; page_container := page_container p;
     page_timers := page_timers p; page_fetched := page_fetched p;
     page_pending := page_pending p;
     page_console := page_console p; page_uncaught := page_uncaught p;
     page_now := page_now p; page_next_node := v |}.

(** ** Handlers as computations

    A handler reads and writes the page and may throw; what it wrote
    before throwing stays written. *)

Inductive Res (A : Type) :=
  | Ok (a : A)
  | Throw (e : Exn).
Arguments Ok {A} a.
Arguments Throw {A} e.

Definition M (A : Type) : Type := Page -> Res A * Page.

Definition ret {A} (a : A) : M A := fun p => (Ok a, p).

Definition throw {A} (e : Exn) : M A := fun p => (Throw e, p).

Definition bind {A B} (m : M A) (k : A -> M B) : M B :=
  fun p =>
    match m p with
    | (Ok a, p') => k a p'
    | (Throw e, p') => (Throw e, p')
    end.

Definition get : M Page := fun p => (Ok p, p).

Definition modify (f : Page -> Page) : M unit := fun p => (Ok tt, f p).

Declare Scope dom_scope.
Delimit Scope dom_scope with dom.
Notation "x <- m ;; k" := (bind m (fun x => k))
  (at level 100, m at next level, right associativity) : dom_scope.
Notation "m ;; k" := (bind m (fun _ => k))
  (at level 100, right associativity) : dom_scope.
Open Scope dom_scope.

(** [promise.then(f)], seen once [promise] has settled: [f] runs on a
    fulfilment value, a rejection passes through. *)
Definition then_ {A B} (promise : M A) (f : A -> M B) : M B := bind promise f.

(** [promise.catch(h)]: [h] runs on a rejection, and what it returns or
    throws settles the result. *)
Definition catch_ {A} (promise : M A) (h : Exn -> M A) : M A :=
  fun p =>
    match promise p with
    | (Ok a, p') => (Ok a, p')
    | (Throw e, p') => h e p'
    end.

(** [promise.finally(h)]: [h] runs either way; the result settles as
    [promise] did unless [h] throws. *)
Definition finally_ {A} (promise : M A) (h : M unit) : M A :=
  fun p =>
    match promise p with
    | (r, p') =>
        match h p' with
        | (Ok _, p'') => (r, p'')
        | (Throw e, p'') => (Throw e, p'')
        end
    end.

(** [list.forEach(f)]: an exception leaves the loop. *)
Fixpoint forEach {A} (l : list A) (f : A -> M unit) : M unit :=
  match l with
  | [] => ret tt
  | x :: l' => f x ;; forEach l' f
  end.

(** ** Reading and writing elements *)

Definition with_buttons (bs : list Button) (f : Form) : Form :=
  {| form_feedback := form_feedback f; form_student := form_student f;
     form_scholarship := form_scholarship f; form_fields := form_fields f;
     form_buttons := bs; form_named := form_named f;
     form_collapse := form_collapse f |}.

Definition with_fields (fs : list Field) (f : Form) : Form :=
  {| form_feedback := form_feedback f; form_student := form_student f;
     form_scholarship := form_scholarship f; form_fields := fs;
     form_buttons := form_buttons f; form_named := form_named f;
     form_collapse := form_collapse f |}.

Definition fld_value (fd : Field) : string :=
  match fld_control fd with
  | Text value _ => value
  | Check value _ _ => value
  end.

(** A form element is a legacy platform object whose named properties
    come before the properties of its prototype chain: [form.key] is the
    control listed under the name or id [key], if there is one, whatever
    [HTMLFormElement.prototype] holds under [key]. *)
Definition named (f : Form) (key : string) : bool :=
  existsb (String.eqb key) (form_named f) ||
  existsb (fun fd => String.eqb (fld_name fd) key) (form_fields f).

(** [form.key(...)] for a method [key] of the prototype: where a control
    goes by that name, what is called is an element, not a function. *)
Definition method (form : nat) (key : string) : M unit :=
  p <- get ;;
  match page_forms p !! form with
  | Some f =>
      if named f key then throw (TypeError (key ++ " is not a function"))
      else ret tt
  | None => ret tt
  end.

Definition set_innerHTML (html : string) (b : Button) : Button :=
  {| btn_type := btn_type b; btn_innerHTML := html;
     btn_disabled := btn_disabled b |}.

Definition set_disabled (d : bool) (b : Button) : Button :=
  {| btn_type := btn_type b; btn_innerHTML := btn_innerHTML b;
     btn_disabled := d |}.

Definition set_show (v : bool) (pn : Panel) : Panel :=
  {| panel_id := panel_id pn; panel_show := v;
     panel_instance := panel_instance pn |}.

(** Apply [g] to the first element that satisfies [sel]. *)
Fixpoint update_first {A} (sel : A -> bool) (g : A -> A) (l : list A) : list A :=
  match l with
  | [] => []
  | x :: l' => if sel x then g x :: l' else x :: update_first sel g l'
  end.

(** The selector [button[type="submit"]]. *)
Definition is_submit (b : Button) : bool :=
  match btn_type b with
  | Some t => String.eqb t "submit"
  | None => false
  end.

(** [form.querySelector('button[type="submit"]')]: the first match in
    document order, or null. *)
Definition submit_button (f : Form) : option Button :=
  List.find is_submit (form_buttons f).

Definition querySelector_submit (form : nat) : M (option Button) :=
  method form "querySelector" ;;
  p <- get ;;
  ret (match page_forms p !! form with
       | Some f => submit_button f
       | None => None
       end).

(** A write to a property of the button [querySelector_submit] found. *)
Definition write_submitBtn (form : nat) (g : Button -> Button) : M unit :=
  modify (fun p =>
    set_forms
      (alter (fun f => with_buttons (update_first is_submit g (form_buttons f)) f)
             form (page_forms p)) p).

(** [formElement.reset()]: every field back to its default. *)
Definition reset_control (c : Control) : Control :=
  match c with
  | Text _ default => Text default default
  | Check value _ default => Check value default default
  end.

Definition reset_field (fd : Field) : Field :=
  {| fld_name := fld_name fd; fld_disabled := fld_disabled fd;
     fld_control := reset_control (fld_control fd) |}.

Definition reset (form : nat) : M unit :=
  method form "reset" ;;
  modify (fun p =>
    set_forms
      (alter (fun f => with_fields (map reset_field (form_fields f)) f)
             form (page_forms p)) p).

(** [formElement.closest('.collapse')] *)
Definition closest_collapse (form : nat) : M (option nat) :=
  method form "closest" ;;
  p <- get ;;
  ret (match page_forms p !! form with
       | Some f =>
           match form_collapse f with
           | Some k =>
               match page_panels p !! k with
               | Some _ => Some k
               | None => None
               end
           | None => None
           end
       | None => None
       end).

(** [bootstrap.Collapse.getInstance(el).hide()]: [getInstance] returns
    null for an element without an instance, and the call on null throws;
    [hide] on an instance takes the class [show] off its element. *)
Definition Collapse_getInstance_hide (k : nat) : M unit :=
  p <- get ;;
  match page_panels p !! k with
  | Some pn =>
      if panel_instance pn
      then modify (set_panels (alter (set_show false) k (page_panels p)))
      else throw (TypeError "null.hide")
  | None => ret tt
  end.

Definition console_error (line : string) : M unit :=
  modify (fun p => set_console (page_console p ++ [line]) p).

(** ** Markup *)

Definition busy_label : string :=
  "<i class=" ++ dq ++ "fas fa-spinner fa-spin" ++ dq ++ "></i> Processing...".

Definition submit_label : string :=
  "<i class=" ++ dq ++ "fas fa-check" ++ dq ++ "></i> Submit".

Definition alert_className (type : string) : string :=
  "alert alert-" ++ type ++ " alert-dismissible fade show".

Definition alert_innerHTML (message : string) : string :=
  nl ++ "        " ++ message ++ nl ++
  "        <button type=" ++ dq ++ "button" ++ dq ++
  " class=" ++ dq ++ "btn-close" ++ dq ++
  " data-bs-dismiss=" ++ dq ++ "alert" ++ dq ++ "></button>" ++ nl ++ "    ".

(** ** [showAlert] *)

(** The banner [showAlert message type] builds on page [p]. *)
Definition alert (p : Page) (message type : string) : Node :=
  {| node_id := page_next_node p;
     node_className := alert_className type;
     node_innerHTML := alert_innerHTML message |}.

(** [document.createElement('div')]: a new element, not yet in the page. *)
Definition createElement : M nat :=
  p <- get ;;
  modify (set_next_node (S (page_next_node p))) ;;
  ret (page_next_node p).

Definition setTimeout (node : nat) (delay : nat) : M unit :=
  modify (fun p =>
    set_timers
      (page_timers p ++ [{| timer_due := page_now p + delay;
                            timer_node := node |}]) p).

Definition showAlert (message type : string) : M unit :=
  alertDiv <- createElement ;;
  let alertNode := {| node_id := alertDiv;
                      node_className := alert_className type;
                      node_innerHTML := alert_innerHTML message |} in
  p <- get ;;
  match page_container p with
  | None => throw (TypeError "null.insertBefore")
  | Some children =>
      modify (set_container (Some (alertNode :: children))) ;;
      setTimeout alertDiv 5000
  end.

Definition attached (node : nat) (p : Page) : bool :=
  match page_container p with
  | Some children => existsb (fun c => Nat.eqb (node_id c) node) children
  | None => false
  end.

(** [alertDiv.remove()] *)
Definition remove (node : nat) : M unit :=
  modify (fun p =>
    match page_container p with
    | Some children =>
        set_container
          (Some (List.filter (fun c => negb (Nat.eqb (node_id c) node)) children)) p
    | None => p
    end).

(** The callback [showAlert] hands to [setTimeout]. *)
Definition alert_timeout (alertDiv : nat) : M unit :=
  p <- get ;;
  if attached alertDiv p then remove alertDiv else ret tt.

(** ** [submitFeedback] *)

(** The property [key] of a value that is not null: undefined ([None])
    where there is none. *)
Definition property (data : Json) (key : string) : option Json :=
  match data with
  | JObj props =>
      match List.find (fun kv => String.eqb (fst kv) key) props with
      | Some kv => Some (snd kv)
      | None => None
      end
  | _ => None
  end.

(** [data.key]: throws on null. *)
Definition prop (data : Json) (key : string) : M (option Json) :=
  match data with
  | JNull => throw (TypeError ("null." ++ key))
  | _ => ret (property data key)
  end.

(** [v === 'success'] *)
Definition is_success (v : option Json) : bool :=
  match v with
  | Some (JStr s) => String.eqb s "success"
  | _ => false
  end.

(** The text of a value, as string concatenation takes it (ToPrimitive,
    then ToString); [None] where the conversion throws a TypeError.  No
    value decoded from JSON is callable, so an object with an own
    property [toString] is left without a primitive value; any other
    object gets the text of [Object.prototype.toString].  An array is
    joined with commas, null standing for the empty text. *)
Definition has_own (props : list (string * Json)) (key : string) : bool :=
  existsb (fun kv => String.eqb (fst kv) key) props.

Fixpoint ToString (v : Json) : option string :=
  match v with
  | JNull => Some "null"
  | JBool b => Some (if b then "true" else "false")
  | JNum text => Some text
  | JStr s => Some s
  | JArr items =>
      option_map (String.concat ",")
        ((fix elements (l : list Json) : option (list string) :=
            match l with
            | [] => Some []
            | x :: l' =>
                match (match x with
                       | JNull => Some EmptyString
                       | _ => ToString x
                       end), elements l' with
                | Some text, Some texts => Some (text :: texts)
                | _, _ => None
                end
            end) items)
  | JObj props =>
      if has_own props "toString" then None else Some "[object Object]"
  end.

Definition to_string (v : option Json) : option string :=
  match v with
  | None => Some "undefined"
  | Some data => ToString data
  end.

Definition fetch_settled (o : FetchOutcome) : M (option Json) :=
  match o with
  | Rejected => throw NetworkError
  | Response body => ret body
  end.

Definition response_json (body : option Json) : M Json :=
  match body with
  | Some data => ret data
  | None => throw SyntaxError
  end.

(** ** The outcomes of a feedback request, as the specification names
    them *)

(** The decoded response has [status == "success"]. *)
Definition succeeded (o : FetchOutcome) : bool :=
  match o with
  | Response (Some data) => is_success (property data "status")
  | _ => false
  end.

(** The text of the error banner: the [error] of the response for an
    application error, a fixed text for a transport error and for an
    [error] that has no text. *)
Definition error_text (o : FetchOutcome) : string :=
  match o with
  | Response (Some JNull) | Response None | Rejected =>
      "Error submitting feedback. Please try again."
  | Response (Some data) =>
      match to_string (property data "error") with
      | Some text => "Error submitting feedback: " ++ text
      | None => "Error submitting feedback. Please try again."
      end
  end.

Definition fetch (r : Request) : M unit :=
  modify (fun p => set_fetched (page_fetched p ++ [r]) p).

(** The call itself: [fetch] is issued, and the chain that has captured
    [formElement] waits for it. *)
Definition submitFeedback (formData : list (string * string))
    (formElement : nat) : M unit :=
  fetch {| req_method := "POST"; req_url := "/feedback";
           req_body := Some formData |} ;;
  modify (fun p => set_pending (page_pending p ++ [formElement]) p).

(** The three callbacks of the chain. *)

(** [.then(data => ...)] *)
Definition then_data (formElement : nat) (data : Json) : M unit :=
  status <- prop data "status" ;;
  if is_success status then
    showAlert "Thank you for your feedback!" "success" ;;
    reset formElement ;;
    collapseElement <- closest_collapse formElement ;;
    match collapseElement with
    | Some k => Collapse_getInstance_hide k
    | None => ret tt
    end
  else
    error <- prop data "error" ;;
    match to_string error with
    | Some text => showAlert ("Error submitting feedback: " ++ text) "danger"
    | None => throw (TypeError "Cannot convert object to primitive value")
    end.

(** [.catch(error => ...)] *)
Definition catch_error (error : Exn) : M unit :=
  console_error "Error:" ;;
  showAlert "Error submitting feedback. Please try again." "danger".

(** [.finally(() => ...)] *)
Definition finally_enable (formElement : nat) : M unit :=
  submitBtn <- querySelector_submit formElement ;;
  match submitBtn with
  | Some _ =>
      write_submitBtn formElement (set_innerHTML submit_label) ;;
      write_submitBtn formElement (set_disabled false)
  | None => ret tt
  end.

(** The chain, run when the [fetch] has ended with [o]. *)
Definition submitFeedback_settled (o : FetchOutcome) (formElement : nat)
    : M unit :=
  finally_
    (catch_
       (then_ (then_ (fetch_settled o) response_json) (then_data formElement))
       catch_error)
    (finally_enable formElement).

(** ** The listeners installed at [DOMContentLoaded] *)

Definition FormData_append (formData : list (string * string))
    (name : string) (value : option string) : list (string * string) :=
  formData ++ [(name, match value with Some v => v | None => "undefined" end)].

(** [new FormData(form)]: the entries of the successful controls, in
    document order.  A control that is disabled, an unchecked checkbox
    or radio button, and a control without a name contribute none; nor
    does a button, as the constructor is given no submitter. *)
Definition entry (fd : Field) : option (string * string) :=
  if fld_disabled fd then None
  else
    match fld_control fd with
    | Check _ false _ => None
    | _ =>
        if String.eqb (fld_name fd) EmptyString then None
        else Some (fld_name fd, fld_value fd)
    end.

Definition FormData (f : Form) : list (string * string) :=
  omap entry (form_fields f).

(** [form.dataset.key], for the attribute [data-key] of the form: where
    a control goes by the name [dataset], it is found in place of the
    map of the data attributes, and has no such property. *)
Definition dataset (f : Form) (attribute : option string) : option string :=
  if named f "dataset" then None else attribute.

(** [submit] on a [.feedback-form] *)
Definition feedback_form_submit (this : nat) : M unit :=
  p <- get ;;
  match page_forms p !! this with
  | Some f =>
      let formData := FormData f in
      let studentId := dataset f (form_student f) in
      let scholarshipId := dataset f (form_scholarship f) in
      let formData := FormData_append formData "student_id" studentId in
      let formData := FormData_append formData "scholarship_id" scholarshipId in
      submitFeedback formData this
  | None => ret tt
  end.

(** [submit] on any form *)
Definition form_submit (this : nat) : M unit :=
  submitBtn <- querySelector_submit this ;;
  match submitBtn with
  | Some _ =>
      write_submitBtn this (set_innerHTML busy_label) ;;
      write_submitBtn this (set_disabled true)
  | None => ret tt
  end.

(** [target.substring(1)] *)
Definition substring1 (t : string) : string :=
  match t with
  | EmptyString => EmptyString
  | String _ rest => rest
  end.

(** [document.querySelectorAll('.collapse.show')]: a static list. *)
Definition querySelectorAll_collapse_show (p : Page) : list (nat * Panel) :=
  List.filter (fun kp => panel_show (snd kp)) (imap (fun k pn => (k, pn)) (page_panels p)).

(** The callback of the loop over the open panels. *)
Definition hide_other (target : option string) (openCollapse : nat * Panel)
    : M unit :=
  rest <- match target with
          | Some t => ret (substring1 t)
          | None => throw (TypeError "undefined.substring")
          end ;;
  if negb (String.eqb (panel_id (snd openCollapse)) rest)
  then Collapse_getInstance_hide (fst openCollapse)
  else ret tt.

(** [click] on a [.feedback-btn] whose [data-bs-target] is [target] *)
Definition feedback_btn_click (target : option string) : M unit :=
  p <- get ;;
  forEach (querySelectorAll_collapse_show p) (hide_other target).

(** ** Events

    What happens to a page: a form is submitted, a toggle is clicked, a
    request in flight ends, the user closes an alert, time passes.  A
    listener that throws does not stop the next one; the error is
    reported and the page goes on. *)

Inductive Event :=
  | Submit (form : nat)
  | Click (toggle : nat)
  | Settle (request : nat) (o : FetchOutcome)
  | Dismiss (node : nat)
  | Elapse (ms : nat).

(** Run a listener or callback to its end. *)
Definition dispatch (h : M unit) (p : Page) : Page :=
  match h p with
  | (Ok _, p') => p'
  | (Throw e, p') => set_uncaught (page_uncaught p' ++ [e]) p'
  end.

Definition submit_event (form : nat) (p : Page) : Page :=
  match page_forms p !! form with
  | Some f =>
      let p1 := if form_feedback f
                then dispatch (feedback_form_submit form) p else p in
      dispatch (form_submit form) p1
  | None => p
  end.

Definition click_event (toggle : nat) (p : Page) : Page :=
  match page_toggles p !! toggle with
  | Some target => dispatch (feedback_btn_click target) p
  | None => p
  end.

Definition settle_event (request : nat) (o : FetchOutcome) (p : Page) : Page :=
  match page_pending p !! request with
  | Some formElement =>
      dispatch (submitFeedback_settled o formElement)
               (set_pending (delete request (page_pending p)) p)
  | None => p
  end.

Definition is_due (now : nat) (t : Timer) : bool := (timer_due t <=? now)%nat.

(** A timer fires: its callback runs. *)
Definition fire (q : Page) (t : Timer) : Page :=
  dispatch (alert_timeout (timer_node t)) q.

Definition elapse_event (ms : nat) (p : Page) : Page :=
  let now := page_now p + ms in
  let due := List.filter (is_due now) (page_timers p) in
  let waiting := List.filter (fun t => negb (is_due now t)) (page_timers p) in
  fold_left fire due (set_now now (set_timers waiting p)).

Definition step (ev : Event) (p : Page) : Page :=
  match ev with
  | Submit form => submit_event form p
  | Click toggle => click_event toggle p
  | Settle request o => settle_event request o p
  | Dismiss node => dispatch (remove node) p
  | Elapse ms => elapse_event ms p
  end.

Definition run (evs : list Event) (p : Page) : Page :=
  fold_left (fun q ev => step ev q) evs p.

(** ** Vocabulary of the properties *)

(** The submit button after [submitFeedback] is through, and while a
    submission is under way. *)
Definition enable (b : Button) : Button :=
  set_disabled false (set_innerHTML submit_label b).

Definition busy (b : Button) : Button :=
  set_disabled true (set_innerHTML busy_label b).

(** A computation keeps a relation [R] when every page is related to
    the page the computation leaves, whether it returns or throws. *)
Definition keeps (R : relation Page) {A} (m : M A) : Prop :=
  forall p, R p (snd (m p)).

(** An invariant [I] of pages, as a relation between a page and a later
    one. *)
Definition preserves (I : Page -> Prop) : relation Page :=
  fun p q => I p -> I q.

(** The buttons of form [i] are the same in [q] as in [p]. *)
Definition same_buttons (i : nat) (p q : Page) : Prop :=
  form_buttons <$> page_forms q !! i = form_buttons <$> page_forms p !! i.

(** Form [i] answers to the same names in [q] as in [p]. *)
Definition same_named (i : nat) (p q : Page) : Prop :=
  forall key,
    (fun f => named f key) <$> page_forms q !! i =
    (fun f => named f key) <$> page_forms p !! i.

(** A field [fd'] that is the field [fd] at its default: a text at its
    default value, a box at its default checkedness. *)
Definition at_default (fd fd' : Field) : Prop :=
  fld_name fd' = fld_name fd /\ fld_disabled fd' = fld_disabled fd /\
  match fld_control fd, fld_control fd' with
  | Text _ default, Text value' default' =>
      value' = default /\ default' = default
  | Check value _ default, Check value' checked' default' =>
      value' = value /\ checked' = default /\ default' = default
  | _, _ => False
  end.

(** A panel without the class [show]. *)
Definition closed (pn : Panel) : Panel :=
  {| panel_id := panel_id pn; panel_show := false;
     panel_instance := panel_instance pn |}.

(** The container, the panels and the timers are the same in [q] as in
    [p]. *)
Definition same_display (p q : Page) : Prop :=
  page_container q = page_container p /\ page_panels q = page_panels p /\
  page_timers q = page_timers p /\ page_next_node q = page_next_node p.

(** [q] shows the same banners as [p], at the same time, with the same
    timers pending. *)
Definition same_alerts (p q : Page) : Prop :=
  page_container q = page_container p /\ page_timers q = page_timers p /\
  page_now q = page_now p /\ page_next_node q = page_next_node p.

(** What one round of the loop of [feedback_btn_click] does to the
    panels. *)
Definition hide_step (rest : string) (ps : list Panel) (kp : nat * Panel)
    : list Panel :=
  if negb (String.eqb (panel_id (snd kp)) rest)
  then alter (set_show false) (fst kp) ps
  else ps.

(** The life of a banner [a] whose timer is due at [due]: on the page
    with its timer pending before [due], off the page from [due] on. *)
Definition shown (a : Node) (p : Page) : Prop :=
  exists children, page_container p = Some children /\ In a children.

Definition alive (a : Node) (due : nat) (p : Page) : Prop :=
  page_now p < due /\ shown a p /\
  In {| timer_due := due; timer_node := node_id a |} (page_timers p).

Definition gone (a : Node) (due : nat) (p : Page) : Prop :=
  due <= page_now p /\ attached (node_id a) p = false.

Definition alert_inv (a : Node) (due : nat) (p : Page) : Prop :=
  node_id a < page_next_node p /\
  (forall t, In t (page_timers p) -> timer_node t = node_id a ->
             timer_due t = due) /\
  (alive a due p \/ gone a due p).

(** No timer holds an element that does not exist yet. *)
Definition timers_fresh (p : Page) : Prop :=
  forall t, In t (page_timers p) -> timer_node t < page_next_node p.

(** ** A page

    One feedback form, labelled [Send], inside the panel [feedback-7],
    which is open; a second panel; a toggle for each, and a third toggle
    that names its panel by [href] and carries no [data-bs-target]; an
    empty container. *)

Definition send_button : Button :=
  {| btn_type := Some "submit"; btn_innerHTML := "Send";
     btn_disabled := false |}.

Definition rating_form : Form :=
  {| form_feedback := true; form_student := Some "42";
     form_scholarship := Some "7";
     form_fields :=
       [{| fld_name := "rating"; fld_disabled := false;
           fld_control := Text "5" "" |}];
     form_buttons := [send_button]; form_named := [];
     form_collapse := Some 0 |}.

Definition demo_page : Page :=
  {| page_forms := [rating_form];
     page_panels :=
       [{| panel_id := "feedback-7"; panel_show := true;
           panel_instance := true |};
        {| panel_id := "feedback-8"; panel_show := false;
           panel_instance := true |}];
     page_toggles := [Some "#feedback-7"; Some "#feedback-8"; None];
     page_container := Some [];
     page_timers := []; page_fetched := []; page_pending := [];
     page_console := []; page_uncaught := [];
     page_now := 0; page_next_node := 0 |}.

(** The same page without an element of class [container]. *)
Definition no_container_page : Page := set_container None demo_page.

(** The same page, served with the panel open: Bootstrap has made no
    Collapse instance for it. *)
Definition served_open_page : Page :=
  set_panels
    [{| panel_id := "feedback-7"; panel_show := true;
        panel_instance := false |};
     {| panel_id := "feedback-8"; panel_show := false;
        panel_instance := true |}] demo_page.

Definition success_body : Json := JObj [("status", JStr "success")].



(** The same page, its form with one more control, which goes by the
    name or the id [key]; its button is busy. *)
Definition shadowing_form (key : string) : Form :=
  {| form_feedback := true; form_student := Some "42";
     form_scholarship := Some "7";
     form_fields := form_fields rating_form;
     form_buttons := [busy send_button]; form_named := [key];
     form_collapse := Some 0 |}.

Definition shadowing_page (key : string) : Page :=
  set_forms [shadowing_form key] demo_page.



(** ** Vocabulary of the properties of runs *)

(** A panel [pn'] that is [pn], possibly closed. *)
Definition closed_or_same (pn pn' : Panel) : Prop :=
  panel_id pn' = panel_id pn /\ panel_instance pn' = panel_instance pn /\
  (panel_show pn' = true -> panel_show pn = true).

(** The panels of [q] are those of [p], some of them closed. *)
Definition only_closes (p q : Page) : Prop :=
  Forall2 closed_or_same (page_panels p) (page_panels q).

(** [q] differs from [p] in its panels and its reported errors only. *)
Definition same_but_panels (p q : Page) : Prop :=
  page_forms q = page_forms p /\ page_toggles q = page_toggles p /\
  page_container q = page_container p /\ page_timers q = page_timers p /\
  page_fetched q = page_fetched p /\ page_pending q = page_pending p /\
  page_console q = page_console p /\ page_now q = page_now p /\
  page_next_node q = page_next_node p.

(** Form [j] is the same in [q] as in [p]. *)
Definition same_form (j : nat) (p q : Page) : Prop :=
  page_forms q !! j = page_forms p !! j.

(** The requests in flight are the same in [q] as in [p]. *)
Definition same_pending (p q : Page) : Prop :=
  page_pending q = page_pending p.




(** What the page has logged and reported is the same in [q] as in [p]. *)
Definition same_console (p q : Page) : Prop :=
  page_console q = page_console p.

Definition same_uncaught (p q : Page) : Prop :=
  page_uncaught q = page_uncaught p.

(** The page has an element of class [container]. *)
Definition has_container (p : Page) : Prop := page_container p <> None.

(** Every pending timer is due later than now, and within 5000 ms. *)
Definition timers_pending (p : Page) : Prop :=
  forall t, In t (page_timers p) ->
            page_now p < timer_due t <= page_now p + 5000.

(** A request to the feedback endpoint. *)
Definition is_feedback_request (r : Request) : Prop :=
  req_method r = "POST" /\ req_url r = "/feedback" /\ req_body r <> None.

(** What [q] has fetched since [p] are requests to the feedback
    endpoint. *)
Definition fetches_feedback (p q : Page) : Prop :=
  exists rs, page_fetched q = (page_fetched p ++ rs)%list /\
             Forall is_feedback_request rs.

(** A field, possibly reset; a button, possibly with another label and
    flag; a form with such fields and buttons. *)
Definition reset_or_same (fd fd' : Field) : Prop :=
  fd' = fd \/ fd' = reset_field fd.

Definition relabelled (b b' : Button) : Prop :=
  btn_type b' = btn_type b /\ (is_submit b = false -> b' = b).

Definition form_evolves (f f' : Form) : Prop :=
  form_feedback f' = form_feedback f /\
  form_student f' = form_student f /\
  form_scholarship f' = form_scholarship f /\
  form_collapse f' = form_collapse f /\
  form_named f' = form_named f /\
  Forall2 reset_or_same (form_fields f) (form_fields f') /\
  Forall2 relabelled (form_buttons f) (form_buttons f').

Definition forms_evolve (p q : Page) : Prop :=
  Forall2 form_evolves (page_forms p) (page_forms q).

(** Every child of the container of [q] was a child in [p0] or is held
    by a pending timer. *)
Definition banners_timed (p0 q : Page) : Prop :=
  forall cs c, page_container q = Some cs -> In c cs ->
    (exists cs0, page_container p0 = Some cs0 /\ In c cs0) \/
    (exists t, In t (page_timers q) /\ timer_node t = node_id c).

End Dom.

(* ===================================================================== *)
(** * [ScholarshipAPI] *)
(* ===================================================================== *)

Module ScholarshipAPI.

Import Dom.
Open Scope string_scope.
Open Scope dom_scope.

(** [getRecommendations(studentId, topN = 10)], with [o] the way its
    [fetch] ends.  The arguments are taken as the text the template
    literal makes of them; [None] is an omitted [topN].  The function is
    [async]: [Ok v] is the value its promise is fulfilled with, [Throw] a
    rejection. *)
Definition getRecommendations (o : FetchOutcome) (studentId : string)
    (topN : option string) : M Json :=
  let topN := match topN with Some n => n | None => "10" end in
  catch_
    (fetch {| req_method := "GET";
              req_url := "/api/recommend/" ++ studentId ++ "?top_n=" ++ topN;
              req_body := None |} ;;
     response <- fetch_settled o ;;
     response_json response)
    (fun error =>
       console_error "API Error:" ;;
       ret JNull).

End ScholarshipAPI.

(* ===================================================================== *)
(** * Properties of the score helpers *)
(* ===================================================================== *)

Section NumberFacts.

Import Number.
Open Scope Z_scope.

(** ** Comparisons *)

Lemma IsLessThan_not_nan x y :
  is_nan x = false -> is_nan y = false -> exists b, IsLessThan x y = Some b.
Proof.
  intros Hx Hy. unfold IsLessThan.
  assert (exists c, SFcompare x y = Some c) as [c ->].
  { destruct x as [sx|sx| |sx mx ex]; try discriminate;
    destruct y as [sy|sy| |sy my ey]; try discriminate; simpl; eauto. }
  destruct c; eauto.
Qed.

Lemma js_ge_false_lt x y :
  is_nan x = false -> is_nan y = false -> js_ge x y = false -> js_lt x y = true.
Proof.
  intros Hx Hy. destruct (IsLessThan_not_nan x y Hx Hy) as [b Hb].
  unfold js_ge, js_lt. rewrite Hb. destruct b; congruence.
Qed.

Lemma js_lt_ge_false x y : js_lt x y = true -> js_ge x y = false.
Proof.
  unfold js_ge, js_lt. destruct (IsLessThan x y) as [[|]|]; congruence.
Qed.

Lemma js_le_ge x y : js_le x y = js_ge y x.
Proof. reflexivity. Qed.

(** The order of a Number against a positive, finite one, read off the
    exponent and the mantissa. *)
Lemma js_lt_finite_pos m e mc ec :
  js_lt (S754_finite false m e) (S754_finite false mc ec) = true <->
  e < ec \/ (e = ec /\ Zpos m < Zpos mc).
Proof.
  unfold js_lt, IsLessThan. cbn [SFcompare].
  destruct (Z.compare_spec e ec) as [He|He|He].
  - rewrite Pos.compare_cont_spec. cbn [Pos.switch_Eq].
    change (Pos.compare m mc) with (Z.compare (Zpos m) (Zpos mc)).
    destruct (Z.compare_spec (Zpos m) (Zpos mc)); split; intros;
      try discriminate; try reflexivity; lia.
  - split; [lia | reflexivity].
  - split; [discriminate | lia].
Qed.

Lemma js_lt_0_6_0_8 s : js_lt s n0_6 = true -> js_lt s n0_8 = true.
Proof.
  destruct s as [sx|[|]| |[|] m e]; cbn; try congruence.
  change (js_lt (S754_finite false m e) n0_6 = true ->
          js_lt (S754_finite false m e) n0_8 = true).
  unfold n0_6, n0_8. intros H.
  apply js_lt_finite_pos in H. apply js_lt_finite_pos. lia.
Qed.

Lemma getScoreColor_success s : js_ge s n0_8 = true -> getScoreColor s = "success"%string.
Proof. unfold getScoreColor. intros ->. reflexivity. Qed.

Lemma getScoreColor_warning s :
  js_ge s n0_8 = false -> js_ge s n0_6 = true -> getScoreColor s = "warning"%string.
Proof. unfold getScoreColor. intros -> ->. reflexivity. Qed.

Lemma getScoreColor_secondary s :
  js_ge s n0_8 = false -> js_ge s n0_6 = false -> getScoreColor s = "secondary"%string.
Proof. unfold getScoreColor. intros -> ->. reflexivity. Qed.

(** C4. For every score [s] (every Number that is not NaN),
    [getScoreColor s] is ["success"] iff [s >= 0.8], ["warning"] iff
    [0.6 <= s < 0.8], and ["secondary"] iff [s < 0.6]; the lower bound of
    each tier belongs to the tier.  The comparisons are those of the
    language, against the Numbers the literals [0.8] and [0.6] denote. *)
Theorem getScoreColor_tiers (s : number) :
  is_nan s = false ->
  (getScoreColor s = "success"%string <-> js_ge s n0_8 = true) /\
  (getScoreColor s = "warning"%string <->
     js_le n0_6 s = true /\ js_lt s n0_8 = true) /\
  (getScoreColor s = "secondary"%string <-> js_lt s n0_6 = true).
Proof.
  intros Hs. rewrite js_le_ge.
  assert (H68 : js_ge s n0_6 = false -> js_ge s n0_8 = false).
  { intros H6. apply js_ge_false_lt in H6; [|assumption|reflexivity].
    now apply js_lt_ge_false, js_lt_0_6_0_8. }
  assert (Hlt : forall c, is_nan c = false ->
                  (js_lt s c = true <-> js_ge s c = false)).
  { intros c Hc. split; [apply js_lt_ge_false | now apply js_ge_false_lt]. }
  rewrite (Hlt n0_8), (Hlt n0_6) by reflexivity.
  unfold getScoreColor.
  destruct (js_ge s n0_8) eqn:H8; destruct (js_ge s n0_6) eqn:H6;
    try (specialize (H68 eq_refl); discriminate);
    (split; [|split]); split; try discriminate; try reflexivity;
    try (intros [? ?]; discriminate); auto.
Qed.

(** At the boundary [0.8] itself. *)
Lemma getScoreColor_tiers_witness :
  is_nan n0_8 = false /\
  (getScoreColor n0_8 = "success"%string <-> js_ge n0_8 n0_8 = true) /\
  (getScoreColor n0_8 = "warning"%string <->
     js_le n0_6 n0_8 = true /\ js_lt n0_8 n0_8 = true) /\
  (getScoreColor n0_8 = "secondary"%string <-> js_lt n0_8 n0_6 = true).
Proof.
  split; [reflexivity | apply (getScoreColor_tiers n0_8); reflexivity].
Defined.

(** The boundaries are inclusive, and the Number just below [0.8] is a
    warning. *)
Example getScoreColor_boundaries :
  getScoreColor n0_8 = "success"%string /\
  getScoreColor n0_6 = "warning"%string /\
  getScoreColor (SFpred prec emax n0_8) = "warning"%string /\
  getScoreColor (SFpred prec emax n0_6) = "secondary"%string.
Proof. repeat split; vm_compute; reflexivity. Qed.

(** C9. [getScoreColor] is total over all Numbers: above [1] it still
    returns ["success"], below [0] it returns ["secondary"], for NaN,
    where both comparisons are false, it returns ["secondary"]; it returns
    one of the three labels and nothing else. *)
Theorem getScoreColor_total (s : number) :
  (js_lt n1 s = true -> getScoreColor s = "success"%string) /\
  (js_lt s n0 = true -> getScoreColor s = "secondary"%string) /\
  (is_nan s = true -> getScoreColor s = "secondary"%string) /\
  (getScoreColor s = "success"%string \/ getScoreColor s = "warning"%string \/
   getScoreColor s = "secondary"%string).
Proof.
  repeat split.
  - destruct s as [sx|[|]| |[|] m e]; cbn; try congruence.
    change (js_lt n1 (S754_finite false m e) = true ->
            getScoreColor (S754_finite false m e) = "success"%string).
    unfold n1. intros H. apply js_lt_finite_pos in H.
    apply getScoreColor_success.
    destruct (js_ge (S754_finite false m e) n0_8) eqn:E; [reflexivity|].
    apply js_ge_false_lt in E; [|reflexivity|reflexivity].
    unfold n0_8 in E. apply js_lt_finite_pos in E. lia.
  - destruct s as [[|]|[|]| |[|] m e]; cbn; congruence.
  - destruct s; cbn; congruence.
  - unfold getScoreColor.
    destruct (js_ge s n0_8); [|destruct (js_ge s n0_6)]; auto.
Qed.

(** At NaN, at [100] and at [-1]. *)
Lemma getScoreColor_total_witness :
  getScoreColor S754_nan = "secondary"%string /\
  getScoreColor n100 = "success"%string /\
  getScoreColor (SFopp n1) = "secondary"%string.
Proof.
  split; [|split].
  - destruct (getScoreColor_total S754_nan) as (_ & _ & Hnan & _).
    apply Hnan. reflexivity.
  - destruct (getScoreColor_total n100) as (Habove & _).
    apply Habove. reflexivity.
  - destruct (getScoreColor_total (SFopp n1)) as (_ & Hbelow & _).
    apply Hbelow. reflexivity.
Defined.

(** ** Mantissa sizes *)

Lemma digits2_pos_size p : digits2_pos p = Pos.size p.
Proof. induction p; simpl; congruence. Qed.

Lemma digits2_pos_gt p : Zpos p < 2 ^ Zpos (digits2_pos p).
Proof.
  rewrite digits2_pos_size.
  generalize (Pos.size_gt p). intros H.
  apply Pos2Z.pos_lt_pos in H. now rewrite Pos2Z.inj_pow in H.
Qed.

Lemma digits2_pos_le p k : 0 <= k -> Zpos p < 2 ^ k -> Zpos (digits2_pos p) <= k.
Proof.
  intros Hk Hp. rewrite digits2_pos_size.
  generalize (Pos.size_le p). intros H.
  apply Pos2Z.pos_le_pos in H. rewrite Pos2Z.inj_pow in H.
  change (Z.pos p~0) with (2 * Z.pos p) in H.
  assert (2 ^ Zpos (Pos.size p) < 2 ^ (k + 1)).
  { rewrite Z.pow_add_r by lia. change (2 ^ 1) with 2. lia. }
  apply Z.pow_lt_mono_r_iff in H0; lia.
Qed.

Lemma Zdigits2_le x k : 0 <= k -> 0 <= x < 2 ^ k -> Zdigits2 x <= k.
Proof.
  intros Hk [H0 Hx]. destruct x as [|p|p]; simpl; [lia| |lia].
  now apply digits2_pos_le.
Qed.

(** ** Shifting a mantissa right *)

Lemma shr_1_m mrs :
  0 <= shr_m mrs -> 0 <= shr_m (shr_1 mrs) /\ 2 * shr_m (shr_1 mrs) <= shr_m mrs.
Proof.
  destruct mrs as [m r s]. simpl.
  destruct m as [|[p|p|]|[p|p|]]; simpl; lia.
Qed.

Lemma iter_shr_1_m p : forall mrs,
  0 <= shr_m mrs ->
  0 <= shr_m (SpecFloat.iter_pos shr_1 p mrs) /\
  2 ^ Zpos p * shr_m (SpecFloat.iter_pos shr_1 p mrs) <= shr_m mrs.
Proof.
  induction p as [p IH|p IH|]; intros mrs H; simpl SpecFloat.iter_pos.
  - destruct (shr_1_m mrs H) as [Ha1 Ha2].
    destruct (IH _ Ha1) as [Hb1 Hb2].
    destruct (IH _ Hb1) as [Hc1 Hc2].
    split; [assumption|].
    change (Z.pos p~1) with (2 * Z.pos p + 1).
    replace (2 * Zpos p + 1) with (Zpos p + Zpos p + 1) by lia.
    rewrite !Z.pow_add_r by lia. change (2 ^ 1) with 2.
    assert (0 < 2 ^ Zpos p) by (apply Z.pow_pos_nonneg; lia).
    nia.
  - destruct (IH _ H) as [Hb1 Hb2].
    destruct (IH _ Hb1) as [Hc1 Hc2].
    split; [assumption|].
    change (Z.pos p~0) with (2 * Z.pos p).
    replace (2 * Zpos p) with (Zpos p + Zpos p) by lia.
    rewrite !Z.pow_add_r by lia.
    assert (0 < 2 ^ Zpos p) by (apply Z.pow_pos_nonneg; lia).
    nia.
  - destruct (shr_1_m mrs H). change (2 ^ 1) with 2. lia.
Qed.

Lemma shr_m_spec mrs e n :
  0 <= shr_m mrs ->
  0 <= shr_m (fst (shr mrs e n)) /\
  snd (shr mrs e n) = e + Z.max 0 n /\
  2 ^ Z.max 0 n * shr_m (fst (shr mrs e n)) <= shr_m mrs.
Proof.
  intros H. destruct n as [|p|p]; cbn [shr fst snd].
  - rewrite Z.max_l by lia. change (2 ^ 0) with 1. lia.
  - destruct (iter_shr_1_m p mrs H). rewrite Z.max_r by lia. auto.
  - rewrite Z.max_l by lia. change (2 ^ 0) with 1. lia.
Qed.

Lemma shr_m_of_loc m l : shr_m (shr_record_of_loc m l) = m.
Proof. destruct l as [|[| |]]; reflexivity. Qed.

Lemma round_nearest_even_bounds m l :
  m <= round_nearest_even m l <= m + 1.
Proof.
  unfold round_nearest_even.
  destruct l as [|[| |]]; try lia. destruct (Z.even m); lia.
Qed.

(** ** The product of a score in the unit interval and 100 *)

Lemma fexp_binary64 x : fexp prec emax x = Z.max (x - 53) (-1074).
Proof. reflexivity. Qed.

Lemma pow2_pos k : 0 <= k -> 0 < 2 ^ k.
Proof. intros. apply Z.pow_pos_nonneg; lia. Qed.

Lemma pow2_le a b : 0 <= a <= b -> 2 ^ a <= 2 ^ b.
Proof. intros. apply Z.pow_le_mono_r; lia. Qed.

(** A mantissa [m] at exponent [e] whose excess over one unit, scaled back
    by [98 + e] binary places, is below [2^106], with [e <= 9], is far
    below [10^21]. *)
Lemma small_not_ge_1e21 m e D :
  e <= 9 -> e + 98 <= D -> 0 <= D ->
  2 ^ D * (Zpos m - 1) < 2 ^ 106 ->
  ge_1e21 m e = false.
Proof.
  intros He HD HD0 H. unfold ge_1e21.
  destruct (Z.leb_spec 0 e) as [He0|He0]; apply Z.leb_gt.
  - assert (H1 : 2 ^ (e + 98) * (Zpos m - 1) < 2 ^ 106).
    { eapply Z.le_lt_trans; [|exact H].
      apply Z.mul_le_mono_nonneg_r; [lia|apply pow2_le; lia]. }
    rewrite Z.pow_add_r in H1 by lia.
    assert (H2 : 2 ^ e <= 2 ^ 9) by (apply pow2_le; lia).
    assert (H3 : 0 < 2 ^ e) by (apply pow2_pos; lia).
    change (2 ^ 9) with 512 in H2.
    change (2 ^ 98) with 316912650057057350374175801344 in H1.
    change (2 ^ 106) with (316912650057057350374175801344 * 256) in H1.
    change (10 ^ 21) with 1000000000000000000000.
    nia.
  - change (10 ^ 21) with 1000000000000000000000.
    destruct (Z.le_gt_cases (- e) 98) as [Hg|Hg].
    + assert (H1 : 2 ^ (98 + e) * (Zpos m - 1) < 2 ^ 106).
      { eapply Z.le_lt_trans; [|exact H].
        apply Z.mul_le_mono_nonneg_r; [lia|apply pow2_le; lia]. }
      assert (H2 : 2 ^ (98 + e) * 2 ^ (- e) = 2 ^ 98).
      { rewrite <- Z.pow_add_r by lia. f_equal. lia. }
      assert (H3 : 0 < 2 ^ (98 + e)) by (apply pow2_pos; lia).
      assert (H4 : 0 < 2 ^ (- e)) by (apply pow2_pos; lia).
      change (2 ^ 98) with 316912650057057350374175801344 in H2.
      change (2 ^ 106) with (316912650057057350374175801344 * 256) in H1.
      nia.
    + assert (H1 : 2 ^ 0 * (Zpos m - 1) < 2 ^ 106).
      { eapply Z.le_lt_trans; [|exact H].
        apply Z.mul_le_mono_nonneg_r; [lia|apply pow2_le; lia]. }
      assert (H2 : 2 ^ 98 <= 2 ^ (- e)) by (apply pow2_le; lia).
      change (2 ^ 0) with 1 in H1.
      change (2 ^ 98) with 316912650057057350374175801344 in H2.
      change (2 ^ 106) with 81129638414606681695789005144064 in H1.
      nia.
Qed.

Lemma round_product_small (M : positive) (E : Z) :
  Zpos M < 2 ^ 106 -> E <= -98 ->
  match binary_round_aux prec emax false (Zpos M) E loc_Exact with
  | S754_zero false => True
  | S754_finite false m e => ge_1e21 m e = false
  | _ => False
  end.
Proof.
  intros HM HE. unfold binary_round_aux, shr_fexp.
  set (n1 := fexp prec emax (Zdigits2 (Zpos M) + E) - E).
  pose proof (shr_m_spec (shr_record_of_loc (Zpos M) loc_Exact) E n1) as H1.
  rewrite shr_m_of_loc in H1. specialize (H1 ltac:(lia)).
  destruct (shr (shr_record_of_loc (Zpos M) loc_Exact) E n1) as [mrs1 e1].
  cbn [fst snd] in H1. destruct H1 as (Hm1 & He1 & Hs1).
  set (r := round_nearest_even (shr_m mrs1) (loc_of_shr_record mrs1)).
  pose proof (round_nearest_even_bounds (shr_m mrs1) (loc_of_shr_record mrs1))
    as Hr. fold r in Hr.
  set (n2 := fexp prec emax (Zdigits2 r + e1) - e1).
  pose proof (shr_m_spec (shr_record_of_loc r loc_Exact) e1 n2) as H2.
  rewrite shr_m_of_loc in H2. specialize (H2 ltac:(lia)).
  destruct (shr (shr_record_of_loc r loc_Exact) e1 n2) as [mrs2 e2].
  cbn [fst snd] in H2. destruct H2 as (Hm2 & He2 & Hs2).
  (* the exponents *)
  assert (Hd1 : Zdigits2 (Zpos M) <= 106) by (apply Zdigits2_le; lia).
  assert (Hp1 : 0 < 2 ^ Z.max 0 n1) by (apply pow2_pos; lia).
  assert (Hr106 : r <= 2 ^ 106) by nia.
  assert (Hd2 : Zdigits2 r <= 107).
  { apply Zdigits2_le; [lia|].
    change (2 ^ 107) with (2 ^ 106 * 2).
    assert (0 < 2 ^ 106) by reflexivity. lia. }
  subst n1 n2. rewrite fexp_binary64 in *.
  assert (He1' : e1 <= -45) by lia.
  assert (He2' : e2 <= 9) by lia.
  destruct (shr_m mrs2) as [|m2|m2] eqn:Em2; [exact I| |lia].
  destruct (Z.leb_spec e2 (emax - prec)) as [_|Hbad];
    [|unfold emax, prec in Hbad; lia].
  apply (small_not_ge_1e21 m2 e2 (e2 - E)); try lia.
  set (d1 := Z.max 0 (Z.max (Zdigits2 (Z.pos M) + E - 53) (-1074) - E)) in *.
  set (d2 := Z.max 0 (Z.max (Zdigits2 r + e1 - 53) (-1074) - e1)) in *.
  replace (e2 - E) with (d1 + d2) by lia.
  rewrite Z.pow_add_r by lia.
  assert (Hp2 : 0 < 2 ^ d2) by (apply pow2_pos; lia).
  assert (Hp2' : 1 <= 2 ^ d2) by lia.
  assert (2 ^ d1 * (2 ^ d2 * Z.pos m2) <= 2 ^ d1 * (shr_m mrs1 + 1)).
  { apply Z.mul_le_mono_nonneg_l; lia. }
  nia.
Qed.

(** ** Rounding to tenths *)

Lemma pow2_spec k : 0 <= k -> Zpos (pow2 k) = 2 ^ k.
Proof.
  intros Hk. unfold pow2. apply Z2Pos.id. now apply pow2_pos.
Qed.

Lemma nearest_tenths_nonneg m e : 0 <= nearest_tenths m e.
Proof.
  unfold nearest_tenths. destruct (Z.leb_spec 0 e).
  - assert (0 < 2 ^ e) by (apply pow2_pos; lia). nia.
  - assert (0 < 2 ^ (- e)) by (apply pow2_pos; lia).
    apply Z.div_pos; lia.
Qed.

(** The integer the builtin picks is the exact value, times ten, rounded
    half up. *)
Lemma round_tenths_to_Q m e :
  round_tenths (to_Q (S754_finite false m e)) = nearest_tenths m e.
Proof.
  unfold round_tenths, to_Q, nearest_tenths, cond_Zopp.
  destruct (Z.leb_spec 0 e) as [He|He].
  - unfold Qfloor, Qplus, Qmult, inject_Z. cbn [Qnum Qden].
    set (v := Zpos m * 2 ^ e).
    change (Z.pos (1 * 1 * 2)) with 2. change (Z.pos (1 * 1)) with 1.
    replace (v * 10 * 2 + 1 * 1) with (1 + (10 * v) * 2) by lia.
    rewrite Z.div_add by lia. change (1 / 2) with 0. lia.
  - unfold Qfloor, Qplus, Qmult. cbn [Qnum Qden].
    rewrite !Pos2Z.inj_mul, pow2_spec by lia.
    f_equal; lia.
Qed.

Lemma round_tenths_bounds (q : Q) :
  (inject_Z (round_tenths q) - (1 # 2) <= q * 10 /\
   q * 10 < inject_Z (round_tenths q) + (1 # 2))%Q.
Proof.
  unfold round_tenths.
  pose proof (Qfloor_le (q * 10 + (1 # 2))) as Hle.
  pose proof (Qlt_floor (q * 10 + (1 # 2))) as Hlt.
  rewrite inject_Z_plus in Hlt. change (inject_Z 1) with 1%Q in Hlt.
  split; lra.
Qed.

(** [round_tenths q] is the integer [n] for which [n / 10 - q] is as close
    to zero as possible, and the larger one if there are two. *)
Lemma round_tenths_closest (q : Q) (n' : Z) :
  (Qabs (inject_Z (round_tenths q) / 10 - q)
   <= Qabs (inject_Z n' / 10 - q))%Q /\
  ((Qabs (inject_Z n' / 10 - q)
    == Qabs (inject_Z (round_tenths q) / 10 - q))%Q ->
   n' <= round_tenths q).
Proof.
  destruct (round_tenths_bounds q) as [Hlo Hhi].
  set (n := round_tenths q) in *.
  unfold Qdiv. change (/ 10)%Q with (1 # 10)%Q.
  set (d := (inject_Z n * (1 # 10) - q)%Q).
  set (d' := (inject_Z n' * (1 # 10) - q)%Q).
  assert (Hd : (- (1 # 20) < d /\ d <= 1 # 20)%Q) by (subst d; split; lra).
  assert (Hn : (Qabs d <= 1 # 20)%Q) by (apply Qabs_Qle_condition; split; lra).
  destruct (Z.lt_trichotomy n' n) as [Hlt|[Heq|Hgt]].
  - split; [|lia].
    assert (H1 : (inject_Z n' + 1 <= inject_Z n)%Q).
    { change 1%Q with (inject_Z 1). rewrite <- inject_Z_plus.
      rewrite <- Zle_Qle. lia. }
    assert (H2 : (1 # 20 <= - d')%Q) by (subst d d'; lra).
    pose proof (Qle_Qabs (- d')) as H3. rewrite Qabs_opp in H3. lra.
  - subst n'. split; [apply Qle_refl | lia].
  - assert (H1 : (inject_Z n + 1 <= inject_Z n')%Q).
    { change 1%Q with (inject_Z 1). rewrite <- inject_Z_plus.
      rewrite <- Zle_Qle. lia. }
    assert (H2 : (1 # 20 < d')%Q) by (subst d d'; lra).
    pose proof (Qle_Qabs d') as H3.
    split; [lra|]. intros Habs. rewrite Habs in H3. lra.
Qed.

(** ** Decimal digits *)

Lemma dec_digits_aux_fuel f1 : forall f2 n,
  0 <= n < 2 ^ Z.of_nat (S f1) -> n < 2 ^ Z.of_nat (S f2) ->
  dec_digits_aux (S f1) n = dec_digits_aux (S f2) n.
Proof.
  induction f1 as [|f1 IH]; intros f2 n H1 H2;
    cbn [dec_digits_aux]; destruct (n <? 10) eqn:E; try reflexivity;
    apply Z.ltb_ge in E.
  - change (2 ^ Z.of_nat 1) with 2 in H1. lia.
  - destruct f2 as [|f2]; [change (2 ^ Z.of_nat 1) with 2 in H2; lia|].
    f_equal.
    rewrite Nat2Z.inj_succ, Z.pow_succ_r in H1, H2 by lia.
    apply IH; [split; [apply Z.div_pos; lia|]|];
      apply Z.div_lt_upper_bound; lia.
Qed.

Lemma log2_fuel n : 0 <= n -> n < 2 ^ Z.of_nat (S (Z.to_nat (Z.log2 n))).
Proof.
  intros Hn. rewrite Nat2Z.inj_succ, Z2Nat.id by apply Z.log2_nonneg.
  destruct (Z.eq_dec n 0) as [->|Hz]; [reflexivity|].
  apply Z.log2_spec. lia.
Qed.

Lemma dec_digits_small n : 0 <= n < 10 -> dec_digits n = [digit_char n].
Proof.
  intros [H0 H1]. unfold dec_digits. cbn [dec_digits_aux].
  apply Z.ltb_lt in H1. now rewrite H1.
Qed.

Lemma dec_digits_step n :
  10 <= n -> dec_digits n = dec_digits (n / 10) ++ [digit_char (n mod 10)].
Proof.
  intros Hn. unfold dec_digits at 1. cbn [dec_digits_aux].
  destruct (n <? 10) eqn:E; [apply Z.ltb_lt in E; lia|].
  f_equal. unfold dec_digits.
  assert (H : 0 <= n / 10 < n).
  { split; [apply Z.div_pos; lia | apply Z.div_lt; lia]. }
  assert (Hf := log2_fuel n ltac:(lia)).
  rewrite Nat2Z.inj_succ, Z.pow_succ_r in Hf by lia.
  destruct (Z.to_nat (Z.log2 n)) as [|f] eqn:Ef.
  { change (2 ^ Z.of_nat 0) with 1 in Hf. lia. }
  apply dec_digits_aux_fuel.
  - split; [lia | apply Z.div_lt_upper_bound; lia].
  - apply log2_fuel; lia.
Qed.

Lemma dec_digits_nonempty n : 0 <= n -> dec_digits n <> [].
Proof.
  intros Hn. destruct (Z.lt_ge_cases n 10).
  - rewrite dec_digits_small by lia. discriminate.
  - rewrite dec_digits_step by lia. now destruct (dec_digits (n / 10)).
Qed.

(** The point goes before the last digit: the text is the integer part,
    a point, and one digit. *)
Lemma insert_point_dec_digits n :
  0 <= n ->
  insert_point (dec_digits n) =
  dec_digits (n / 10) ++ "."%char :: [digit_char (n mod 10)].
Proof.
  intros Hn. destruct (Z.lt_ge_cases n 10) as [Hs|Hl].
  - rewrite dec_digits_small by lia.
    rewrite Z.div_small, Z.mod_small by lia. reflexivity.
  - rewrite dec_digits_step by lia.
    set (hd := dec_digits (n / 10)).
    assert (Hhd : hd <> []) by (apply dec_digits_nonempty, Z.div_pos; lia).
    unfold insert_point. rewrite length_app. cbn [length].
    destruct hd as [|c hd]; [congruence|]. cbn [length].
    replace (S (length hd) + 1 <=? 1)%nat with false
      by (symmetry; apply Nat.leb_gt; lia).
    cbv zeta. rewrite length_app. cbn [length].
    replace (S (length hd) + 1 - 1)%nat with (length (c :: hd))
      by (cbn [length]; lia).
    now rewrite take_app_length, drop_app_length.
Qed.

(** ** Scores in the unit interval *)

Lemma valid_mantissa s m e : valid (S754_finite s m e) = true -> Zpos m < 2 ^ 53.
Proof.
  unfold valid, valid_binary, bounded, canonical_mantissa.
  intros H. apply andb_prop in H. destruct H as [H _].
  apply Z.eqb_eq in H. rewrite fexp_binary64 in H.
  assert (Hd : Zpos (digits2_pos m) <= 53) by lia.
  eapply Z.lt_le_trans; [apply digits2_pos_gt|].
  apply pow2_le. lia.
Qed.

Lemma js_le_n1_exponent m e :
  js_le (S754_finite false m e) n1 = true -> e <= -52.
Proof.
  unfold js_le. intros H.
  destruct (js_lt n1 (S754_finite false m e)) eqn:E.
  - unfold js_lt in E.
    destruct (IsLessThan n1 (S754_finite false m e)) as [[|]|]; discriminate.
  - destruct (Z.le_gt_cases e (-52)) as [|Hgt]; [assumption|].
    assert (js_lt n1 (S754_finite false m e) = true); [|congruence].
    unfold n1. apply js_lt_finite_pos. lia.
Qed.

Lemma toFixed1_zero b : toFixed1 (S754_zero b) = Some "0.0"%string.
Proof. reflexivity. Qed.

Lemma show_tenths_zero b :
  show_tenths (round_tenths (to_Q (S754_zero b))) = "0.0"%string.
Proof. reflexivity. Qed.

(** C5, as amended. For every score [s] in [[0,1]], [formatScore s] is the
    double-precision product [s * 100] (the exact product rounded to the
    nearest Number), rounded to the nearest tenth with ties upward and
    written with its integer part, a point and exactly one digit,
    followed by ["%"]. *)
Theorem formatScore_unit_interval (s : number) :
  valid s = true -> js_ge s n0 = true -> js_le s n1 = true ->
  formatScore s =
  Some (show_tenths (round_tenths (to_Q (mul s n100))) ++ "%")%string.
Proof.
  intros Hv H0 H1. unfold formatScore.
  destruct s as [b|[|]| |[|] m e]; try discriminate.
  - (* a zero *)
    change (mul (S754_zero b) n100) with (S754_zero (xorb b false)).
    now rewrite toFixed1_zero, show_tenths_zero.
  - (* a positive finite score *)
    apply valid_mantissa in Hv. apply js_le_n1_exponent in H1.
    change (mul (S754_finite false m e) n100)
      with (binary_round_aux prec emax false
              (Zpos (m * 7036874417766400)) (e + -46) loc_Exact).
    assert (HM : Zpos (m * 7036874417766400) < 2 ^ 106).
    { rewrite Pos2Z.inj_mul.
      change (2 ^ 106) with (2 ^ 53 * 2 ^ 53).
      assert (Z.pos 7036874417766400 < 2 ^ 53) by reflexivity.
      assert (0 < 2 ^ 53) by reflexivity. nia. }
    pose proof (round_product_small _ (e + -46) HM ltac:(lia)) as Hp.
    destruct (binary_round_aux _ _ _ _ _ _) as [[|]|[|]| |[|] m' e'];
      try contradiction.
    + now rewrite toFixed1_zero, show_tenths_zero.
    + cbn [toFixed1]. rewrite Hp. cbv zeta.
      rewrite round_tenths_to_Q. unfold show_tenths.
      rewrite insert_point_dec_digits by apply nearest_tenths_nonneg.
      reflexivity.
Qed.

(** The example of the specification: [formatScore(0.873)] is ["87.3%"]. *)
Lemma formatScore_unit_interval_witness :
  valid score_0_873 = true /\
  js_ge score_0_873 n0 = true /\ js_le score_0_873 n1 = true /\
  formatScore score_0_873 = Some "87.3%"%string.
Proof.
  split; [reflexivity|]. split; [reflexivity|]. split; [reflexivity|].
  rewrite (formatScore_unit_interval score_0_873);
    [vm_compute; reflexivity | reflexivity | reflexivity | reflexivity].
Defined.

(** The ends of the interval, a tie that goes upward, and a score that is
    not finite. *)
Example formatScore_values :
  formatScore n0 = Some "0.0%"%string /\
  formatScore n1 = Some "100.0%"%string /\
  formatScore (decimal 25 4) = Some "0.3%"%string /\
  formatScore S754_nan = Some "NaN%"%string.
Proof. repeat split; vm_compute; reflexivity. Qed.

(** C5, as stated, fails at the score [0.0315].  The Number the literal
    denotes is a little above 0.0315, so its exact product with 100 is
    above 3.15 and rounds to 3.2 under any rule for ties; the product
    the code computes is the nearest Number to it, which lies below
    3.15, and [toFixed] makes ["3.1"] of it. *)
Lemma formatScore_not_exact_product :
  valid score_0_0315 = true /\
  js_ge score_0_0315 n0 = true /\ js_le score_0_0315 n1 = true /\
  (to_Q score_0_0315 == 4539628424389460 # 144115188075855872)%Q /\
  (315 # 100 < to_Q score_0_0315 * 100)%Q /\
  percent_exact score_0_0315 = "3.2%"%string /\
  formatScore score_0_0315 = Some "3.1%"%string /\
  formatScore score_0_0315 <> Some (percent_exact score_0_0315).
Proof.
  repeat split; try (vm_compute; congruence).
Qed.

(** ** The comparisons order the values *)

Lemma valid_normal s m e :
  valid (S754_finite s m e) = true -> -1074 < e -> 2 ^ 52 <= Zpos m.
Proof.
  unfold valid, valid_binary, bounded, canonical_mantissa.
  intros H He. apply andb_prop in H. destruct H as [H _].
  apply Z.eqb_eq in H. rewrite fexp_binary64 in H.
  assert (Hd : digits2_pos m = 53%positive) by lia.
  rewrite digits2_pos_size in Hd.
  generalize (Pos.size_le m). rewrite Hd. intros Hs.
  apply Pos2Z.pos_le_pos in Hs.
  change (Z.pos (2 ^ 53)) with (2 * 2 ^ 52) in Hs.
  change (Z.pos m~0) with (2 * Z.pos m) in Hs. lia.
Qed.

(** Against a threshold [mc * 2^-53] in [[1/2, 1)], as [0.8] and [0.6]
    are, [>=] on Numbers is [>=] on their values. *)
Lemma js_ge_threshold_value (s : number) (mc : positive) :
  valid s = true -> is_finite s = true ->
  2 ^ 52 <= Zpos mc < 2 ^ 53 ->
  js_ge s (S754_finite false mc (-53)) = true <->
  (to_Q (S754_finite false mc (-53)) <= to_Q s)%Q.
Proof.
  intros Hv Hf Hmc.
  assert (H52 : 2 ^ 52 = 4503599627370496) by reflexivity.
  assert (H53 : 2 ^ 53 = 9007199254740992) by reflexivity.
  rewrite H52, H53 in Hmc.
  destruct s as [b| | |[|] m e]; try discriminate.
  - (* zero *)
    split; [discriminate|]. unfold Qle. cbn. lia.
  - (* negative *)
    split; [discriminate|]. unfold to_Q, cond_Zopp.
    destruct (Z.leb_spec 0 e).
    + assert (0 < 2 ^ e) by (apply pow2_pos; lia).
      unfold Qle. cbn. nia.
    + unfold Qle. cbn. lia.
  - (* positive *)
    assert (Hge : js_ge (S754_finite false m e) (S754_finite false mc (-53)) = true
                  <-> ~ (e < -53 \/ (e = -53 /\ Zpos m < Zpos mc))).
    { rewrite <- js_lt_finite_pos. split.
      - intros H1 H2. apply js_lt_ge_false in H2. congruence.
      - intros H1.
        destruct (js_ge _ _) eqn:E; [reflexivity|].
        apply js_ge_false_lt in E; [contradiction|reflexivity|reflexivity]. }
    rewrite Hge. clear Hge.
    pose proof (valid_mantissa _ _ _ Hv) as Hm. rewrite H53 in Hm.
    unfold to_Q, cond_Zopp. change (0 <=? -53) with false. cbv iota.
    change (pow2 (- -53)) with 9007199254740992%positive.
    destruct (Z.leb_spec 0 e) as [He|He].
    + assert (0 < 2 ^ e) by (apply pow2_pos; lia).
      unfold Qle. cbn. split; [nia|lia].
    + unfold Qle. cbn [Qnum Qden]. rewrite pow2_spec by lia.
      destruct (Z.lt_trichotomy e (-53)) as [Hlt|[->|Hgt]].
      * assert (2 ^ 54 <= 2 ^ (- e)) by (apply pow2_le; lia).
        change (2 ^ 54) with 18014398509481984 in *.
        split; [lia|nia].
      * change (2 ^ (- -53)) with 9007199254740992. split; [nia|lia].
      * pose proof (valid_normal _ _ _ Hv ltac:(lia)) as Hn. rewrite H52 in Hn.
        assert (2 ^ (- e) <= 2 ^ 52) by (apply pow2_le; lia).
        assert (0 < 2 ^ (- e)) by (apply pow2_pos; lia).
        change (2 ^ 52) with 4503599627370496 in *.
        split; [nia|lia].
Qed.

Lemma js_ge_threshold_false (s : number) (mc : positive) :
  valid s = true -> is_finite s = true ->
  2 ^ 52 <= Zpos mc < 2 ^ 53 ->
  js_ge s (S754_finite false mc (-53)) = false <->
  (to_Q s < to_Q (S754_finite false mc (-53)))%Q.
Proof.
  intros Hv Hf Hmc.
  pose proof (js_ge_threshold_value s mc Hv Hf Hmc) as H.
  destruct (js_ge s _); split; intros H1; try reflexivity; try discriminate.
  - apply Qlt_not_le in H1. tauto.
  - apply Qnot_le_lt. intros H2. apply H in H2. discriminate.
Qed.

(** The tiers of [getScoreColor], on the exact values of finite scores:
    the thresholds are the values of the literals [0.8] and [0.6]. *)
Lemma getScoreColor_tiers_value (s : number) :
  valid s = true -> is_finite s = true ->
  (getScoreColor s = "success"%string <-> (to_Q n0_8 <= to_Q s)%Q) /\
  (getScoreColor s = "warning"%string <->
     (to_Q n0_6 <= to_Q s)%Q /\ (to_Q s < to_Q n0_8)%Q) /\
  (getScoreColor s = "secondary"%string <-> (to_Q s < to_Q n0_6)%Q).
Proof.
  intros Hv Hf.
  assert (H8 : 2 ^ 52 <= 7205759403792794 < 2 ^ 53)
    by (split; [apply Z.leb_le|apply Z.ltb_lt]; reflexivity).
  assert (H6 : 2 ^ 52 <= 5404319552844595 < 2 ^ 53)
    by (split; [apply Z.leb_le|apply Z.ltb_lt]; reflexivity).
  pose proof (js_ge_threshold_value s _ Hv Hf H8) as G8.
  pose proof (js_ge_threshold_value s _ Hv Hf H6) as G6.
  pose proof (js_ge_threshold_false s _ Hv Hf H8) as L8.
  pose proof (js_ge_threshold_false s _ Hv Hf H6) as L6.
  fold n0_8 in G8, L8. fold n0_6 in G6, L6.
  assert (H68 : (to_Q n0_6 < to_Q n0_8)%Q) by reflexivity.
  unfold getScoreColor.
  destruct (js_ge s n0_8) eqn:E8; [|destruct (js_ge s n0_6) eqn:E6].
  - assert (Hs : (to_Q n0_8 <= to_Q s)%Q) by now apply G8.
    split; [tauto|]. split; split; try discriminate.
    + intros [_ H]. apply Qlt_not_le in H. contradiction.
    + intros H. exfalso. apply (Qlt_not_le _ _ H).
      apply Qlt_le_weak. eapply Qlt_le_trans; eassumption.
  - assert (Hs8 : (to_Q s < to_Q n0_8)%Q) by now apply L8.
    assert (Hs6 : (to_Q n0_6 <= to_Q s)%Q) by now apply G6.
    split; [|split]; split; try discriminate; try tauto.
    + intros H. apply Qlt_not_le in Hs8. contradiction.
    + intros H. apply Qlt_not_le in H. contradiction.
  - assert (Hs6 : (to_Q s < to_Q n0_6)%Q) by now apply L6.
    split; [|split]; split; try discriminate; try tauto.
    + intros H. exfalso. apply (Qlt_not_le _ _ Hs6).
      apply Qlt_le_weak. eapply Qlt_le_trans; eassumption.
    + intros [H _]. apply Qlt_not_le in Hs6. contradiction.
Qed.

End NumberFacts.


(* ===================================================================== *)
(** * What the score helpers show together *)
(* ===================================================================== *)

Section ScoreDisplay.

Import Number.
Open Scope Z_scope.

(** ** A higher score never gets a lower tier *)

(** [>=] against a positive, finite threshold passes to every Number
    above. *)
Lemma js_ge_threshold_mono s t mc ec :
  js_le s t = true ->
  js_ge s (S754_finite false mc ec) = true ->
  js_ge t (S754_finite false mc ec) = true.
Proof.
  intros Hst Hs.
  assert (Hn : forall x y, js_ge x y = true ->
                 is_nan x = false /\ is_nan y = false /\ js_lt x y = false).
  { intros x y H. unfold js_ge, js_lt in *.
    destruct (IsLessThan x y) as [[|]|] eqn:E; try discriminate.
    repeat split.
    - destruct x; try reflexivity. discriminate E.
    - destruct x, y; try reflexivity; discriminate E. }
  rewrite js_le_ge in Hst.
  destruct (Hn _ _ Hst) as (Ht & Hs0 & Hlt_ts).
  destruct (Hn _ _ Hs) as (_ & _ & Hlt_sc).
  destruct (js_ge t (S754_finite false mc ec)) eqn:E; [reflexivity|].
  apply js_ge_false_lt in E; [|assumption|reflexivity].
  exfalso.
  destruct s as [bs|[|]| |[|] ms es]; try discriminate;
  destruct t as [bt|[|]| |[|] mt et]; try discriminate.
  assert (H1 : ~ (et < es \/ (et = es /\ Zpos mt < Zpos ms))).
  { intros H. apply js_lt_finite_pos in H. congruence. }
  assert (H2 : ~ (es < ec \/ (es = ec /\ Zpos ms < Zpos mc))).
  { intros H. apply js_lt_finite_pos in H. congruence. }
  apply js_lt_finite_pos in E. lia.
Qed.

(** X1. [getScoreColor] is monotone: when [s <= t] holds in the
    comparison of the script, the colour of [t] is never of a lower tier
    than the colour of [s], the tiers being ordered [secondary],
    [warning], [success]. *)
Theorem getScoreColor_monotone (s t : number) :
  js_le s t = true ->
  (tier (getScoreColor s) <= tier (getScoreColor t))%nat.
Proof.
  intros Hst. unfold getScoreColor.
  destruct (js_ge s n0_8) eqn:S8.
  - pose proof (js_ge_threshold_mono s t _ _ Hst S8) as T8.
    change (js_ge t n0_8 = true) in T8. rewrite T8. reflexivity.
  - destruct (js_ge s n0_6) eqn:S6.
    + pose proof (js_ge_threshold_mono s t _ _ Hst S6) as T6.
      change (js_ge t n0_6 = true) in T6. rewrite T6.
      destruct (js_ge t n0_8); cbn; lia.
    + destruct (js_ge t n0_8); [|destruct (js_ge t n0_6)]; cbn; lia.
Qed.

Lemma getScoreColor_monotone_witness :
  js_le n0_6 n0_8 = true /\
  (tier (getScoreColor n0_6) <= tier (getScoreColor n0_8))%nat.
Proof.
  split; [reflexivity|]. apply (getScoreColor_monotone n0_6 n0_8). reflexivity.
Defined.

(** ** Shifting a mantissa right, exactly *)

Lemma shr_1_exact mrs :
  0 <= shr_m mrs ->
  shr_m (shr_1 mrs) = shr_m mrs / 2 /\
  inexact (shr_1 mrs) = inexact mrs || negb (shr_m mrs mod 2 =? 0).
Proof.
  destruct mrs as [m r s]. unfold inexact. cbn [shr_m shr_r shr_s].
  intros Hm.
  destruct m as [|[p|p|]|p]; try lia; cbn [shr_1 shr_m shr_r shr_s].
  - split; [reflexivity | destruct r, s; reflexivity].
  - change (Z.pos p~1) with (2 * Z.pos p + 1).
    replace ((2 * Z.pos p + 1) / 2) with (Z.pos p)
      by (apply Z.div_unique with 1; lia).
    replace ((2 * Z.pos p + 1) mod 2) with 1
      by (apply Z.mod_unique with (Z.pos p); lia).
    split; [reflexivity | destruct r, s; reflexivity].
  - change (Z.pos p~0) with (2 * Z.pos p).
    replace (2 * Z.pos p / 2) with (Z.pos p)
      by (apply Z.div_unique with 0; lia).
    replace ((2 * Z.pos p) mod 2) with 0
      by (apply Z.mod_unique with (Z.pos p); lia).
    split; [reflexivity | destruct r, s; reflexivity].
  - split; [reflexivity | destruct r, s; reflexivity].
Qed.

Lemma mod_mul_zero m a b :
  0 < a -> 0 < b ->
  (m mod (a * b) =? 0) = (m mod a =? 0) && ((m / a) mod b =? 0).
Proof.
  intros Ha Hb. rewrite Z.rem_mul_r by lia.
  pose proof (Z.mod_pos_bound m a Ha).
  pose proof (Z.mod_pos_bound (m / a) b Hb).
  destruct (Z.eqb_spec (m mod a) 0) as [E1|E1];
  destruct (Z.eqb_spec ((m / a) mod b) 0) as [E2|E2]; cbn;
    apply Z.eqb_eq || apply Z.eqb_neq; nia.
Qed.

Lemma iter_shr_1_exact p : forall mrs,
  0 <= shr_m mrs ->
  shr_m (SpecFloat.iter_pos shr_1 p mrs) = shr_m mrs / 2 ^ Zpos p /\
  inexact (SpecFloat.iter_pos shr_1 p mrs) =
    inexact mrs || negb (shr_m mrs mod 2 ^ Zpos p =? 0).
Proof.
  induction p as [p IH|p IH|]; intros mrs H; simpl SpecFloat.iter_pos.
  - destruct (shr_1_exact mrs H) as [Ha Ha'].
    assert (H1 : 0 <= shr_m (shr_1 mrs)) by (rewrite Ha; apply Z.div_pos; lia).
    destruct (IH _ H1) as [Hb Hb'].
    assert (Hp : 0 < 2 ^ Zpos p) by (apply pow2_pos; lia).
    assert (H2 : 0 <= shr_m (SpecFloat.iter_pos shr_1 p (shr_1 mrs)))
      by (rewrite Hb; apply Z.div_pos; lia).
    destruct (IH _ H2) as [Hc Hc'].
    change (Z.pos p~1) with (2 * Z.pos p + 1).
    replace (2 * Zpos p + 1) with (1 + Zpos p + Zpos p) by lia.
    rewrite !Z.pow_add_r by lia. change (2 ^ 1) with 2.
    split.
    + rewrite Hc, Hb, Ha, !Z.div_div by lia. f_equal. ring.
    + rewrite Hc', Hb', Ha', Hb, Ha.
      rewrite (mod_mul_zero _ (2 * 2 ^ Zpos p)) by lia.
      rewrite (mod_mul_zero _ 2) by lia.
      rewrite <- Z.div_div by lia.
      rewrite !negb_andb, !orb_assoc. reflexivity.
  - destruct (IH _ H) as [Hb Hb'].
    assert (Hp : 0 < 2 ^ Zpos p) by (apply pow2_pos; lia).
    assert (H2 : 0 <= shr_m (SpecFloat.iter_pos shr_1 p mrs))
      by (rewrite Hb; apply Z.div_pos; lia).
    destruct (IH _ H2) as [Hc Hc'].
    change (Z.pos p~0) with (2 * Z.pos p).
    replace (2 * Zpos p) with (Zpos p + Zpos p) by lia.
    rewrite !Z.pow_add_r by lia.
    split.
    + rewrite Hc, Hb, !Z.div_div by lia. reflexivity.
    + rewrite Hc', Hb', Hb.
      rewrite (mod_mul_zero _ (2 ^ Zpos p)) by lia.
      rewrite !negb_andb, !orb_assoc. reflexivity.
  - change (2 ^ 1) with 2. apply shr_1_exact, H.
Qed.

(** [shr] by [n] places divides the mantissa by [2^n] and records whether
    the division left a remainder. *)
Lemma shr_exact m e n :
  0 <= m ->
  shr_m (fst (shr (shr_record_of_loc m loc_Exact) e n)) = m / 2 ^ Z.max 0 n /\
  (m mod 2 ^ Z.max 0 n = 0 ->
   loc_of_shr_record (fst (shr (shr_record_of_loc m loc_Exact) e n)) = loc_Exact).
Proof.
  intros Hm. destruct n as [|p|p]; cbn [shr fst].
  - rewrite Z.max_l by lia. change (2 ^ 0) with 1. rewrite Z.div_1_r. auto.
  - rewrite Z.max_r by lia.
    destruct (iter_shr_1_exact p (shr_record_of_loc m loc_Exact) Hm) as [H1 H2].
    split; [exact H1|]. intros Hr. cbn in H2. rewrite Hr in H2. cbn in H2.
    unfold inexact in H2. apply orb_false_iff in H2. destruct H2 as [Hr' Hs'].
    destruct (SpecFloat.iter_pos _ _ _) as [m' r' s']. cbn in *.
    now subst r' s'.
  - rewrite Z.max_l by lia. change (2 ^ 0) with 1. rewrite Z.div_1_r. auto.
Qed.

(** ** Bounds on the product of a score and 100

    Bounds are counted in 32nds: [lo / 32 <= x <= hi / 32]. *)

Lemma round_nearest_even_exact m : round_nearest_even m loc_Exact = m.
Proof. reflexivity. Qed.

(** A product [M * 2^E] between two multiples of [1/32] rounds to a
    Number between them: rounding to nearest never crosses a Number. *)
Lemma round_product_between (M : positive) (E lo hi : Z) :
  Zpos M < 2 ^ 106 -> E <= -98 -> 0 <= lo -> hi <= 3200 ->
  lo * 2 ^ (- E - 5) <= Zpos M <= hi * 2 ^ (- E - 5) ->
  match binary_round_aux prec emax false (Zpos M) E loc_Exact with
  | S754_zero false => lo = 0
  | S754_finite false m' e' =>
      e' <= -45 /\
      lo * 2 ^ (- e' - 5) <= Zpos m' <= hi * 2 ^ (- e' - 5)
  | _ => False
  end.
Proof.
  intros HM HE Hlo Hhi [HloM HMhi].
  unfold binary_round_aux, shr_fexp.
  set (n1 := fexp prec emax (Zdigits2 (Zpos M) + E) - E).
  pose proof (shr_m_spec (shr_record_of_loc (Zpos M) loc_Exact) E n1) as H1.
  rewrite shr_m_of_loc in H1. specialize (H1 ltac:(lia)).
  pose proof (shr_exact (Zpos M) E n1 ltac:(lia)) as X1.
  destruct (shr (shr_record_of_loc (Zpos M) loc_Exact) E n1) as [mrs1 e1].
  cbn [fst snd] in H1, X1. destruct H1 as (Hm1 & He1 & Hs1).
  destruct X1 as (Hdiv1 & Hexact).
  set (d1 := Z.max 0 n1) in *.
  assert (Hd1 : Zdigits2 (Zpos M) <= 106) by (apply Zdigits2_le; lia).
  assert (He1' : e1 <= -45).
  { subst d1 n1. rewrite fexp_binary64 in *. lia. }
  assert (Hp1 : 0 < 2 ^ d1) by (apply pow2_pos; lia).
  assert (Hq1 : 0 < 2 ^ (- e1 - 5)) by (apply pow2_pos; lia).
  assert (HE1 : 2 ^ (- E - 5) = 2 ^ (- e1 - 5) * 2 ^ d1).
  { rewrite <- Z.pow_add_r by lia. f_equal. lia. }
  rewrite HE1 in HloM, HMhi. rewrite !Z.mul_assoc in HloM, HMhi.
  set (Blo := lo * 2 ^ (- e1 - 5)) in *.
  set (Bhi := hi * 2 ^ (- e1 - 5)) in *.
  assert (Hm1lo : Blo <= shr_m mrs1).
  { rewrite Hdiv1. apply Z.div_le_lower_bound; lia. }
  assert (Hm1hi : shr_m mrs1 <= Bhi).
  { rewrite Hdiv1. apply Z.div_le_upper_bound; lia. }
  set (r := round_nearest_even (shr_m mrs1) (loc_of_shr_record mrs1)).
  assert (Hr : Blo <= r <= Bhi).
  { pose proof (round_nearest_even_bounds (shr_m mrs1) (loc_of_shr_record mrs1))
      as Hb. fold r in Hb.
    split; [lia|].
    destruct (Z.eq_dec (shr_m mrs1) Bhi) as [Heq|Hne]; [|lia].
    assert (HMB : Zpos M = Bhi * 2 ^ d1) by lia.
    subst r. rewrite Hexact, round_nearest_even_exact; [lia|].
    rewrite HMB. apply Z.mod_mul. lia. }
  assert (Hr0 : 0 <= r) by (subst Blo; nia).
  set (n2 := fexp prec emax (Zdigits2 r + e1) - e1).
  pose proof (shr_m_spec (shr_record_of_loc r loc_Exact) e1 n2) as H2.
  rewrite shr_m_of_loc in H2. specialize (H2 Hr0).
  pose proof (shr_exact r e1 n2 Hr0) as X2.
  destruct (shr (shr_record_of_loc r loc_Exact) e1 n2) as [mrs2 e2].
  cbn [fst snd] in H2, X2. destruct H2 as (Hm2 & He2 & Hs2).
  destruct X2 as (Hdiv2 & _).
  set (d2 := Z.max 0 n2) in *.
  (* the second shift stays below 2^-45 as well *)
  assert (Hrd : Zdigits2 r <= 7 - e1).
  { apply Zdigits2_le; [lia|]. split; [lia|].
    replace (7 - e1) with (12 + (- e1 - 5)) by lia.
    rewrite Z.pow_add_r by lia. change (2 ^ 12) with 4096.
    subst Bhi. nia. }
  assert (He2' : e2 <= -45).
  { subst d2 n2. rewrite fexp_binary64 in *. lia. }
  assert (Hp2 : 0 < 2 ^ d2) by (apply pow2_pos; lia).
  assert (Hq2 : 0 < 2 ^ (- e2 - 5)) by (apply pow2_pos; lia).
  assert (HE2 : 2 ^ (- e1 - 5) = 2 ^ (- e2 - 5) * 2 ^ d2).
  { rewrite <- Z.pow_add_r by lia. f_equal. lia. }
  subst Blo Bhi. rewrite HE2 in Hr. rewrite !Z.mul_assoc in Hr.
  assert (Hm2lo : lo * 2 ^ (- e2 - 5) <= shr_m mrs2).
  { rewrite Hdiv2. apply Z.div_le_lower_bound; lia. }
  assert (Hm2hi : shr_m mrs2 <= hi * 2 ^ (- e2 - 5)).
  { rewrite Hdiv2. apply Z.div_le_upper_bound; lia. }
  destruct (shr_m mrs2) as [|m2|m2] eqn:Em2; [nia| |lia].
  destruct (Z.leb_spec e2 (emax - prec)) as [_|Hbad];
    [|unfold emax, prec in Hbad; lia].
  auto.
Qed.

(** The tenth nearest to a Number between two multiples of [1/32]. *)
Lemma nearest_tenths_between m e lo hi :
  e <= -5 ->
  lo * 2 ^ (- e - 5) <= Zpos m <= hi * 2 ^ (- e - 5) ->
  (10 * lo + 16) / 32 <= nearest_tenths m e <= (10 * hi + 16) / 32.
Proof.
  intros He [Hlo Hhi]. unfold nearest_tenths.
  destruct (Z.leb_spec 0 e); [lia|].
  set (Q := 2 ^ (- e - 5)) in *.
  assert (HQ : 0 < Q) by (apply pow2_pos; lia).
  replace (2 ^ (- e)) with (32 * Q)
    by (subst Q; change 32 with (2 ^ 5); rewrite <- Z.pow_add_r by lia;
        f_equal; lia).
  split.
  - apply Z.div_le_lower_bound; [lia|].
    pose proof (Z.mul_div_le (10 * lo + 16) 32 ltac:(lia)). nia.
  - apply Z.div_le_lower_bound; [lia|].
    assert (H1 : 20 * Z.pos m + 32 * Q <= 2 * Q * (10 * hi + 16)) by nia.
    pose proof (Z.div_le_mono _ _ (2 * (32 * Q)) ltac:(lia) H1) as H2.
    replace (2 * Q * (10 * hi + 16)) with ((10 * hi + 16) * (2 * Q)) in H2 by ring.
    replace (2 * (32 * Q)) with (32 * (2 * Q)) in H2 by ring.
    rewrite Z.div_mul_cancel_r in H2 by lia.
    replace (2 * (32 * Q)) with (32 * (2 * Q)) by ring.
    pose proof (Z.mul_div_le (20 * Z.pos m + 32 * Q) (32 * (2 * Q)) ltac:(lia)).
    pose proof (Z.mul_div_le (10 * hi + 16) 32 ltac:(lia)).
    nia.
Qed.

(** ** What a score in the unit interval displays *)

(** The product handed to the rounding, counted in 32nds. *)
Lemma score_product_32nds m e lo hi :
  e <= 0 ->
  lo * 2 ^ (- e) <= 3200 * Zpos m <= hi * 2 ^ (- e) ->
  lo * 2 ^ (- (e + -46) - 5) <= Zpos (m * 7036874417766400)
    <= hi * 2 ^ (- (e + -46) - 5).
Proof.
  intros He H.
  replace (- (e + -46) - 5) with (41 + - e) by lia.
  rewrite Z.pow_add_r by lia. rewrite Pos2Z.inj_mul.
  change (Z.pos 7036874417766400) with (3200 * 2 ^ 41).
  assert (0 < 2 ^ 41) by reflexivity.
  nia.
Qed.

(** A positive score that is at most [1], on its mantissa. *)
Lemma js_le_n1_mantissa m e :
  valid (S754_finite false m e) = true ->
  js_le (S754_finite false m e) n1 = true ->
  e <= -52 /\ Zpos m <= 2 ^ (- e).
Proof.
  intros Hv H. pose proof (js_le_n1_exponent _ _ H) as He.
  split; [assumption|].
  apply valid_mantissa in Hv.
  destruct (Z.eq_dec e (-52)) as [->|Hne].
  - change (2 ^ (- -52)) with 4503599627370496.
    destruct (Z.le_gt_cases (Zpos m) 4503599627370496) as [|Hgt]; [assumption|].
    exfalso.
    assert (L : js_lt n1 (S754_finite false m (-52)) = true).
    { unfold n1. apply js_lt_finite_pos. right. split; [reflexivity|lia]. }
    rewrite js_le_ge in H. apply js_lt_ge_false in L. congruence.
  - assert (2 ^ 53 <= 2 ^ (- e)) by (apply pow2_le; lia). lia.
Qed.

(** A positive score against a threshold [mc * 2^-53]. *)
Lemma js_ge_threshold_mantissa m e mc :
  valid (S754_finite false m e) = true -> e <= -52 -> Zpos mc < 2 ^ 53 ->
  js_ge (S754_finite false m e) (S754_finite false mc (-53)) = true ->
  Zpos mc * 2 ^ (- e) <= Zpos m * 2 ^ 53.
Proof.
  intros Hv He Hmc H.
  assert (Hn : ~ (e < -53 \/ (e = -53 /\ Zpos m < Zpos mc))).
  { intros L. apply js_lt_finite_pos in L. apply js_lt_ge_false in L.
    congruence. }
  assert (0 < Zpos mc) by reflexivity.
  destruct (Z.eq_dec e (-53)) as [->|Hne].
  - change (2 ^ (- -53)) with (2 ^ 53). assert (0 < 2 ^ 53) by reflexivity. nia.
  - assert (e = -52) as -> by lia.
    pose proof (valid_normal _ _ _ Hv ltac:(lia)) as Hm.
    change (2 ^ (- -52)) with (2 ^ 52).
    change (2 ^ 53) with (2 * 2 ^ 52) in *.
    change (2 ^ 52) with 4503599627370496 in *.
    nia.
Qed.

Lemma js_lt_threshold_mantissa m e mc :
  valid (S754_finite false m e) = true -> 2 ^ 52 <= Zpos mc ->
  js_ge (S754_finite false m e) (S754_finite false mc (-53)) = false ->
  (Zpos m + 1) * 2 ^ 53 <= Zpos mc * 2 ^ (- e) /\ e <= -53.
Proof.
  intros Hv Hmc H.
  apply js_ge_false_lt in H; [|reflexivity|reflexivity].
  apply js_lt_finite_pos in H. apply valid_mantissa in Hv.
  destruct H as [He|[-> Hm]].
  - split; [|lia].
    assert (2 ^ 54 <= 2 ^ (- e)) by (apply pow2_le; lia).
    change (2 ^ 54) with (2 * 2 ^ 53) in *.
    change (2 ^ 53) with 9007199254740992 in *.
    change (2 ^ 52) with 4503599627370496 in *. nia.
  - split; [|lia]. change (2 ^ (- -53)) with (2 ^ 53).
    change (2 ^ 53) with 9007199254740992 in *. nia.
Qed.

(** The tenths a score in the unit interval displays: between [0] and
    [1000], and on the side of [800] and [600] that its colour names. *)
Lemma score_tenths_bounds m e :
  valid (S754_finite false m e) = true ->
  js_le (S754_finite false m e) n1 = true ->
  exists n,
    toFixed1 (mul (S754_finite false m e) n100) =
      Some (string_of_list_ascii (insert_point (dec_digits n))) /\
    0 <= n <= 1000 /\
    (js_ge (S754_finite false m e) n0_8 = true -> 800 <= n) /\
    (js_ge (S754_finite false m e) n0_8 = false -> n <= 800) /\
    (js_ge (S754_finite false m e) n0_6 = true -> 600 <= n) /\
    (js_ge (S754_finite false m e) n0_6 = false -> n <= 600).
Proof.
  intros Hv H1.
  destruct (js_le_n1_mantissa _ _ Hv H1) as [He Hm1].
  pose proof (valid_mantissa _ _ _ Hv) as Hm.
  change (mul (S754_finite false m e) n100)
    with (binary_round_aux prec emax false
            (Zpos (m * 7036874417766400)) (e + -46) loc_Exact).
  assert (HM : Zpos (m * 7036874417766400) < 2 ^ 106).
  { rewrite Pos2Z.inj_mul.
    change (2 ^ 106) with (2 ^ 53 * 2 ^ 53).
    assert (Z.pos 7036874417766400 < 2 ^ 53) by reflexivity.
    assert (0 < 2 ^ 53) by reflexivity. nia. }
  assert (HP : 0 < 2 ^ (- e)) by (apply pow2_pos; lia).
  assert (Bnd : forall lo hi, 0 <= lo -> hi <= 3200 ->
            lo * 2 ^ (- e) <= 3200 * Zpos m <= hi * 2 ^ (- e) ->
            match binary_round_aux prec emax false
                    (Zpos (m * 7036874417766400)) (e + -46) loc_Exact with
            | S754_zero false => lo = 0
            | S754_finite false m' e' =>
                e' <= -45 /\
                lo * 2 ^ (- e' - 5) <= Zpos m' <= hi * 2 ^ (- e' - 5) /\
                (10 * lo + 16) / 32 <= nearest_tenths m' e' <= (10 * hi + 16) / 32
            | _ => False
            end).
  { intros lo hi Hlo Hhi Hb.
    pose proof (round_product_between _ (e + -46) lo hi HM ltac:(lia) Hlo Hhi
                  (score_product_32nds m e lo hi ltac:(lia) Hb)) as Hr.
    destruct (binary_round_aux _ _ _ _ _ _) as [[|]|[|]| |[|] m' e']; try exact Hr.
    destruct Hr as [He' Hr]. split; [assumption|]. split; [assumption|].
    apply nearest_tenths_between; [lia|assumption]. }
  assert (H8 : Zpos 7205759403792794 < 2 ^ 53) by reflexivity.
  assert (H6 : Zpos 5404319552844595 < 2 ^ 53) by reflexivity.
  assert (L8 : 2 ^ 52 <= Zpos 7205759403792794) by (apply Z.leb_le; reflexivity).
  assert (L6 : 2 ^ 52 <= Zpos 5404319552844595) by (apply Z.leb_le; reflexivity).
  assert (G8 : js_ge (S754_finite false m e) n0_8 = true ->
               2560 * 2 ^ (- e) <= 3200 * Zpos m).
  { intros G. pose proof (js_ge_threshold_mantissa _ _ _ Hv He H8 G) as Hg.
    change (2 ^ 53) with 9007199254740992 in *. lia. }
  assert (G6 : js_ge (S754_finite false m e) n0_6 = true ->
               1919 * 2 ^ (- e) <= 3200 * Zpos m).
  { intros G. pose proof (js_ge_threshold_mantissa _ _ _ Hv He H6 G) as Hg.
    change (2 ^ 53) with 9007199254740992 in *. lia. }
  assert (F8 : js_ge (S754_finite false m e) n0_8 = false ->
               3200 * Zpos m <= 2560 * 2 ^ (- e)).
  { intros G. destruct (js_lt_threshold_mantissa _ _ _ Hv L8 G) as [Hg _].
    change (2 ^ 53) with 9007199254740992 in *. lia. }
  assert (F6 : js_ge (S754_finite false m e) n0_6 = false ->
               3200 * Zpos m <= 1920 * 2 ^ (- e)).
  { intros G. destruct (js_lt_threshold_mantissa _ _ _ Hv L6 G) as [Hg _].
    change (2 ^ 53) with 9007199254740992 in *. lia. }
  clear H8 H6 L8 L6.
  pose proof (Bnd 0 3200 ltac:(lia) ltac:(lia) ltac:(lia)) as B0.
  destruct (binary_round_aux _ _ _ _ _ _) as [[|]|[|]| |[|] m' e'] eqn:Er;
    try contradiction.
  - (* the product rounds to zero *)
    exists 0. split; [reflexivity|]. split; [lia|].
    repeat split; intros G; try lia.
    + specialize (G8 G). specialize (Bnd 2560 3200 ltac:(lia) ltac:(lia) ltac:(lia)). lia.
    + specialize (G6 G). specialize (Bnd 1919 3200 ltac:(lia) ltac:(lia) ltac:(lia)). lia.
  - destruct B0 as (He' & Hm' & B0).
    exists (nearest_tenths m' e'). split.
    { cbn [toFixed1].
      replace (ge_1e21 m' e') with false; [reflexivity|].
      symmetry. unfold ge_1e21. destruct (Z.leb_spec 0 e'); [lia|].
      apply Z.leb_gt.
      assert (0 < 2 ^ (- e' - 5)) by (apply pow2_pos; lia).
      replace (2 ^ (- e')) with (32 * 2 ^ (- e' - 5))
        by (change 32 with (2 ^ 5); rewrite <- Z.pow_add_r by lia; f_equal; lia).
      change (10 ^ 21) with 1000000000000000000000. nia. }
    change ((10 * 3200 + 16) / 32) with 1000 in B0.
    change ((10 * 0 + 16) / 32) with 0 in B0.
    split; [assumption|].
    repeat split; intros G.
    + specialize (G8 G). specialize (Bnd 2560 3200 ltac:(lia) ltac:(lia) ltac:(lia)).
      change ((10 * 2560 + 16) / 32) with 800 in Bnd. lia.
    + specialize (F8 G). specialize (Bnd 0 2560 ltac:(lia) ltac:(lia) ltac:(lia)).
      change ((10 * 2560 + 16) / 32) with 800 in Bnd. lia.
    + specialize (G6 G). specialize (Bnd 1919 3200 ltac:(lia) ltac:(lia) ltac:(lia)).
      change ((10 * 1919 + 16) / 32) with 600 in Bnd. lia.
    + specialize (F6 G). specialize (Bnd 0 1920 ltac:(lia) ltac:(lia) ltac:(lia)).
      change ((10 * 1920 + 16) / 32) with 600 in Bnd. lia.
Qed.

(** X2. For every score in [[0,1]], [formatScore] returns a text from
    ["0.0%"] to ["100.0%"]: a whole number of tenths between [0] and
    [1000], written with one digit after the point and followed by
    ["%"]. *)
Theorem formatScore_range (s : number) :
  valid s = true -> js_ge s n0 = true -> js_le s n1 = true ->
  exists n, 0 <= n <= 1000 /\
            formatScore s = Some (show_tenths n ++ "%")%string.
Proof.
  intros Hv H0 H1. unfold formatScore.
  destruct s as [b|[|]| |[|] m e]; try discriminate.
  - exists 0. split; [lia|reflexivity].
  - destruct (score_tenths_bounds m e Hv H1) as (n & -> & Hn & _).
    exists n. split; [assumption|].
    unfold show_tenths. rewrite insert_point_dec_digits by lia. reflexivity.
Qed.

Lemma formatScore_range_witness :
  valid score_0_873 = true /\ js_ge score_0_873 n0 = true /\
  js_le score_0_873 n1 = true /\
  exists n, 0 <= n <= 1000 /\
            formatScore score_0_873 = Some (show_tenths n ++ "%")%string.
Proof.
  repeat split; try reflexivity.
  apply (formatScore_range score_0_873); reflexivity.
Defined.

(** X3. The colour and the percentage of a score in [[0,1]] agree:
    [getScoreColor] answers [success] only where [formatScore] shows
    [80.0%] or more, [warning] only where it shows from [60.0%] to
    [80.0%], and [secondary] only where it shows [60.0%] or less. *)
Theorem formatScore_agrees_with_getScoreColor (s : number) :
  valid s = true -> js_ge s n0 = true -> js_le s n1 = true ->
  exists n, formatScore s = Some (show_tenths n ++ "%")%string /\
    (getScoreColor s = "success"%string -> 800 <= n) /\
    (getScoreColor s = "warning"%string -> 600 <= n <= 800) /\
    (getScoreColor s = "secondary"%string -> n <= 600).
Proof.
  intros Hv H0 H1. unfold formatScore.
  destruct s as [b|[|]| |[|] m e]; try discriminate.
  - exists 0. split; [reflexivity|].
    repeat split; try discriminate; lia.
  - destruct (score_tenths_bounds m e Hv H1)
      as (n & -> & Hn & G8 & F8 & G6 & F6).
    exists n. split.
    { unfold show_tenths. rewrite insert_point_dec_digits by lia. reflexivity. }
    unfold getScoreColor.
    destruct (js_ge _ n0_8); [|destruct (js_ge _ n0_6)];
      repeat split; intros; try discriminate; auto.
Qed.

Lemma formatScore_agrees_with_getScoreColor_witness :
  valid score_0_873 = true /\ js_ge score_0_873 n0 = true /\
  js_le score_0_873 n1 = true /\
  exists n, formatScore score_0_873 = Some (show_tenths n ++ "%")%string /\
    (getScoreColor score_0_873 = "success"%string -> 800 <= n) /\
    (getScoreColor score_0_873 = "warning"%string -> 600 <= n <= 800) /\
    (getScoreColor score_0_873 = "secondary"%string -> n <= 600).
Proof.
  repeat split; try reflexivity.
  apply (formatScore_agrees_with_getScoreColor score_0_873); reflexivity.
Defined.

End ScoreDisplay.

(* ===================================================================== *)
(** * Properties of the page handlers *)
(* ===================================================================== *)

Import Dom.
Import ScholarshipAPI.
Open Scope string_scope.
Open Scope nat_scope.
Open Scope dom_scope.

Ltac run_m :=
  unfold then_, catch_, finally_, bind, ret, throw, get, modify; cbn beta iota.

Lemma showAlert_no_container p message type :
  page_container p = None ->
  showAlert message type p =
  (Throw (TypeError "null.insertBefore"), set_next_node (S (page_next_node p)) p).
Proof.
  intros H. unfold showAlert, createElement. run_m. cbn. now rewrite H.
Qed.

Lemma showAlert_container p message type children :
  page_container p = Some children ->
  showAlert message type p =
  (Ok tt,
   set_timers (page_timers p ++ [{| timer_due := page_now p + 5000;
                                    timer_node := page_next_node p |}])
     (set_container
        (Some ({| node_id := page_next_node p;
                  node_className := alert_className type;
                  node_innerHTML := alert_innerHTML message |} :: children))
        (set_next_node (S (page_next_node p)) p))).
Proof.
  intros H. unfold showAlert, createElement, setTimeout. run_m. cbn. now rewrite H.
Qed.

(** ** Methods of a form *)

Lemma method_eq form key p :
  method form key p =
  (match page_forms p !! form with
   | Some f =>
       if named f key then Throw (TypeError (key ++ " is not a function"))
       else Ok tt
   | None => Ok tt
   end, p).
Proof.
  unfold method. run_m.
  destruct (page_forms p !! form) as [f|]; [|reflexivity].
  now destruct (named f key).
Qed.

Lemma method_Ok form key p f :
  page_forms p !! form = Some f -> named f key = false ->
  method form key p = (Ok tt, p).
Proof. intros Hf Hn. now rewrite method_eq, Hf, Hn. Qed.

Lemma method_Throw form key p f :
  page_forms p !! form = Some f -> named f key = true ->
  method form key p = (Throw (TypeError (key ++ " is not a function")), p).
Proof. intros Hf Hn. now rewrite method_eq, Hf, Hn. Qed.

(** The [finally] handler: a call of [querySelector], then the two
    writes. *)
Lemma finally_enable_eq i p :
  finally_enable i p =
  match page_forms p !! i with
  | Some f =>
      if named f "querySelector"
      then (Throw (TypeError "querySelector is not a function"), p)
      else
        match submit_button f with
        | Some _ =>
            (write_submitBtn i (set_innerHTML submit_label) ;;
             write_submitBtn i (set_disabled false)) p
        | None => (Ok tt, p)
        end
  | None => (Ok tt, p)
  end.
Proof.
  unfold finally_enable, querySelector_submit.
  unfold bind at 1. unfold bind at 1. rewrite method_eq.
  destruct (page_forms p !! i) as [f|] eqn:Hf.
  - destruct (named f "querySelector"); [reflexivity|].
    unfold bind at 1. cbn [get ret]. rewrite Hf.
    now destruct (submit_button f).
  - unfold bind at 1. cbn [get ret]. now rewrite Hf.
Qed.

(** ** Without a container *)

Lemma catch_error_no_container error p :
  page_container p = None ->
  exists q,
    catch_error error p = (Throw (TypeError "null.insertBefore"), q) /\
    page_container q = None /\ page_timers q = page_timers p /\
    page_forms q = page_forms p /\
    page_console q = (page_console p ++ ["Error:"])%list.
Proof.
  intros Hc. unfold catch_error, console_error. unfold bind at 1. cbn [modify].
  rewrite showAlert_no_container by exact Hc.
  eexists. split; [reflexivity|]. cbn. auto.
Qed.

Lemma then_data_no_container formElement data p :
  page_container p = None ->
  exists e q,
    then_data formElement data p = (Throw e, q) /\
    page_container q = None /\ page_timers q = page_timers p /\
    page_forms q = page_forms p /\ page_console q = page_console p.
Proof.
  intros Hc. unfold then_data.
  assert (Hd : data = JNull \/ data <> JNull)
    by (destruct data; auto; right; discriminate).
  destruct Hd as [->|Hn]; [cbn; eauto 10|].
  assert (Hp : forall key q, prop data key q = (Ok (property data key), q))
    by (intros key q; destruct data; try congruence; reflexivity).
  unfold bind at 1. rewrite Hp.
  destruct (is_success (property data "status")).
  - unfold bind at 1. rewrite (showAlert_no_container _ _ _ Hc).
    do 2 eexists. split; [reflexivity|]. cbn. auto.
  - unfold bind at 1. rewrite Hp.
    destruct (to_string (property data "error")).
    + rewrite (showAlert_no_container _ _ _ Hc).
      do 2 eexists. split; [reflexivity|]. cbn. auto.
    + do 2 eexists. split; [reflexivity|]. auto.
Qed.

(** The chain before [finally], without a container: rejected by the
    [showAlert] of the [catch] handler, after one line on the console. *)
Lemma submitFeedback_chain_no_container o formElement p :
  page_container p = None ->
  exists q,
    catch_ (then_ (then_ (fetch_settled o) response_json)
                  (then_data formElement)) catch_error p
      = (Throw (TypeError "null.insertBefore"), q) /\
    page_container q = None /\ page_timers q = page_timers p /\
    page_forms q = page_forms p /\
    page_console q = (page_console p ++ ["Error:"])%list.
Proof.
  intros Hc. unfold catch_.
  assert (Hchain : exists e q1,
    then_ (then_ (fetch_settled o) response_json) (then_data formElement) p
      = (Throw e, q1) /\
    page_container q1 = None /\ page_timers q1 = page_timers p /\
    page_forms q1 = page_forms p /\ page_console q1 = page_console p).
  { destruct o as [|[data|]]; unfold then_, bind;
      cbn [fetch_settled response_json ret throw]; eauto 10.
    apply then_data_no_container, Hc. }
  destruct Hchain as (e & q1 & -> & Hc1 & Ht1 & Hf1 & Hl1).
  destruct (catch_error_no_container e q1 Hc1) as (q & -> & Hcq & Htq & Hfq & Hlq).
  exists q. split; [reflexivity|]. rewrite Hcq, Htq, Hfq, Hlq. 
  rewrite Ht1, Hf1, Hl1. auto.
Qed.

Lemma finally_enable_same_alerts i p :
  page_container (snd (finally_enable i p)) = page_container p /\
  page_timers (snd (finally_enable i p)) = page_timers p /\
  page_console (snd (finally_enable i p)) = page_console p.
Proof.
  rewrite finally_enable_eq.
  destruct (page_forms p !! i) as [f|]; [|auto].
  destruct (named f "querySelector"); [auto|].
  destruct (submit_button f); auto.
Qed.

(** C10. [showAlert] presupposes an element matching [.container]: on a
    page without one [querySelector] returns null and the call of
    [insertBefore] throws, so that no banner is inserted and no timer is
    set, whatever the message; and [submitFeedback] then shows no banner
    on any of its paths (success, application error, transport error),
    its promise ending rejected with that error, or where the form has
    a control named [querySelector] with the error of the [finally]
    handler. *)
Theorem showAlert_needs_container (p : Page) :
  page_container p = None ->
  (forall message type,
     showAlert message type p =
     (Throw (TypeError "null.insertBefore"),
      set_next_node (S (page_next_node p)) p)) /\
  (forall o formElement,
     fst (submitFeedback_settled o formElement p) =
       Throw (match page_forms p !! formElement with
              | Some f =>
                  if named f "querySelector"
                  then TypeError "querySelector is not a function"
                  else TypeError "null.insertBefore"
              | None => TypeError "null.insertBefore"
              end) /\
     page_container (snd (submitFeedback_settled o formElement p)) = None /\
     page_timers (snd (submitFeedback_settled o formElement p)) = page_timers p).
Proof.
  intros H. split; [intros; now apply showAlert_no_container|].
  intros o formElement.
  destruct (submitFeedback_chain_no_container o formElement p H)
    as (q & Hq & Hc & Ht & Hf & _).
  unfold submitFeedback_settled, finally_. rewrite Hq.
  rewrite finally_enable_eq, Hf.
  destruct (page_forms p !! formElement) as [f|]; [|cbn; auto].
  destruct (named f "querySelector"); [cbn; auto|].
  destruct (submit_button f); cbn; auto.
Qed.

(** On the page without a container, a successful submission shows
    nothing. *)
Lemma showAlert_needs_container_witness :
  page_container no_container_page = None /\
  page_container
    (snd (submitFeedback_settled (Response (Some success_body)) 0
            no_container_page)) = None.
Proof.
  split; [reflexivity|].
  destruct (showAlert_needs_container no_container_page eq_refl) as [_ H].
  apply (H (Response (Some success_body)) 0).
Defined.


(** ** Frame reasoning: what a computation leaves related *)

Section Keeps.
Context (R : relation Page) `{!PreOrder R}.

Lemma keeps_ret {A} (a : A) : keeps R (ret a).
Proof. intros p. reflexivity. Qed.

Lemma keeps_throw {A} e : keeps R (@throw A e).
Proof. intros p. reflexivity. Qed.

Lemma keeps_get : keeps R get.
Proof. intros p. reflexivity. Qed.

Lemma keeps_modify f : (forall p, R p (f p)) -> keeps R (modify f).
Proof. intros H p. apply H. Qed.

Lemma keeps_bind {A B} (m : M A) (k : A -> M B) :
  keeps R m -> (forall a, keeps R (k a)) -> keeps R (bind m k).
Proof.
  intros Hm Hk p. unfold bind. specialize (Hm p).
  destruct (m p) as [[a|e] p']; cbn in *; [|assumption].
  etransitivity; [exact Hm | apply Hk].
Qed.

Lemma keeps_catch {A} (m : M A) (h : Exn -> M A) :
  keeps R m -> (forall e, keeps R (h e)) -> keeps R (catch_ m h).
Proof.
  intros Hm Hh p. unfold catch_. specialize (Hm p).
  destruct (m p) as [[a|e] p']; cbn in *; [assumption|].
  etransitivity; [exact Hm | apply Hh].
Qed.

Lemma keeps_finally {A} (m : M A) (h : M unit) :
  keeps R m -> keeps R h -> keeps R (finally_ m h).
Proof.
  intros Hm Hh p. unfold finally_. specialize (Hm p).
  destruct (m p) as [r p']. specialize (Hh p').
  destruct (h p') as [[u|e] p'']; cbn in *; etransitivity; eauto.
Qed.

Lemma keeps_forEach {A} (l : list A) (f : A -> M unit) :
  (forall x, keeps R (f x)) -> keeps R (forEach l f).
Proof.
  intros Hf. induction l as [|x l IH]; cbn [forEach].
  - apply keeps_ret.
  - apply keeps_bind; auto.
Qed.

Lemma keeps_method form key : keeps R (method form key).
Proof. intros p. rewrite method_eq. reflexivity. Qed.

Lemma keeps_dispatch (h : M unit) :
  keeps R h -> (forall p e, R p (set_uncaught (page_uncaught p ++ [e]) p)) ->
  forall p, R p (dispatch h p).
Proof.
  intros Hh Hu p. unfold dispatch. specialize (Hh p).
  destruct (h p) as [[u|e] p']; cbn in *; [assumption|].
  etransitivity; [exact Hh | apply Hu].
Qed.
End Keeps.

(** Break a computation into its steps; what is left are the writes. *)
Ltac keeps_steps :=
  repeat match goal with
    | |- keeps _ (ret _) => apply keeps_ret; apply _
    | |- keeps _ (throw _) => apply keeps_throw; apply _
    | |- keeps _ get => apply keeps_get; apply _
    | |- keeps _ (method _ _) => apply keeps_method; apply _
    | |- keeps _ (bind _ _) => apply keeps_bind; [apply _| |intros ?]
    | |- keeps _ (then_ _ _) => apply keeps_bind; [apply _| |intros ?]
    | |- keeps _ (catch_ _ _) => apply keeps_catch; [apply _| |intros ?]
    | |- keeps _ (finally_ _ _) => apply keeps_finally; [apply _| |]
    | |- keeps _ (forEach _ _) => apply keeps_forEach; [apply _|intros ?]
    | |- keeps _ (modify _) => apply keeps_modify; intros ?
    | |- keeps _ (match ?c with _ => _ end) => destruct c
    end.

(** ** The submit button *)

Lemma find_update_first {A} (sel : A -> bool) (g : A -> A) (l : list A) :
  (forall x, sel (g x) = sel x) ->
  List.find sel (update_first sel g l) = g <$> List.find sel l.
Proof.
  intros Hg. induction l as [|x l IH]; cbn; [reflexivity|].
  destruct (sel x) eqn:E; cbn; [now rewrite Hg, E|now rewrite E].
Qed.

Lemma update_first_twice {A} (sel : A -> bool) (g1 g2 : A -> A) (l : list A) :
  (forall x, sel (g1 x) = sel x) ->
  update_first sel g2 (update_first sel g1 l) =
  update_first sel (fun x => g2 (g1 x)) l.
Proof.
  intros Hg. induction l as [|x l IH]; cbn; [reflexivity|].
  destruct (sel x) eqn:E; cbn; [now rewrite Hg, E|now rewrite E, IH].
Qed.

(** Writing the label and then the flag of the submit button of form
    [i]: the first submit button gets both, nothing else changes. *)
Lemma write_submitBtn_twice i label d p f :
  page_forms p !! i = Some f ->
  exists f',
    page_forms
      (snd ((write_submitBtn i (set_innerHTML label) ;;
             write_submitBtn i (set_disabled d)) p)) !! i = Some f' /\
    submit_button f' =
      (fun b => set_disabled d (set_innerHTML label b)) <$> submit_button f /\
    form_fields f' = form_fields f /\
    form_collapse f' = form_collapse f.
Proof.
  intros Hf. unfold write_submitBtn. run_m. cbn.
  rewrite !list_lookup_alter_eq, Hf. cbn.
  eexists; split; [reflexivity|]. cbn. split; [|auto].
  unfold submit_button. cbn.
  rewrite update_first_twice by reflexivity.
  now rewrite find_update_first by reflexivity.
Qed.


(** ** [submitFeedback]: the button is enabled on every path *)

#[local] Instance same_buttons_preorder i : PreOrder (same_buttons i).
Proof.
  split; [intros p; reflexivity|].
  intros p q r. unfold same_buttons. congruence.
Qed.

#[local] Instance same_named_preorder i : PreOrder (same_named i).
Proof.
  split; [intros p key; reflexivity|].
  intros p q r H1 H2 key. now rewrite H2, H1.
Qed.

Lemma alter_same_buttons i j g p :
  (forall f, form_buttons (g f) = form_buttons f) ->
  same_buttons i p (set_forms (alter g j (page_forms p)) p).
Proof.
  intros Hg. unfold same_buttons. cbn.
  destruct (decide (j = i)) as [->|Hne].
  - rewrite list_lookup_alter_eq. destruct (page_forms p !! i); cbn; congruence.
  - now rewrite list_lookup_alter_ne.
Qed.

Lemma alter_same_named i j g p :
  (forall f key, named (g f) key = named f key) ->
  same_named i p (set_forms (alter g j (page_forms p)) p).
Proof.
  intros Hg key. cbn.
  destruct (decide (j = i)) as [->|Hne].
  - rewrite list_lookup_alter_eq. destruct (page_forms p !! i); cbn; congruence.
  - now rewrite list_lookup_alter_ne.
Qed.

(** A reset leaves the names of the fields. *)
Lemma named_reset f key :
  named (with_fields (map reset_field (form_fields f)) f) key = named f key.
Proof.
  unfold named. cbn. f_equal.
  induction (form_fields f) as [|fd fs IH]; cbn; congruence.
Qed.

Lemma showAlert_same_buttons i message type :
  keeps (same_buttons i) (showAlert message type).
Proof.
  unfold showAlert, createElement, setTimeout.
  keeps_steps; unfold same_buttons; reflexivity.
Qed.

Lemma showAlert_same_named i message type :
  keeps (same_named i) (showAlert message type).
Proof.
  unfold showAlert, createElement, setTimeout.
  keeps_steps; intros key; reflexivity.
Qed.

(** The chain before [finally] leaves the buttons and the names of
    every form. *)
Lemma submitFeedback_chain_same_buttons o formElement i :
  keeps (same_buttons i)
    (catch_ (then_ (then_ (fetch_settled o) response_json)
                   (then_data formElement)) catch_error).
Proof.
  unfold then_, fetch_settled, response_json, then_data, catch_error, prop,
    reset, closest_collapse, Collapse_getInstance_hide, console_error.
  keeps_steps; try apply showAlert_same_buttons;
    try (unfold same_buttons; reflexivity).
  now apply alter_same_buttons.
Qed.

Lemma submitFeedback_chain_same_named o formElement i :
  keeps (same_named i)
    (catch_ (then_ (then_ (fetch_settled o) response_json)
                   (then_data formElement)) catch_error).
Proof.
  unfold then_, fetch_settled, response_json, then_data, catch_error, prop,
    reset, closest_collapse, Collapse_getInstance_hide, console_error.
  keeps_steps; try apply showAlert_same_named;
    try (intros key; reflexivity).
  apply alter_same_named. apply named_reset.
Qed.

(** What the two writes of a handler leave of a button. *)
Lemma enable_spec b :
  btn_disabled (enable b) = false /\
  btn_innerHTML (enable b) =
    "<i class=" ++ dq ++ "fas fa-check" ++ dq ++ "></i> Submit" /\
  btn_type (enable b) = btn_type b.
Proof. repeat split. Qed.


Lemma finally_enable_spec i p f :
  page_forms p !! i = Some f ->
  named f "querySelector" = false ->
  fst (finally_enable i p) = Ok tt /\
  exists f',
    page_forms (snd (finally_enable i p)) !! i = Some f' /\
    submit_button f' = enable <$> submit_button f /\
    form_fields f' = form_fields f /\
    form_collapse f' = form_collapse f.
Proof.
  intros Hf Hn. rewrite finally_enable_eq, Hf, Hn.
  destruct (submit_button f) as [b|] eqn:Eb.
  - destruct (write_submitBtn_twice i submit_label false p f Hf)
      as (f' & Hf' & Hb & Hfd & Hc).
    split; [reflexivity|]. exists f'. now rewrite Hf', Hb, Eb.
  - split; [reflexivity|]. exists f. now rewrite Eb.
Qed.

(** The form after the chain, seen from the form before it. *)
Lemma submitFeedback_chain_form o formElement p f :
  page_forms p !! formElement = Some f ->
  exists f1,
    page_forms
      (snd (catch_ (then_ (then_ (fetch_settled o) response_json)
                          (then_data formElement)) catch_error p))
      !! formElement = Some f1 /\
    form_buttons f1 = form_buttons f /\
    forall key, named f1 key = named f key.
Proof.
  intros Hf.
  pose proof (submitFeedback_chain_same_buttons o formElement formElement p) as Hb.
  pose proof (submitFeedback_chain_same_named o formElement formElement p) as Hn.
  destruct (catch_ _ _ p) as [r p1]. cbn [snd] in *.
  unfold same_buttons in Hb. unfold same_named in Hn. rewrite Hf in Hb, Hn.
  destruct (page_forms p1 !! formElement) as [f1|]; [|discriminate].
  exists f1. split; [reflexivity|]. split; [now injection Hb|].
  intros key. specialize (Hn key). now injection Hn.
Qed.

(** C1, as amended. For every feedback submission that completes,
    whatever the outcome (success response, non-success response,
    network or decode failure, and also when a handler itself throws),
    on a form none of whose controls goes by the name or the id
    [querySelector], [submitFeedback] re-enables the first
    [button[type="submit"]] of the form and sets its label to the fixed
    markup [<i class="fas fa-check"></i> Submit], on every exit path; a
    form without such a button is left without one. *)
Theorem submitFeedback_enables_button (p : Page) (o : FetchOutcome)
    (formElement : nat) (f : Form) :
  page_forms p !! formElement = Some f ->
  named f "querySelector" = false ->
  exists f',
    page_forms (snd (submitFeedback_settled o formElement p)) !! formElement
      = Some f' /\
    match submit_button f with
    | Some b =>
        exists b',
          submit_button f' = Some b' /\
          btn_disabled b' = false /\
          btn_innerHTML b' =
            "<i class=" ++ dq ++ "fas fa-check" ++ dq ++ "></i> Submit" /\
          btn_type b' = btn_type b
    | None => submit_button f' = None
    end.
Proof.
  intros Hf Hn. unfold submitFeedback_settled, finally_.
  destruct (submitFeedback_chain_form o formElement p f Hf)
    as (f1 & Hf1 & Hb & Hk).
  destruct (catch_ _ _ p) as [r p1]. cbn [snd] in Hf1.
  destruct (finally_enable_spec formElement p1 f1 Hf1)
    as (Hok & f' & Hf' & Hs & _); [now rewrite Hk|].
  destruct (finally_enable formElement p1) as [[u|e] p2]; [|discriminate].
  cbn [fst snd] in *. exists f'. split; [assumption|].
  assert (Hs' : submit_button f' = enable <$> submit_button f)
    by (rewrite Hs; unfold submit_button; now rewrite Hb).
  destruct (submit_button f) as [b|]; [|exact Hs'].
  exists (enable b). split; [exact Hs'|apply enable_spec].
Qed.

(** A request that fails on the network, on the page of the example:
    the button labelled [Send] ends enabled and labelled [Submit]. *)
Lemma submitFeedback_enables_button_witness :
  page_forms demo_page !! 0 = Some rating_form /\
  named rating_form "querySelector" = false /\
  exists f',
    page_forms (snd (submitFeedback_settled Rejected 0 demo_page)) !! 0
      = Some f' /\
    exists b',
      submit_button f' = Some b' /\
      btn_disabled b' = false /\
      btn_innerHTML b' =
        "<i class=" ++ dq ++ "fas fa-check" ++ dq ++ "></i> Submit" /\
      btn_type b' = btn_type send_button.
Proof.
  split; [reflexivity|]. split; [reflexivity|].
  exact (submitFeedback_enables_button demo_page Rejected 0 rating_form
           eq_refl eq_refl).
Defined.

(** C1, as stated, fails on a form whose submit button is labelled
    [Send]: after the submission has gone through, the button is enabled
    but reads [<i class="fas fa-check"></i> Submit], not the label it had
    before the busy state was set. *)
Lemma submitFeedback_label_not_restored :
  btn_innerHTML <$> submit_button rating_form = Some "Send" /\
  (let q := run [Submit 0; Settle 0 (Response (Some success_body))] demo_page in
   btn_innerHTML <$> (page_forms q !! 0 ≫= submit_button) =
     Some ("<i class=" ++ dq ++ "fas fa-check" ++ dq ++ "></i> Submit") /\
   btn_disabled <$> (page_forms q !! 0 ≫= submit_button) = Some false) /\
  "<i class=" ++ dq ++ "fas fa-check" ++ dq ++ "></i> Submit" <> "Send".
Proof. repeat split. discriminate. Qed.

(** Where a control of the form goes by the name [querySelector], the
    [finally] handler throws at its first call, and a button that was
    busy stays busy: the amended statement needs its premise. *)
Lemma submitFeedback_querySelector_shadowed :
  named (shadowing_form "querySelector") "querySelector" = true /\
  (let r := submitFeedback_settled (Response (Some success_body)) 0
              (shadowing_page "querySelector") in
   fst r = Throw (TypeError "querySelector is not a function") /\
   btn_disabled <$> (page_forms (snd r) !! 0 ≫= submit_button) = Some true).
Proof. repeat split. Qed.

(** ** [submitFeedback]: the two terminal states *)

(** The markup of a banner around its message. *)
Abbreviation banner_html message :=
  (nl ++ "        " ++ message ++ nl ++
   "        <button type=" ++ dq ++ "button" ++ dq ++
   " class=" ++ dq ++ "btn-close" ++ dq ++
   " data-bs-dismiss=" ++ dq ++ "alert" ++ dq ++ "></button>" ++ nl ++ "    ")
  (only parsing).

Lemma alert_spec p message type :
  node_id (alert p message type) = page_next_node p /\
  node_className (alert p message type) =
    "alert alert-" ++ type ++ " alert-dismissible fade show" /\
  node_innerHTML (alert p message type) = banner_html message.
Proof. repeat split. Qed.

Lemma finally_enable_same_display i p :
  same_display p (snd (finally_enable i p)).
Proof.
  rewrite finally_enable_eq.
  destruct (page_forms p !! i) as [f|]; [|repeat split].
  destruct (named f "querySelector"); [repeat split|].
  destruct (submit_button f); repeat split.
Qed.

Lemma is_success_not_null data :
  is_success (property data "status") = true -> data <> JNull.
Proof. intros H ->. discriminate. Qed.

Lemma prop_not_null data key p :
  data <> JNull -> prop data key p = (Ok (property data key), p).
Proof. destruct data; try congruence; reflexivity. Qed.

Lemma alter_lookup_None {A} (g : A -> A) (l : list A) (i : nat) :
  l !! i = None -> alter g i l = l.
Proof.
  revert i. induction l as [|x l IH]; intros [|i] H; cbn in *;
    try reflexivity; try discriminate.
  f_equal. now apply IH.
Qed.

(** A reset leaves every field at its default. *)
Lemma map_reset_field_at_default fs :
  Forall2 at_default fs (map reset_field fs).
Proof.
  induction fs as [|fd fs IH]; cbn; constructor; [|exact IH].
  unfold at_default, reset_field. cbn.
  destruct (fld_control fd); cbn; auto.
Qed.

(** Closing panel [k]. *)
Lemma lookup_alter_closed k j (ps : list Panel) :
  alter (set_show false) k ps !! j =
  if Nat.eqb j k then closed <$> ps !! j else ps !! j.
Proof.
  destruct (Nat.eqb_spec j k) as [->|Hne].
  - now rewrite list_lookup_alter_eq.
  - rewrite list_lookup_alter_ne by congruence. reflexivity.
Qed.

(** [formElement.reset()] and [formElement.closest(...)] on a form
    without controls of these names. *)
Lemma reset_Ok i p f :
  page_forms p !! i = Some f -> named f "reset" = false ->
  reset i p =
  (Ok tt,
   set_forms
     (alter (fun f => with_fields (map reset_field (form_fields f)) f)
            i (page_forms p)) p).
Proof.
  intros Hf Hn. unfold reset. unfold bind at 1.
  now rewrite (method_Ok i "reset" p f Hf Hn).
Qed.

Lemma reset_Throw i p f :
  page_forms p !! i = Some f -> named f "reset" = true ->
  reset i p = (Throw (TypeError "reset is not a function"), p).
Proof.
  intros Hf Hn. unfold reset. unfold bind at 1.
  now rewrite (method_Throw i "reset" p f Hf Hn).
Qed.

Lemma closest_collapse_Ok i p f :
  page_forms p !! i = Some f -> named f "closest" = false ->
  closest_collapse i p =
  (Ok (match form_collapse f with
       | Some k =>
           match page_panels p !! k with
           | Some _ => Some k
           | None => None
           end
       | None => None
       end), p).
Proof.
  intros Hf Hn. unfold closest_collapse. unfold bind at 1.
  rewrite (method_Ok i "closest" p f Hf Hn). run_m. now rewrite Hf.
Qed.

Lemma then_data_success i data p f children :
  is_success (property data "status") = true ->
  page_forms p !! i = Some f ->
  page_container p = Some children ->
  (forall k pn, form_collapse f = Some k -> page_panels p !! k = Some pn ->
                panel_instance pn = true) ->
  named f "reset" = false -> named f "closest" = false ->
  exists q,
    then_data i data p = (Ok tt, q) /\
    page_container q =
      Some (alert p "Thank you for your feedback!" "success" :: children) /\
    page_forms q !! i =
      Some (with_fields (map reset_field (form_fields f)) f) /\
    page_panels q =
      match form_collapse f with
      | Some k => alter (set_show false) k (page_panels p)
      | None => page_panels p
      end.
Proof.
  intros Hs Hf Hc Hi Hr Hcl. unfold then_data.
  unfold bind at 1. rewrite prop_not_null by now apply is_success_not_null.
  rewrite Hs.
  unfold bind at 1. rewrite (showAlert_container _ _ _ children Hc).
  set (p1 := set_timers _ _).
  unfold bind at 1. rewrite (reset_Ok i p1 f Hf Hr).
  set (p2 := set_forms _ p1).
  assert (Hf2 : page_forms p2 !! i
                = Some (with_fields (map reset_field (form_fields f)) f)).
  { subst p2. cbn. now rewrite list_lookup_alter_eq, Hf. }
  unfold bind at 1.
  rewrite (closest_collapse_Ok i p2 _ Hf2) by now rewrite named_reset.
  cbn [form_collapse with_fields].
  destruct (form_collapse f) as [k|] eqn:Ek.
  - change (page_panels p2) with (page_panels p).
    destruct (page_panels p !! k) as [pn|] eqn:Epn.
    + unfold Collapse_getInstance_hide. unfold bind at 1. cbn [get].
      change (page_panels p2) with (page_panels p).
      rewrite Epn, (Hi k pn eq_refl Epn). cbn [modify].
      eexists. split; [reflexivity|]. cbn. auto.
    + exists p2. split; [reflexivity|]. repeat split; [exact Hf2|].
      symmetry. now apply alter_lookup_None.
  - exists p2. split; [reflexivity|]. repeat split. exact Hf2.
Qed.

Lemma then_data_failure i data p children text :
  data <> JNull ->
  is_success (property data "status") = false ->
  to_string (property data "error") = Some text ->
  page_container p = Some children ->
  exists q,
    then_data i data p = (Ok tt, q) /\
    page_container q =
      Some (alert p ("Error submitting feedback: " ++ text) "danger"
            :: children) /\
    page_forms q = page_forms p /\
    page_panels q = page_panels p /\
    page_console q = page_console p.
Proof.
  intros Hn Hs Ht Hc. unfold then_data.
  unfold bind at 1. rewrite prop_not_null by assumption. rewrite Hs.
  unfold bind at 1. rewrite prop_not_null by assumption. rewrite Ht.
  rewrite (showAlert_container _ _ _ children Hc).
  eexists. split; [reflexivity|]. cbn. auto.
Qed.

(** An [error] without a text: the concatenation throws, and nothing has
    been written. *)
Lemma then_data_no_text i data p :
  data <> JNull ->
  is_success (property data "status") = false ->
  to_string (property data "error") = None ->
  then_data i data p =
  (Throw (TypeError "Cannot convert object to primitive value"), p).
Proof.
  intros Hn Hs Ht. unfold then_data.
  unfold bind at 1. rewrite prop_not_null by assumption. rewrite Hs.
  unfold bind at 1. rewrite prop_not_null by assumption. now rewrite Ht.
Qed.

Lemma catch_error_container error p children :
  page_container p = Some children ->
  exists q,
    catch_error error p = (Ok tt, q) /\
    page_container q =
      Some (alert p "Error submitting feedback. Please try again." "danger"
            :: children) /\
    page_forms q = page_forms p /\
    page_panels q = page_panels p /\
    page_console q = (page_console p ++ ["Error:"])%list.
Proof.
  intros Hc. unfold catch_error, console_error. run_m.
  rewrite (showAlert_container _ _ _ children) by exact Hc.
  eexists. split; [reflexivity|]. cbn. auto.
Qed.

(** The chain before [finally], on a page with a container: one banner,
    and the state that goes with it. *)
Lemma submitFeedback_chain_state o formElement p f children :
  page_forms p !! formElement = Some f ->
  page_container p = Some children ->
  (forall k pn, form_collapse f = Some k -> page_panels p !! k = Some pn ->
                panel_instance pn = true) ->
  named f "reset" = false -> named f "closest" = false ->
  exists q f1,
    catch_ (then_ (then_ (fetch_settled o) response_json)
                  (then_data formElement)) catch_error p = (Ok tt, q) /\
    page_forms q !! formElement = Some f1 /\
    if succeeded o then
      page_container q =
        Some (alert p "Thank you for your feedback!" "success" :: children) /\
      form_fields f1 = map reset_field (form_fields f) /\
      page_panels q =
        match form_collapse f with
        | Some k => alter (set_show false) k (page_panels p)
        | None => page_panels p
        end
    else
      page_container q = Some (alert p (error_text o) "danger" :: children) /\
      form_fields f1 = form_fields f /\
      page_panels q = page_panels p.
Proof.
  intros Hf Hc Hi Hr Hcl.
  destruct o as [|[data|]]; cbn [succeeded error_text].
  - destruct (catch_error_container NetworkError p children Hc)
      as (q & Hq & Hqc & Hqf & Hqp & _).
    exists q, f. unfold catch_, then_, bind. cbn [fetch_settled throw].
    rewrite Hq, Hqf. auto.
  - destruct (is_success (property data "status")) eqn:Es.
    + destruct (then_data_success formElement data p f children Es Hf Hc Hi
                  Hr Hcl) as (q & Hq & Hqc & Hqf & Hqp).
      eexists q, _. unfold catch_, then_, bind.
      cbn [fetch_settled response_json ret]. rewrite Hq. eauto.
    + assert (Hd : data = JNull \/ data <> JNull)
        by (destruct data; auto; right; discriminate).
      destruct Hd as [->|Hn].
      * destruct (catch_error_container (TypeError "null.status") p children Hc)
          as (q & Hq & Hqc & Hqf & Hqp & _).
        exists q, f. unfold catch_, then_, bind.
        cbn [fetch_settled response_json ret]. cbn. cbn in Hq.
        rewrite Hq, Hqf. auto.
      * assert (Het : forall t : string,
                  match data with
                  | JNull => "Error submitting feedback. Please try again."
                  | _ => t
                  end = t) by (intros t; destruct data; congruence).
        rewrite Het.
        destruct (to_string (property data "error")) as [text|] eqn:Et.
        -- destruct (then_data_failure formElement data p children text
                       Hn Es Et Hc) as (q & Hq & Hqc & Hqf & Hqp & _).
           exists q, f. unfold catch_, then_, bind.
           cbn [fetch_settled response_json ret]. rewrite Hq, Hqf. auto.
        -- destruct (catch_error_container
                       (TypeError "Cannot convert object to primitive value")
                       p children Hc) as (q & Hq & Hqc & Hqf & Hqp & _).
           exists q, f. unfold catch_, then_, bind.
           cbn [fetch_settled response_json ret].
           rewrite (then_data_no_text formElement data p Hn Es Et).
           rewrite Hq, Hqf. auto.
  - destruct (catch_error_container SyntaxError p children Hc)
      as (q & Hq & Hqc & Hqf & Hqp & _).
    exists q, f. unfold catch_, then_, bind.
    cbn [fetch_settled response_json ret throw].
    rewrite Hq, Hqf. auto.
Qed.

(** C2, as amended. On a page that has a container, where the nearest
    collapsible ancestor of the form, if there is one, has a Collapse
    instance, and where no control of the form goes by the name or the
    id [reset] or [closest], every feedback submission that completes
    reaches exactly one of two terminal states: if the decoded response
    has [status == "success"], one banner of class [alert-success] with
    the fixed message is shown, every field of the form is at its
    default and that ancestor is closed; otherwise (another status, or a
    network or decode failure) one banner of class [alert-danger] is
    shown, and the fields and the panels are as they were.  The promise
    ends fulfilled where no control goes by the name [querySelector]. *)
Theorem submitFeedback_terminal_state (p : Page) (o : FetchOutcome)
    (formElement : nat) (f : Form) (children : list Node) :
  page_forms p !! formElement = Some f ->
  page_container p = Some children ->
  (forall k pn, form_collapse f = Some k -> page_panels p !! k = Some pn ->
                panel_instance pn = true) ->
  named f "reset" = false -> named f "closest" = false ->
  (named f "querySelector" = false ->
   fst (submitFeedback_settled o formElement p) = Ok tt) /\
  exists f' banner,
    page_forms (snd (submitFeedback_settled o formElement p)) !! formElement
      = Some f' /\
    page_container (snd (submitFeedback_settled o formElement p)) =
      Some (banner :: children) /\
    if succeeded o then
      node_className banner =
        "alert alert-success alert-dismissible fade show" /\
      node_innerHTML banner = banner_html "Thank you for your feedback!" /\
      Forall2 at_default (form_fields f) (form_fields f') /\
      match form_collapse f with
      | Some k =>
          forall j,
            page_panels (snd (submitFeedback_settled o formElement p)) !! j =
            if Nat.eqb j k then closed <$> page_panels p !! j
            else page_panels p !! j
      | None =>
          page_panels (snd (submitFeedback_settled o formElement p)) =
          page_panels p
      end
    else
      node_className banner =
        "alert alert-danger alert-dismissible fade show" /\
      node_innerHTML banner = banner_html (error_text o) /\
      form_fields f' = form_fields f /\
      page_panels (snd (submitFeedback_settled o formElement p)) =
        page_panels p.
Proof.
  intros Hf Hc Hi Hr Hcl.
  destruct (submitFeedback_chain_state o formElement p f children
              Hf Hc Hi Hr Hcl) as (q & f1 & Hq & Hf1 & Hstate).
  pose proof (submitFeedback_chain_form o formElement p f Hf)
    as (f1' & Hf1' & _ & Hk).
  unfold submitFeedback_settled, finally_. rewrite Hq in *. cbn [snd] in Hf1'.
  assert (f1' = f1) as -> by congruence.
  destruct (finally_enable_same_display formElement q) as (Hdc & Hdp & _).
  split.
  - intros Hqs.
    destruct (finally_enable_spec formElement q f1 Hf1) as (Hok & _);
      [now rewrite Hk|].
    destruct (finally_enable formElement q) as [[[]|e] q'];
      [reflexivity|discriminate].
  - assert (Hforms : exists f',
              page_forms (snd (finally_enable formElement q)) !! formElement
                = Some f' /\ form_fields f' = form_fields f1).
    { rewrite finally_enable_eq, Hf1.
      destruct (named f1 "querySelector"); [eauto|].
      destruct (submit_button f1).
      - destruct (write_submitBtn_twice formElement submit_label false q f1 Hf1)
          as (f' & Hf' & _ & Hfd & _). eauto.
      - eauto. }
    destruct Hforms as (f' & Hf' & Hfd).
    destruct (finally_enable formElement q) as [[u|e] q']; cbn [fst snd] in *.
    + exists f'. revert Hstate. rewrite Hdc, Hdp, Hfd.
      destruct (succeeded o).
      * intros (Hqc & Hqf & Hqp). eexists. split; [exact Hf'|].
        split; [exact Hqc|]. split; [reflexivity|]. split; [reflexivity|].
        split; [rewrite Hqf; apply map_reset_field_at_default|].
        rewrite Hqp. destruct (form_collapse f) as [k|]; [|reflexivity].
        intros j. apply lookup_alter_closed.
      * intros (Hqc & Hqf & Hqp). eexists. split; [exact Hf'|].
        split; [exact Hqc|]. auto.
    + exists f'. revert Hstate. rewrite Hdc, Hdp, Hfd.
      destruct (succeeded o).
      * intros (Hqc & Hqf & Hqp). eexists. split; [exact Hf'|].
        split; [exact Hqc|]. split; [reflexivity|]. split; [reflexivity|].
        split; [rewrite Hqf; apply map_reset_field_at_default|].
        rewrite Hqp. destruct (form_collapse f) as [k|]; [|reflexivity].
        intros j. apply lookup_alter_closed.
      * intros (Hqc & Hqf & Hqp). eexists. split; [exact Hf'|].
        split; [exact Hqc|]. auto.
Qed.

(** A successful submission on the page of the example. *)
Lemma submitFeedback_terminal_state_witness :
  page_forms demo_page !! 0 = Some rating_form /\
  page_container demo_page = Some [] /\
  named rating_form "reset" = false /\
  named rating_form "closest" = false /\
  let q := snd (submitFeedback_settled (Response (Some success_body)) 0
                  demo_page) in
  exists f' banner,
    page_forms q !! 0 = Some f' /\
    page_container q = Some [banner] /\
    node_className banner =
      "alert alert-success alert-dismissible fade show" /\
    map fld_value (form_fields f') = [EmptyString] /\
    panel_show <$> page_panels q !! 0 = Some false.
Proof.
  split; [reflexivity|]. split; [reflexivity|].
  split; [reflexivity|]. split; [reflexivity|].
  destruct (submitFeedback_terminal_state demo_page
              (Response (Some success_body)) 0 rating_form [])
    as (_ & f' & banner & Hf' & Hc & Hcls & _ & Hfd & Hp);
    [reflexivity|reflexivity| |reflexivity|reflexivity|].
  { intros k pn Hk Hpn. injection Hk as <-. injection Hpn as <-. reflexivity. }
  cbv zeta. exists f', banner.
  split; [exact Hf'|]. split; [exact Hc|]. split; [exact Hcls|].
  split.
  - cbn in Hfd. inversion Hfd as [|fd fd' l l' Hd Hl]. subst.
    inversion Hl. subst. destruct Hd as (_ & _ & Hd). cbn in Hd.
    unfold fld_value. cbn.
    destruct (fld_control fd') as [v d|]; [|contradiction].
    destruct Hd as [-> _]. reflexivity.
  - change (form_collapse rating_form) with (Some 0) in Hp.
    rewrite (Hp 0). reflexivity.
Defined.

(** C2, as stated, fails in two ways.  On the page served with the panel
    open, a response with [status == "success"] leaves the success
    banner and the error banner both on the page, the form reset and the
    panel still open: [getInstance] returns null, the call of [hide]
    throws inside the [then] handler, and the [catch] handler runs.  On
    the page without a container the same response leaves no banner at
    all, and the form is not reset. *)
Lemma submitFeedback_neither_terminal_state :
  succeeded (Response (Some success_body)) = true /\
  (map node_className <$>
     page_container
       (snd (submitFeedback_settled (Response (Some success_body)) 0
               served_open_page))
   = Some ["alert alert-danger alert-dismissible fade show";
           "alert alert-success alert-dismissible fade show"] /\
   panel_show <$>
     page_panels
       (snd (submitFeedback_settled (Response (Some success_body)) 0
               served_open_page)) !! 0
   = Some true) /\
  (page_container
     (snd (submitFeedback_settled (Response (Some success_body)) 0
             no_container_page)) = None /\
   form_fields <$>
     page_forms
       (snd (submitFeedback_settled (Response (Some success_body)) 0
               no_container_page)) !! 0
   = Some (form_fields rating_form)).
Proof. repeat split. Qed.

(** Where a control of the form goes by the name [reset], the call of
    [reset] throws after the success banner has been shown: both banners
    are on the page and the field keeps its value.  The amended statement
    needs its premise. *)
Lemma submitFeedback_reset_shadowed :
  named (shadowing_form "reset") "reset" = true /\
  (let q := snd (submitFeedback_settled (Response (Some success_body)) 0
                   (shadowing_page "reset")) in
   map node_className <$> page_container q =
     Some ["alert alert-danger alert-dismissible fade show";
           "alert alert-success alert-dismissible fade show"] /\
   map fld_value <$> (form_fields <$> page_forms q !! 0) = Some ["5"]).
Proof. repeat split. Qed.


(** ** The busy state *)

Lemma form_submit_eq i p :
  form_submit i p =
  match page_forms p !! i with
  | Some f =>
      if named f "querySelector"
      then (Throw (TypeError "querySelector is not a function"), p)
      else
        match submit_button f with
        | Some _ =>
            (write_submitBtn i (set_innerHTML busy_label) ;;
             write_submitBtn i (set_disabled true)) p
        | None => (Ok tt, p)
        end
  | None => (Ok tt, p)
  end.
Proof.
  unfold form_submit, querySelector_submit.
  unfold bind at 1. unfold bind at 1. rewrite method_eq.
  destruct (page_forms p !! i) as [f|] eqn:Hf.
  - destruct (named f "querySelector"); [reflexivity|].
    unfold bind at 1. cbn [get ret]. rewrite Hf.
    now destruct (submit_button f).
  - unfold bind at 1. cbn [get ret]. now rewrite Hf.
Qed.

Lemma feedback_form_submit_eq i p f :
  page_forms p !! i = Some f ->
  feedback_form_submit i p =
  (Ok tt,
   set_pending (page_pending p ++ [i])
     (set_fetched
        (page_fetched p ++
         [{| req_method := "POST"; req_url := "/feedback";
             req_body :=
               Some (FormData_append
                       (FormData_append (FormData f)
                          "student_id" (dataset f (form_student f)))
                       "scholarship_id" (dataset f (form_scholarship f))) |}])
        p)).
Proof.
  intros Hf. unfold feedback_form_submit, submitFeedback, fetch. run_m.
  now rewrite Hf.
Qed.

(** The page after the listener of the feedback forms, where it is
    installed. *)
Lemma feedback_form_submit_frame form p f :
  page_forms p !! form = Some f ->
  let p1 := if form_feedback f
            then dispatch (feedback_form_submit form) p else p in
  page_forms p1 = page_forms p /\
  page_pending p1 =
    (page_pending p ++ (if form_feedback f then [form] else []))%list /\
  page_container p1 = page_container p /\
  page_panels p1 = page_panels p /\
  page_uncaught p1 = page_uncaught p.
Proof.
  intros Hf. cbv zeta. destruct (form_feedback f).
  - unfold dispatch. rewrite (feedback_form_submit_eq form p f Hf).
    repeat split.
  - rewrite app_nil_r. repeat split.
Qed.





(** ** [getRecommendations] *)


(** C6. For every [studentId] and [topN], [getRecommendations] issues
    one GET to exactly [/api/recommend/{studentId}?top_n={topN}], with
    [topN] defaulting to 10, and its promise is fulfilled with the
    decoded body; if the request fails or the body does not decode, it
    is fulfilled with null: the failure is never thrown to the caller. *)
Theorem getRecommendations_result (o : FetchOutcome) (studentId : string)
    (topN : option string) (p : Page) :
  exists q,
    getRecommendations o studentId topN p =
      (Ok (match o with Response (Some data) => data | _ => JNull end), q) /\
    page_fetched q =
      (page_fetched p ++
       [{| req_method := "GET";
           req_url := "/api/recommend/" ++ studentId ++ "?top_n=" ++
                      match topN with Some n => n | None => "10" end;
           req_body := None |}])%list.
Proof.
  unfold getRecommendations, fetch, console_error. run_m.
  destruct o as [|[data|]]; cbn; eexists; split; reflexivity.
Qed.

(** The example of the specification: student "42", three results. *)
Example getRecommendations_42_3 (p : Page) :
  page_fetched (snd (getRecommendations Rejected "42" (Some "3") p)) =
  (page_fetched p ++
   [{| req_method := "GET"; req_url := "/api/recommend/42?top_n=3";
       req_body := None |}])%list /\
  fst (getRecommendations Rejected "42" (Some "3") p) = Ok JNull.
Proof. split; reflexivity. Qed.


(** ** One open panel *)

Lemma forEach_hide_other t (l : list (nat * Panel)) : forall p,
  (forall kp, In kp l -> panel_id (snd kp) <> substring1 t ->
     panel_instance <$> page_panels p !! fst kp = Some true) ->
  exists q,
    forEach l (hide_other (Some t)) p = (Ok tt, q) /\
    page_panels q = fold_left (hide_step (substring1 t)) l (page_panels p).
Proof.
  induction l as [|[k pn] l IH]; intros p Hinst; cbn [forEach fold_left].
  - exists p. split; reflexivity.
  - unfold bind at 1. unfold hide_other at 1. unfold bind at 1. cbn [ret snd fst].
    unfold hide_step at 2. cbn [snd fst].
    destruct (String.eqb_spec (panel_id pn) (substring1 t)) as [He|Hne];
      cbn [negb].
    + apply IH. intros kp Hin. apply Hinst. now right.
    + specialize (Hinst (k, pn) (or_introl eq_refl) Hne) as Hk. cbn [fst] in Hk.
      unfold Collapse_getInstance_hide. unfold bind at 1. cbn [get].
      destruct (page_panels p !! k) as [pk|] eqn:Ek; [|discriminate].
      injection Hk as Hk. rewrite Hk. cbn [modify].
      destruct (IH (set_panels (alter (set_show false) k (page_panels p)) p))
        as (q & Hq & Hqp).
      { intros kp Hin Hkp. cbn.
        specialize (Hinst kp (or_intror Hin) Hkp).
        destruct (decide (k = fst kp)) as [<-|Hd].
        - rewrite list_lookup_alter_eq, Ek. cbn. now rewrite Hk.
        - now rewrite list_lookup_alter_ne. }
      exists q. split; [exact Hq|exact Hqp].
Qed.

(** Every panel after the loop is the panel before, open or closed. *)
Lemma fold_hide_step_origin rest l : forall ps k pn',
  fold_left (hide_step rest) l ps !! k = Some pn' ->
  exists pn, ps !! k = Some pn /\ (pn' = pn \/ pn' = set_show false pn).
Proof.
  induction l as [|[j pj] l IH]; intros ps k pn' H; cbn [fold_left] in H.
  - eauto.
  - apply IH in H. destruct H as (pn1 & H1 & Hor).
    unfold hide_step in H1. cbn [fst snd] in H1.
    destruct (negb _); [|eauto].
    destruct (decide (j = k)) as [->|Hd].
    + rewrite list_lookup_alter_eq in H1.
      destruct (ps !! k) as [pn|]; [|discriminate]. injection H1 as <-.
      exists pn. split; [reflexivity|]. right.
      destruct Hor as [->| ->]; reflexivity.
    + rewrite list_lookup_alter_ne in H1 by assumption. eauto.
Qed.

(** A panel the loop meets under another identifier ends closed. *)
Lemma fold_hide_step_closed rest l : forall ps k pk pn',
  In (k, pk) l -> panel_id pk <> rest ->
  fold_left (hide_step rest) l ps !! k = Some pn' ->
  panel_show pn' = false.
Proof.
  induction l as [|[j pj] l IH]; intros ps k pk pn' Hin Hne H;
    cbn [fold_left] in H; [contradiction|].
  destruct Hin as [Heq|Hin]; [|eauto].
  injection Heq as -> ->.
  apply fold_hide_step_origin in H. destruct H as (pn1 & H1 & Hor).
  unfold hide_step in H1. cbn [fst snd] in H1.
  destruct (String.eqb_spec (panel_id pk) rest) as [|_]; [contradiction|].
  cbn [negb] in H1. rewrite list_lookup_alter_eq in H1.
  destruct (ps !! k) as [pn|]; [|discriminate]. injection H1 as <-.
  destruct Hor as [->| ->]; reflexivity.
Qed.

(** A panel the loop meets only under the target's identifier, or not at
    all, is left as it was. *)
Lemma fold_hide_step_kept rest l : forall ps k,
  (forall pk, In (k, pk) l -> panel_id pk = rest) ->
  fold_left (hide_step rest) l ps !! k = ps !! k.
Proof.
  induction l as [|[j pj] l IH]; intros ps k Hl; cbn [fold_left];
    [reflexivity|].
  rewrite IH by (intros pk Hin; apply Hl; now right).
  unfold hide_step. cbn [fst snd].
  destruct (String.eqb_spec (panel_id pj) rest) as [He|Hne]; [reflexivity|].
  cbn [negb]. destruct (decide (j = k)) as [->|Hd].
  - exfalso. apply Hne, Hl. now left.
  - now rewrite list_lookup_alter_ne.
Qed.

Lemma in_querySelectorAll_collapse_show p k pn :
  In (k, pn) (querySelectorAll_collapse_show p) <->
  page_panels p !! k = Some pn /\ panel_show pn = true.
Proof.
  unfold querySelectorAll_collapse_show. rewrite filter_In. cbn [snd].
  rewrite <- list_elem_of_In, elem_of_lookup_imap.
  split.
  - intros [(i & y & Heq & Hy) Hs]. injection Heq as -> ->. auto.
  - intros [Hk Hs]. split; [eauto|assumption].
Qed.

(** C3, as amended. When a [feedback-btn] toggle that carries a
    [data-bs-target] is clicked, and every expanded panel whose
    identifier differs from the target has a Collapse instance, then
    every such panel is closed within the click handler: no panel is
    left expanded but under the identifier of the target, and the panels
    under that identifier are left as they were. *)
Theorem feedback_btn_click_closes_others (p : Page) (t : string) :
  (forall k pn, page_panels p !! k = Some pn -> panel_show pn = true ->
                panel_id pn <> substring1 t -> panel_instance pn = true) ->
  exists q,
    feedback_btn_click (Some t) p = (Ok tt, q) /\
    (forall k pn, page_panels q !! k = Some pn -> panel_show pn = true ->
                  panel_id pn = substring1 t) /\
    (forall k pn, page_panels p !! k = Some pn ->
                  panel_id pn = substring1 t ->
                  page_panels q !! k = Some pn).
Proof.
  intros Hinst. unfold feedback_btn_click. unfold bind at 1. cbn [get].
  destruct (forEach_hide_other t (querySelectorAll_collapse_show p) p)
    as (q & Hq & Hqp).
  { intros [k pn] Hin Hne. cbn [fst snd] in *.
    apply in_querySelectorAll_collapse_show in Hin. destruct Hin as [Hk Hs].
    rewrite Hk. cbn. f_equal. eauto. }
  exists q. split; [exact Hq|]. rewrite Hqp. split.
  - intros k pn' Hk Hs.
    destruct (fold_hide_step_origin _ _ _ _ _ Hk) as (pn & Hpn & [->| ->]);
      [|discriminate].
    destruct (String.eqb_spec (panel_id pn) (substring1 t)) as [|Hne];
      [assumption|].
    assert (Hin : In (k, pn) (querySelectorAll_collapse_show p))
      by now apply in_querySelectorAll_collapse_show.
    rewrite (fold_hide_step_closed _ _ _ _ _ _ Hin Hne Hk) in Hs. discriminate.
  - intros k pn Hk Hid. rewrite fold_hide_step_kept; [assumption|].
    intros pk Hin. apply in_querySelectorAll_collapse_show in Hin.
    destruct Hin as [Hk' _]. congruence.
Qed.

(** The second toggle of the example, with the first panel open. *)
Lemma feedback_btn_click_closes_others_witness :
  (forall k pn, page_panels demo_page !! k = Some pn ->
                panel_show pn = true ->
                panel_id pn <> substring1 "#feedback-8" ->
                panel_instance pn = true) /\
  exists q,
    feedback_btn_click (Some "#feedback-8") demo_page = (Ok tt, q) /\
    (forall k pn, page_panels q !! k = Some pn -> panel_show pn = true ->
                  panel_id pn = substring1 "#feedback-8") /\
    (forall k pn, page_panels demo_page !! k = Some pn ->
                  panel_id pn = substring1 "#feedback-8" ->
                  page_panels q !! k = Some pn).
Proof.
  assert (H : forall k pn, page_panels demo_page !! k = Some pn ->
                panel_show pn = true ->
                panel_id pn <> substring1 "#feedback-8" ->
                panel_instance pn = true).
  { intros [|[|k]] pn Hk; cbn in Hk; try discriminate;
      injection Hk as <-; reflexivity. }
  split; [exact H|].
  apply (feedback_btn_click_closes_others demo_page "#feedback-8" H).
Defined.

(** C3, as stated, fails in two ways.  On the page served with the panel
    [feedback-7] open, a click on the toggle of [feedback-8] leaves that
    panel open, because [getInstance] returns null for it and the call
    of [hide] throws.  And a click on the toggle without a
    [data-bs-target] leaves the open panel open on the page of the
    example too: [target] is undefined and the call of [substring]
    throws. *)
Lemma feedback_btn_click_leaves_open :
  (page_toggles served_open_page !! 1 = Some (Some "#feedback-8") /\
   page_panels (click_event 1 served_open_page) !! 0 =
     Some {| panel_id := "feedback-7"; panel_show := true;
             panel_instance := false |} /\
   "feedback-7" <> substring1 "#feedback-8" /\
   page_uncaught (click_event 1 served_open_page) = [TypeError "null.hide"]) /\
  (page_toggles demo_page !! 2 = Some None /\
   page_panels (click_event 2 demo_page) !! 0 =
     Some {| panel_id := "feedback-7"; panel_show := true;
             panel_instance := true |} /\
   page_uncaught (click_event 2 demo_page) =
     [TypeError "undefined.substring"]).
Proof. repeat split. discriminate. Qed.


(** ** The life of an alert *)

#[local] Instance preserves_preorder I : PreOrder (preserves I).
Proof. split; unfold preserves; [intros p|intros p q r]; auto. Qed.

Lemma filter_keeps_others (n : nat) (a : Node) (cs : list Node) :
  node_id a <> n -> In a cs ->
  In a (List.filter (fun c => negb (Nat.eqb (node_id c) n)) cs).
Proof.
  intros Hne Hin. apply filter_In. split; [assumption|].
  apply negb_true_iff, Nat.eqb_neq. assumption.
Qed.

Lemma existsb_filter_false {A} (f g : A -> bool) (l : list A) :
  existsb f l = false -> existsb f (List.filter g l) = false.
Proof.
  induction l as [|x l IH]; cbn; [reflexivity|].
  intros H. apply orb_false_iff in H. destruct H as [Hx Hl].
  destruct (g x); cbn; [rewrite Hx|]; auto.
Qed.

Lemma existsb_filter_out (n : nat) (cs : list Node) :
  existsb (fun c => Nat.eqb (node_id c) n)
    (List.filter (fun c => negb (Nat.eqb (node_id c) n)) cs) = false.
Proof.
  induction cs as [|c cs IH]; cbn; [reflexivity|].
  destruct (Nat.eqb (node_id c) n) eqn:E; cbn; [assumption|].
  now rewrite E.
Qed.

Section AlertLife.
Variable a : Node.      (* the banner *)
Variable due : nat.     (* when its timer fires *)

Lemma alert_inv_same_alerts p q : same_alerts p q -> alert_inv a due p -> alert_inv a due q.
Proof.
  intros (Hc & Ht & Hn & Hx).
  unfold alert_inv, alive, gone, shown, attached.
  rewrite Hc, Ht, Hn, Hx. auto.
Qed.

Lemma showAlert_alert_inv message type :
  keeps (preserves (alert_inv a due)) (showAlert message type).
Proof.
  intros p (Hx & Ht & Hlife).
  destruct (page_container p) as [children|] eqn:Hc.
  - rewrite (showAlert_container p message type children Hc). cbn [snd].
    split; [cbn; lia|]. split.
    + cbn. intros t Hin Hnode. apply in_app_or in Hin.
      destruct Hin as [Hin|[<-|[]]]; [auto|]. cbn in Hnode. lia.
    + destruct Hlife as [(Hnow & (cs & Hcs & Hin) & Htm)|(Hnow & Hatt)].
      * left. split; [exact Hnow|]. split.
        -- exists (alert p message type :: children). split; [reflexivity|].
           right. congruence.
        -- cbn. apply in_or_app. now left.
      * right. split; [exact Hnow|]. unfold attached in *. cbn.
        rewrite Hc in Hatt. rewrite Hatt.
        replace (Nat.eqb (page_next_node p) (node_id a)) with false;
          [reflexivity|].
        symmetry. apply Nat.eqb_neq. lia.
  - rewrite (showAlert_no_container p message type Hc). cbn [snd].
    split; [cbn; lia|]. split; [exact Ht|exact Hlife].
Qed.

Lemma remove_alert_inv n :
  n <> node_id a -> keeps (preserves (alert_inv a due)) (remove n).
Proof.
  intros Hne p (Hx & Ht & Hlife). unfold remove, modify. cbn [snd].
  destruct (page_container p) as [children|] eqn:Hc;
    [|split; [|split]; assumption].
  split; [exact Hx|]. split; [exact Ht|].
  destruct Hlife as [(Hnow & (cs & Hcs & Hin) & Htm)|(Hnow & Hatt)].
  - left. split; [exact Hnow|]. split; [|exact Htm].
    eexists. split; [reflexivity|].
    apply filter_keeps_others; congruence.
  - right. split; [exact Hnow|]. unfold attached in *. cbn.
    rewrite Hc in Hatt. now apply existsb_filter_false.
Qed.

(** The callback of a timer: a guarded removal, which never throws. *)
Lemma alert_timeout_eq n p :
  alert_timeout n p =
  (Ok tt, if attached n p then snd (remove n p) else p).
Proof.
  unfold alert_timeout. run_m. now destruct (attached n p).
Qed.

Lemma alert_timeout_alert_inv n :
  n <> node_id a -> keeps (preserves (alert_inv a due)) (alert_timeout n).
Proof.
  intros Hne p Hinv. rewrite alert_timeout_eq. cbn [snd].
  destruct (attached n p); [|assumption].
  now apply (remove_alert_inv n Hne p).
Qed.

(** Once the timer of the banner has run, the banner is off the page;
    no timer puts it back. *)
Lemma alert_timeout_detaches p :
  attached (node_id a) (snd (alert_timeout (node_id a) p)) = false.
Proof.
  rewrite alert_timeout_eq. cbn [snd].
  destruct (attached (node_id a) p) eqn:E; [|assumption].
  unfold attached, remove, modify in *. cbn [snd].
  destruct (page_container p) as [cs|]; [|discriminate]. cbn.
  apply existsb_filter_out.
Qed.

Lemma alert_timeout_stays_detached n p :
  attached (node_id a) p = false ->
  attached (node_id a) (snd (alert_timeout n p)) = false.
Proof.
  intros H. rewrite alert_timeout_eq. cbn [snd].
  destruct (attached n p); [|assumption].
  unfold attached, remove, modify in *. cbn [snd].
  destruct (page_container p) as [cs|] eqn:Hc; cbn; [|now rewrite Hc].
  now apply existsb_filter_false.
Qed.

Lemma alert_timeout_schedule n p :
  page_timers (snd (alert_timeout n p)) = page_timers p /\
  page_now (snd (alert_timeout n p)) = page_now p /\
  page_next_node (snd (alert_timeout n p)) = page_next_node p.
Proof.
  rewrite alert_timeout_eq. cbn [snd].
  destruct (attached n p); [|auto].
  unfold remove, modify. cbn [snd].
  destruct (page_container p); auto.
Qed.

Lemma dispatch_alert_timeout n p :
  dispatch (alert_timeout n) p = snd (alert_timeout n p).
Proof. unfold dispatch. now rewrite alert_timeout_eq. Qed.

Lemma fire_all_schedule l : forall q,
  page_timers (fold_left fire l q) = page_timers q /\
  page_now (fold_left fire l q) = page_now q /\
  page_next_node (fold_left fire l q) = page_next_node q.
Proof.
  induction l as [|t l IH]; intros q; cbn [fold_left]; [auto|].
  destruct (IH (fire q t)) as (H1 & H2 & H3).
  unfold fire in *. rewrite dispatch_alert_timeout in *.
  destruct (alert_timeout_schedule (timer_node t) q) as (H4 & H5 & H6).
  repeat split; congruence.
Qed.

Lemma fire_all_others l : forall q,
  (forall t, In t l -> timer_node t <> node_id a) ->
  alert_inv a due q -> alert_inv a due (fold_left fire l q).
Proof.
  induction l as [|t l IH]; intros q Hl Hq; cbn [fold_left]; [assumption|].
  apply IH; [intros t' Hin; apply Hl; now right|].
  unfold fire. rewrite dispatch_alert_timeout.
  apply (alert_timeout_alert_inv (timer_node t)); [|assumption].
  apply Hl. now left.
Qed.

Lemma fire_all_stays_detached l : forall q,
  attached (node_id a) q = false ->
  attached (node_id a) (fold_left fire l q) = false.
Proof.
  induction l as [|t l IH]; intros q Hq; cbn [fold_left]; [assumption|].
  apply IH. unfold fire. rewrite dispatch_alert_timeout.
  now apply alert_timeout_stays_detached.
Qed.

Lemma fire_all_detaches l : forall q,
  (exists t, In t l /\ timer_node t = node_id a) ->
  attached (node_id a) (fold_left fire l q) = false.
Proof.
  induction l as [|t l IH]; intros q (t0 & Hin & Hnode); cbn [fold_left];
    [contradiction|].
  destruct Hin as [->|Hin].
  - apply fire_all_stays_detached. unfold fire.
    rewrite dispatch_alert_timeout, Hnode. apply alert_timeout_detaches.
  - apply IH. eauto.
Qed.

Lemma elapse_event_alert_inv ms p :
  alert_inv a due p -> alert_inv a due (elapse_event ms p).
Proof.
  intros (Hx & Ht & Hlife). unfold elapse_event.
  set (now := page_now p + ms).
  set (p0 := set_now now (set_timers _ p)).
  change (fold_left _ ?l p0) with (fold_left fire l p0).
  assert (Hwait : forall t, In t (page_timers p0) -> In t (page_timers p)).
  { intros t Hin. cbn in Hin. now apply filter_In in Hin. }
  destruct Hlife as [(Hnow & Hshown & Htm)|(Hnow & Hatt)].
  - destruct (Nat.lt_ge_cases now due) as [Hlt|Hge].
    + (* the timer of the banner is not due yet *)
      apply fire_all_others.
      * intros t Hin Hnode. apply filter_In in Hin. destruct Hin as [Hin Hd].
        specialize (Ht t Hin Hnode). unfold is_due in Hd.
        apply Nat.leb_le in Hd. lia.
      * split; [exact Hx|]. split; [intros t Hin; apply Ht; auto|].
        left. split; [exact Hlt|]. split; [exact Hshown|].
        cbn. apply filter_In. split; [exact Htm|].
        unfold is_due. cbn. apply negb_true_iff, Nat.leb_gt. exact Hlt.
    + (* it is due: it fires *)
      destruct (fire_all_schedule
                  (List.filter (is_due now) (page_timers p)) p0)
        as (H1 & H2 & H3).
      split; [rewrite H3; exact Hx|].
      split; [rewrite H1; intros t Hin; apply Ht; auto|].
      right. split; [rewrite H2; exact Hge|].
      apply fire_all_detaches.
      exists {| timer_due := due; timer_node := node_id a |}.
      split; [|reflexivity].
      apply filter_In. split; [exact Htm|].
      unfold is_due. cbn. now apply Nat.leb_le.
  - destruct (fire_all_schedule
                (List.filter (is_due now) (page_timers p)) p0)
      as (H1 & H2 & H3).
    split; [rewrite H3; exact Hx|].
    split; [rewrite H1; intros t Hin; apply Ht; auto|].
    right. split; [rewrite H2; cbn; lia|].
    now apply fire_all_stays_detached.
Qed.
End AlertLife.


(** ** Invariants of the page under events

    An invariant that only looks at banners, timers and clock holds
    along every run if [showAlert], a dismissal and the passing of time
    keep it: nothing else in the script touches them. *)

Section EventInvariant.
Variable I : Page -> Prop.
Variable dismissible : nat -> Prop.

Hypothesis I_same_alerts : forall p q, same_alerts p q -> I p -> I q.
Hypothesis I_showAlert :
  forall message type, keeps (preserves I) (showAlert message type).
Hypothesis I_remove :
  forall n, dismissible n -> keeps (preserves I) (remove n).
Hypothesis I_elapse : forall ms p, I p -> I (elapse_event ms p).

Ltac same_alerts_write :=
  unfold preserves; apply I_same_alerts; repeat split.

Ltac inv_steps :=
  keeps_steps;
  try match goal with
      | |- keeps _ (showAlert _ _) => apply I_showAlert
      | |- preserves _ _ _ => same_alerts_write
      end.

Lemma then_data_inv formElement data :
  keeps (preserves I) (then_data formElement data).
Proof.
  unfold then_data, prop, reset, closest_collapse, Collapse_getInstance_hide.
  inv_steps.
Qed.

Lemma catch_error_inv error : keeps (preserves I) (catch_error error).
Proof. unfold catch_error, console_error. inv_steps. Qed.

Lemma finally_enable_inv formElement :
  keeps (preserves I) (finally_enable formElement).
Proof.
  unfold finally_enable, querySelector_submit, write_submitBtn. inv_steps.
Qed.

Lemma submitFeedback_settled_inv o formElement :
  keeps (preserves I) (submitFeedback_settled o formElement).
Proof.
  unfold submitFeedback_settled, fetch_settled, response_json.
  keeps_steps;
    [ apply then_data_inv | apply catch_error_inv | apply finally_enable_inv ].
Qed.

Lemma dispatch_inv h :
  keeps (preserves I) h -> forall p, I p -> I (dispatch h p).
Proof.
  intros Hh p. apply (keeps_dispatch (preserves I) h Hh).
  intros q e. same_alerts_write.
Qed.

Lemma submit_event_inv form p : I p -> I (submit_event form p).
Proof.
  intros Hp. unfold submit_event.
  destruct (page_forms p !! form) as [f|]; [|assumption].
  apply dispatch_inv.
  - unfold form_submit, querySelector_submit, write_submitBtn. inv_steps.
  - destruct (form_feedback f); [|assumption].
    apply dispatch_inv; [|assumption].
    unfold feedback_form_submit, submitFeedback, fetch. inv_steps.
Qed.

Lemma click_event_inv toggle p : I p -> I (click_event toggle p).
Proof.
  intros Hp. unfold click_event.
  destruct (page_toggles p !! toggle) as [target|]; [|assumption].
  apply dispatch_inv; [|assumption].
  unfold feedback_btn_click, hide_other, Collapse_getInstance_hide.
  inv_steps.
Qed.

Lemma settle_event_inv request o p : I p -> I (settle_event request o p).
Proof.
  intros Hp. unfold settle_event.
  destruct (page_pending p !! request) as [formElement|]; [|assumption].
  apply dispatch_inv; [apply submitFeedback_settled_inv|].
  revert Hp. same_alerts_write.
Qed.

Lemma step_inv ev p :
  (forall n, ev = Dismiss n -> dismissible n) -> I p -> I (step ev p).
Proof.
  intros Hev Hp. destruct ev as [form|toggle|request o|node|ms]; cbn [step].
  - now apply submit_event_inv.
  - now apply click_event_inv.
  - now apply settle_event_inv.
  - apply dispatch_inv; [|assumption]. apply I_remove, Hev. reflexivity.
  - now apply I_elapse.
Qed.

Lemma run_inv evs : forall p,
  (forall n, In (Dismiss n) evs -> dismissible n) -> I p -> I (run evs p).
Proof.
  unfold run. induction evs as [|ev evs IH]; intros p Hev Hp;
    cbn [fold_left]; [assumption|].
  apply IH; [intros n Hin; apply Hev; now right|].
  apply step_inv; [|assumption].
  intros n ->. apply Hev. now left.
Qed.
End EventInvariant.

(** The banner [a], whose timer is due at [due], stays on the page until
    then unless it is dismissed, and is off the page from then on. *)
Lemma run_alert_inv (a : Node) (due : nat) (evs : list Event) (p : Page) :
  ~ In (Dismiss (node_id a)) evs ->
  alert_inv a due p -> alert_inv a due (run evs p).
Proof.
  intros Hev.
  apply (run_inv (alert_inv a due) (fun n => n <> node_id a)).
  - apply alert_inv_same_alerts.
  - apply showAlert_alert_inv.
  - apply remove_alert_inv.
  - apply elapse_event_alert_inv.
  - intros n Hin ->. contradiction.
Qed.

(** C7. [showAlert message type] inserts the new banner as the first
    child of the container of the page.  Unless it is dismissed, the
    banner is on the page at every moment before 5000 ms have passed
    since its creation, whatever else happens on the page, and off the
    page at every moment from then on; and when the timer finds the
    banner already off the page, its callback changes nothing and
    throws nothing.  Time is the clock of the page, which only [Elapse]
    advances. *)
Theorem showAlert_lifecycle (p : Page) (message type : string)
    (children : list Node) :
  page_container p = Some children ->
  timers_fresh p ->
  fst (showAlert message type p) = Ok tt /\
  page_container (snd (showAlert message type p)) =
    Some (alert p message type :: children) /\
  (forall evs,
     ~ In (Dismiss (page_next_node p)) evs ->
     let q := run evs (snd (showAlert message type p)) in
     (page_now q < page_now p + 5000 ->
      exists children', page_container q = Some children' /\
                        In (alert p message type) children') /\
     (page_now p + 5000 <= page_now q ->
      attached (page_next_node p) q = false)) /\
  (forall q, attached (page_next_node p) q = false ->
             alert_timeout (page_next_node p) q = (Ok tt, q)).
Proof.
  intros Hc Hfresh.
  rewrite (showAlert_container p message type children Hc). cbn [fst snd].
  split; [reflexivity|]. split; [reflexivity|]. split.
  - intros evs Hev. set (q := run evs _).
    assert (Hinv : alert_inv (alert p message type) (page_now p + 5000) q).
    { subst q. apply run_alert_inv; [exact Hev|].
      split; [cbn; lia|]. split.
      - cbn. intros t Hin Hnode. apply in_app_or in Hin.
        destruct Hin as [Hin|[<-|[]]]; [|reflexivity].
        apply Hfresh in Hin. lia.
      - left. split; [cbn; lia|]. split.
        + eexists. split; [reflexivity|]. now left.
        + cbn. apply in_or_app. right. now left. }
    destruct Hinv as (_ & _ & [(Hnow & Hshown & _)|(Hnow & Hatt)]).
    + split; [intros _; exact Hshown | intros H; lia].
    + split; [intros H; lia | intros _; exact Hatt].
  - intros q Hq. rewrite alert_timeout_eq, Hq. reflexivity.
Qed.

(** A banner on the page of the example, five seconds later. *)
Lemma showAlert_lifecycle_witness :
  page_container demo_page = Some [] /\
  timers_fresh demo_page /\
  attached (page_next_node demo_page)
    (run [Elapse 5000] (snd (showAlert "Saved" "success" demo_page))) = false.
Proof.
  assert (Hfresh : timers_fresh demo_page) by (intros t []).
  split; [reflexivity|]. split; [exact Hfresh|].
  destruct (showAlert_lifecycle demo_page "Saved" "success" [] eq_refl Hfresh)
    as (_ & _ & Hrun & _).
  destruct (Hrun [Elapse 5000]) as [_ Hgone].
  - intros [H|[]]. discriminate H.
  - apply Hgone. cbn. lia.
Defined.


(** Freshness holds on a page without timers, and along every run. *)
Lemma run_timers_fresh (evs : list Event) (p : Page) :
  timers_fresh p -> timers_fresh (run evs p).
Proof.
  apply (run_inv timers_fresh (fun _ => True)).
  - intros q r (_ & Ht & _ & Hx). unfold timers_fresh. now rewrite Ht, Hx.
  - intros message type q Hq.
    destruct (page_container q) as [children|] eqn:Hc.
    + rewrite (showAlert_container q message type children Hc).
      intros t Hin. cbn in *. apply in_app_or in Hin.
      destruct Hin as [Hin|[<-|[]]]; [apply Hq in Hin|cbn]; lia.
    + rewrite (showAlert_no_container q message type Hc).
      intros t Hin. cbn in *. apply Hq in Hin. lia.
  - intros n _ q Hq. unfold remove, modify. cbn [snd].
    destruct (page_container q); exact Hq.
  - intros ms q Hq. unfold elapse_event.
    match goal with
    | |- timers_fresh (fold_left _ ?l ?q0) =>
        change (timers_fresh (fold_left fire l q0));
        destruct (fire_all_schedule l q0) as (H1 & _ & H3)
    end.
    intros t Hin. rewrite H1 in Hin. rewrite H3. cbn in *.
    apply filter_In in Hin. apply Hq. tauto.
  - auto.
Qed.


(* ===================================================================== *)
(** * The page along its runs *)
(* ===================================================================== *)

(** ** What the timers leave alone *)

Lemma set_container_same p : set_container (page_container p) p = p.
Proof. now destruct p. Qed.

Lemma fire_all_container_only l : forall q,
  exists c, fold_left fire l q = set_container c q.
Proof.
  induction l as [|t l IH]; intros q; cbn [fold_left].
  - exists (page_container q). now rewrite set_container_same.
  - destruct (IH (fire q t)) as [c ->].
    unfold fire. rewrite dispatch_alert_timeout, alert_timeout_eq. cbn [snd].
    destruct (attached _ q); [|eauto].
    unfold remove, modify. cbn [snd].
    destruct (page_container q); eauto.
Qed.

Lemma elapse_event_container_only ms p :
  exists c ts,
    elapse_event ms p =
    set_container c (set_now (page_now p + ms) (set_timers ts p)).
Proof.
  unfold elapse_event.
  match goal with
  | |- context [fold_left _ ?l ?q0] =>
      change (fold_left _ l q0) with (fold_left fire l q0);
      destruct (fire_all_container_only l q0) as [c ->]
  end.
  eauto.
Qed.

(** ** The script only ever closes panels *)

#[local] Instance closed_or_same_preorder : PreOrder closed_or_same.
Proof.
  split.
  - intros pn. repeat split. auto.
  - intros x y z (H1 & H2 & H3) (H4 & H5 & H6). repeat split; try congruence; auto.
Qed.

#[local] Instance only_closes_preorder : PreOrder only_closes.
Proof.
  unfold only_closes. split.
  - intros p. reflexivity.
  - intros p q r Hpq Hqr. etransitivity; eassumption.
Qed.

Lemma only_closes_same p q : page_panels q = page_panels p -> only_closes p q.
Proof. unfold only_closes. intros ->. reflexivity. Qed.

Lemma only_closes_hide k p :
  only_closes p (set_panels (alter (set_show false) k (page_panels p)) p).
Proof.
  unfold only_closes. cbn.
  apply Forall2_same_length_lookup. split; [now rewrite length_alter|].
  intros i x y Hx Hy.
  destruct (decide (k = i)) as [->|Hne].
  - rewrite list_lookup_alter_eq, Hx in Hy. injection Hy as <-.
    repeat split. discriminate.
  - rewrite list_lookup_alter_ne, Hx in Hy by assumption. injection Hy as <-.
    reflexivity.
Qed.

Ltac closes_steps :=
  keeps_steps;
  try match goal with
      | |- only_closes _ (set_panels (alter (set_show false) _ _) _) =>
          apply only_closes_hide
      | |- only_closes _ _ => apply only_closes_same; reflexivity
      end.

Lemma showAlert_only_closes message type :
  keeps only_closes (showAlert message type).
Proof. unfold showAlert, createElement, setTimeout. closes_steps. Qed.

Lemma Collapse_getInstance_hide_only_closes k :
  keeps only_closes (Collapse_getInstance_hide k).
Proof.
  intros p. unfold Collapse_getInstance_hide. run_m.
  destruct (page_panels p !! k) as [pn|]; [|reflexivity].
  destruct (panel_instance pn); cbn; [apply only_closes_hide|reflexivity].
Qed.

Lemma submitFeedback_settled_only_closes o formElement :
  keeps only_closes (submitFeedback_settled o formElement).
Proof.
  unfold submitFeedback_settled, fetch_settled, response_json, then_data,
    catch_error, finally_enable, prop, reset, closest_collapse,
    querySelector_submit, write_submitBtn, console_error.
  closes_steps;
    try apply showAlert_only_closes;
    try apply Collapse_getInstance_hide_only_closes.
Qed.

Lemma remove_panels n p : page_panels (snd (remove n p)) = page_panels p.
Proof. unfold remove, modify. cbn. now destruct (page_container p). Qed.

Lemma only_closes_uncaught p e :
  only_closes p (set_uncaught (page_uncaught p ++ [e]) p).
Proof. now apply only_closes_same. Qed.

Lemma step_only_closes ev p : only_closes p (step ev p).
Proof.
  destruct ev as [form|toggle|request o|node|ms]; cbn [step].
  - unfold submit_event.
    destruct (page_forms p !! form) as [f|]; [|reflexivity].
    etransitivity; [|apply (keeps_dispatch only_closes)].
    + destruct (form_feedback f); [|reflexivity].
      apply (keeps_dispatch only_closes); [|apply only_closes_uncaught].
      unfold feedback_form_submit, submitFeedback, fetch. closes_steps.
    + unfold form_submit, querySelector_submit, write_submitBtn. closes_steps.
    + apply only_closes_uncaught.
  - unfold click_event.
    destruct (page_toggles p !! toggle) as [target|]; [|reflexivity].
    apply (keeps_dispatch only_closes); [|apply only_closes_uncaught].
    unfold feedback_btn_click, hide_other.
    closes_steps; apply Collapse_getInstance_hide_only_closes.
  - unfold settle_event.
    destruct (page_pending p !! request) as [formElement|]; [|reflexivity].
    etransitivity; [|apply (keeps_dispatch only_closes)].
    + now apply only_closes_same.
    + apply submitFeedback_settled_only_closes.
    + apply only_closes_uncaught.
  - apply (keeps_dispatch only_closes); [|apply only_closes_uncaught].
    intros q. apply only_closes_same, remove_panels.
  - destruct (elapse_event_container_only ms p) as (c & ts & ->).
    now apply only_closes_same.
Qed.

(** X4. Whatever happens on the page, the script never opens a panel
    and never changes the identifier or the Collapse instance of one:
    the panels after a run of events are the panels before, some of them
    closed. *)
Theorem run_only_closes (evs : list Event) (p : Page) :
  only_closes p (run evs p).
Proof.
  revert p. unfold run.
  induction evs as [|ev evs IH]; intros p; cbn [fold_left]; [reflexivity|].
  etransitivity; [apply step_only_closes|apply IH].
Qed.


(** ** A click *)

#[local] Instance same_but_panels_preorder : PreOrder same_but_panels.
Proof.
  split; [intros p; repeat split|].
  intros p q r H1 H2. unfold same_but_panels in *.
  destruct H1 as (?&?&?&?&?&?&?&?&?), H2 as (?&?&?&?&?&?&?&?&?).
  repeat split; congruence.
Qed.

(** X5. A click on a toggle changes nothing but panels: the forms, the
    toggles, the container, the timers, the requests, the console and
    the clock are as before, also when the handler throws half-way. *)
Theorem click_event_same_but_panels (toggle : nat) (p : Page) :
  same_but_panels p (click_event toggle p).
Proof.
  unfold click_event.
  destruct (page_toggles p !! toggle) as [target|]; [|reflexivity].
  apply (keeps_dispatch same_but_panels); [|intros q e; repeat split].
  unfold feedback_btn_click, hide_other, Collapse_getInstance_hide.
  keeps_steps; repeat split.
Qed.

(** The loop of the click handler, when it comes to its end. *)
Lemma forEach_hide_other_Ok t (l : list (nat * Panel)) : forall p q,
  forEach l (hide_other (Some t)) p = (Ok tt, q) ->
  q = set_panels (fold_left (hide_step (substring1 t)) l (page_panels p)) p.
Proof.
  induction l as [|[k pn] l IH]; intros p q H; cbn [forEach fold_left] in *.
  - injection H as <-. now destruct p.
  - unfold bind at 1 in H. unfold hide_other at 1 in H.
    unfold bind at 1 in H. cbn [ret snd fst] in H.
    unfold hide_step at 2. cbn [snd fst].
    destruct (negb (String.eqb (panel_id pn) (substring1 t))); [|auto].
    unfold Collapse_getInstance_hide in H. unfold bind at 1 in H. cbn [get] in H.
    destruct (page_panels p !! k) as [pk|] eqn:Ek.
    + destruct (panel_instance pk); [|discriminate H].
      cbn [modify] in H. apply IH in H. exact H.
    + cbn [ret] in H. rewrite alter_lookup_None by assumption. auto.
Qed.

(** The loop over panels that all carry the identifier of the target. *)
Lemma forEach_hide_other_same target (l : list (nat * Panel)) p :
  (forall kp, In kp l ->
     exists t, target = Some t /\ panel_id (snd kp) = substring1 t) ->
  forEach l (hide_other target) p = (Ok tt, p).
Proof.
  induction l as [|kp l IH]; intros Hl; cbn [forEach]; [reflexivity|].
  destruct (Hl kp (or_introl eq_refl)) as (t & -> & Hid).
  unfold bind at 1. unfold hide_other at 1. unfold bind at 1. cbn [ret].
  rewrite Hid, String.eqb_refl. cbn [negb ret].
  apply IH. intros kp' Hin. apply Hl. now right.
Qed.

(** X6. When every open panel carries the identifier the toggle
    names, the click handler changes nothing and throws nothing; with no
    panel open at all this holds for any toggle, one without
    [data-bs-target] included, as the loop then never reads the
    target. *)
Theorem feedback_btn_click_nothing_open (target : option string) (p : Page) :
  (forall k pn, page_panels p !! k = Some pn -> panel_show pn = true ->
                exists t, target = Some t /\ panel_id pn = substring1 t) ->
  feedback_btn_click target p = (Ok tt, p).
Proof.
  intros H. unfold feedback_btn_click. unfold bind at 1. cbn [get].
  apply forEach_hide_other_same.
  intros [k pn] Hin. apply in_querySelectorAll_collapse_show in Hin.
  destruct Hin as [Hk Hs]. eauto.
Qed.

Lemma feedback_btn_click_nothing_open_witness :
  (forall k pn, page_panels demo_page !! k = Some pn -> panel_show pn = true ->
                exists t, Some "#feedback-7" = Some t /\
                          panel_id pn = substring1 t) /\
  feedback_btn_click (Some "#feedback-7") demo_page = (Ok tt, demo_page).
Proof.
  assert (H : forall k pn, page_panels demo_page !! k = Some pn ->
                panel_show pn = true ->
                exists t, Some "#feedback-7" = Some t /\
                          panel_id pn = substring1 t).
  { intros [|[|k]] pn Hk Hs; cbn in Hk; try discriminate;
      injection Hk as <-; [|discriminate].
    exists "#feedback-7". split; reflexivity. }
  split; [exact H|].
  exact (feedback_btn_click_nothing_open (Some "#feedback-7") demo_page H).
Defined.

(** X7. The click handler is idempotent: after a click that came to
    its end, a second click on the same toggle changes nothing. *)
Theorem feedback_btn_click_twice (t : string) (p q : Page) :
  feedback_btn_click (Some t) p = (Ok tt, q) ->
  feedback_btn_click (Some t) q = (Ok tt, q).
Proof.
  intros H. unfold feedback_btn_click in H. unfold bind at 1 in H.
  cbn [get] in H. apply forEach_hide_other_Ok in H.
  unfold feedback_btn_click. unfold bind at 1. cbn [get].
  apply forEach_hide_other_same.
  intros [k pn'] Hin. apply in_querySelectorAll_collapse_show in Hin.
  destruct Hin as [Hk Hs]. cbn [snd].
  exists t. split; [reflexivity|].
  subst q. cbn [page_panels set_panels] in Hk.
  destruct (fold_hide_step_origin _ _ _ _ _ Hk) as (pn & Hpn & [->| ->]);
    [|discriminate].
  destruct (String.eqb_spec (panel_id pn) (substring1 t)) as [|Hne];
    [assumption|].
  assert (Hin : In (k, pn) (querySelectorAll_collapse_show p))
    by now apply in_querySelectorAll_collapse_show.
  rewrite (fold_hide_step_closed _ _ _ _ _ _ Hin Hne Hk) in Hs. discriminate.
Qed.

Lemma feedback_btn_click_twice_witness :
  let q := snd (feedback_btn_click (Some "#feedback-8") demo_page) in
  feedback_btn_click (Some "#feedback-8") demo_page = (Ok tt, q) /\
  feedback_btn_click (Some "#feedback-8") q = (Ok tt, q).
Proof.
  split; [reflexivity|].
  apply (feedback_btn_click_twice "#feedback-8" demo_page). reflexivity.
Defined.

(** ** What becomes of the forms *)

Lemma reset_field_twice fd : reset_field (reset_field fd) = reset_field fd.
Proof.
  destruct fd as [name disabled [value default|value checked default]];
    reflexivity.
Qed.

#[local] Instance reset_or_same_preorder : PreOrder reset_or_same.
Proof.
  split; [intros fd; now left|].
  intros x y z [->| ->] [->| ->]; unfold reset_or_same;
    rewrite ?reset_field_twice; auto.
Qed.

#[local] Instance relabelled_preorder : PreOrder relabelled.
Proof.
  split; [intros b; split; auto|].
  intros x y z [H1 H2] [H3 H4]. split; [congruence|].
  intros Hs. rewrite H4, H2; auto.
  unfold is_submit in *. now rewrite H1.
Qed.

#[local] Instance form_evolves_preorder : PreOrder form_evolves.
Proof.
  split.
  - intros f. repeat split; reflexivity.
  - intros x y z (A1 & A2 & A3 & A4 & A5 & A6 & A7)
      (B1 & B2 & B3 & B4 & B5 & B6 & B7).
    repeat split; try congruence; etransitivity; eassumption.
Qed.

#[local] Instance forms_evolve_preorder : PreOrder forms_evolve.
Proof.
  unfold forms_evolve. split.
  - intros p. reflexivity.
  - intros p q r Hpq Hqr. etransitivity; eassumption.
Qed.

Lemma Forall2_alter_r {A} (R : relation A) `{!Reflexive R} (g : A -> A)
    (i : nat) (l : list A) :
  (forall x, R x (g x)) -> Forall2 R l (alter g i l).
Proof.
  intros Hg. revert i. induction l as [|x l IH]; intros [|i]; cbn;
    constructor; auto; reflexivity.
Qed.

Lemma update_first_relabelled g (l : list Button) :
  (forall b, btn_type (g b) = btn_type b) ->
  Forall2 relabelled l (update_first is_submit g l).
Proof.
  intros Hg. induction l as [|b l IH]; cbn; [constructor|].
  destruct (is_submit b) eqn:E.
  - constructor; [|reflexivity]. split; [apply Hg|congruence].
  - constructor; [reflexivity|exact IH].
Qed.

Lemma map_reset_field fs : Forall2 reset_or_same fs (map reset_field fs).
Proof. induction fs; cbn; constructor; auto. now right. Qed.

Lemma forms_evolve_same p q :
  page_forms q = page_forms p -> forms_evolve p q.
Proof. unfold forms_evolve. intros ->. reflexivity. Qed.

Lemma write_submitBtn_forms_evolve i g :
  (forall b, btn_type (g b) = btn_type b) ->
  keeps forms_evolve (write_submitBtn i g).
Proof.
  intros Hg p. unfold write_submitBtn, modify, forms_evolve. cbn.
  apply Forall2_alter_r; [apply _|].
  intros f. repeat split; try reflexivity. cbn.
  now apply update_first_relabelled.
Qed.

Lemma reset_forms_evolve i : keeps forms_evolve (reset i).
Proof.
  unfold reset. keeps_steps. unfold forms_evolve. cbn.
  apply Forall2_alter_r; [apply _|].
  intros f. repeat split; try reflexivity. cbn. apply map_reset_field.
Qed.

(** Along such a change a form answers to the same names. *)
Lemma form_evolves_named f f' key :
  form_evolves f f' -> named f' key = named f key.
Proof.
  intros (_ & _ & _ & _ & Hn & Hfs & _). unfold named. rewrite Hn. f_equal.
  induction Hfs as [|fd fd' fs fs' [->| ->] _ IH]; cbn; congruence.
Qed.

Lemma forms_evolve_named p q key :
  forms_evolve p q ->
  (forall i f, page_forms p !! i = Some f -> named f key = false) ->
  (forall i f, page_forms q !! i = Some f -> named f key = false).
Proof.
  intros He Hp i f' Hf'.
  destruct (Forall2_lookup_r _ _ _ _ _ He Hf') as (f & Hf & Hff).
  rewrite (form_evolves_named f f' key Hff). eauto.
Qed.

Ltac evolve_steps :=
  keeps_steps;
  try match goal with
      | |- keeps _ (write_submitBtn _ _) =>
          apply write_submitBtn_forms_evolve; reflexivity
      | |- keeps _ (reset _) => apply reset_forms_evolve
      | |- forms_evolve _ _ => apply forms_evolve_same; reflexivity
      end.

Lemma showAlert_forms_evolve message type :
  keeps forms_evolve (showAlert message type).
Proof. unfold showAlert, createElement, setTimeout. evolve_steps. Qed.

Lemma submitFeedback_settled_forms_evolve o i :
  keeps forms_evolve (submitFeedback_settled o i).
Proof.
  unfold submitFeedback_settled, fetch_settled, response_json, then_data,
    catch_error, finally_enable, prop, closest_collapse,
    Collapse_getInstance_hide, querySelector_submit, console_error.
  evolve_steps; apply showAlert_forms_evolve.
Qed.

Lemma step_forms_evolve ev p : forms_evolve p (step ev p).
Proof.
  assert (Hu : forall q e,
            forms_evolve q (set_uncaught (page_uncaught q ++ [e]) q))
    by (intros q e; now apply forms_evolve_same).
  destruct ev as [form|toggle|request o|node|ms]; cbn [step].
  - unfold submit_event.
    destruct (page_forms p !! form) as [f|]; [|reflexivity].
    etransitivity; [|apply (keeps_dispatch forms_evolve); [|exact Hu]].
    + destruct (form_feedback f); [|reflexivity].
      apply (keeps_dispatch forms_evolve); [|exact Hu].
      unfold feedback_form_submit, submitFeedback, fetch. evolve_steps.
    + unfold form_submit, querySelector_submit. evolve_steps.
  - unfold click_event.
    destruct (page_toggles p !! toggle) as [target|]; [|reflexivity].
    apply (keeps_dispatch forms_evolve); [|exact Hu].
    unfold feedback_btn_click, hide_other, Collapse_getInstance_hide.
    evolve_steps.
  - unfold settle_event.
    destruct (page_pending p !! request) as [formElement|]; [|reflexivity].
    etransitivity; [|apply (keeps_dispatch forms_evolve); [|exact Hu]].
    + now apply forms_evolve_same.
    + apply submitFeedback_settled_forms_evolve.
  - apply (keeps_dispatch forms_evolve); [|exact Hu].
    intros q. apply forms_evolve_same.
    unfold remove, modify. cbn. now destruct (page_container q).
  - destruct (elapse_event_container_only ms p) as (c & ts & ->).
    now apply forms_evolve_same.
Qed.

(** X19. What the script does to forms, along every run of events: no
    form is added or removed; the class, the data attributes and the
    panel of a form stay; a field is as it was or reset to its default;
    a button keeps its type, and a button that is not a submit button is
    not touched. *)
Theorem run_forms_evolve (evs : list Event) (p : Page) :
  forms_evolve p (run evs p).
Proof.
  revert p. unfold run.
  induction evs as [|ev evs IH]; intros p; cbn [fold_left]; [reflexivity|].
  etransitivity; [apply step_forms_evolve|apply IH].
Qed.


(** ** With a container, a feedback request ends fulfilled *)

Lemma showAlert_has_container message type :
  keeps (preserves has_container) (showAlert message type).
Proof.
  unfold showAlert, createElement, setTimeout.
  keeps_steps; unfold preserves, has_container; cbn; congruence.
Qed.

Lemma then_data_has_container formElement data :
  keeps (preserves has_container) (then_data formElement data).
Proof.
  unfold then_data, prop, reset, closest_collapse, Collapse_getInstance_hide.
  keeps_steps; try apply showAlert_has_container;
    unfold preserves, has_container; cbn; congruence.
Qed.

Lemma finally_enable_Ok i p :
  (forall f, page_forms p !! i = Some f -> named f "querySelector" = false) ->
  fst (finally_enable i p) = Ok tt.
Proof.
  intros Hn. rewrite finally_enable_eq.
  destruct (page_forms p !! i) as [f|]; [|reflexivity].
  rewrite (Hn f eq_refl). now destruct (submit_button f).
Qed.

Lemma form_submit_Ok i p :
  (forall f, page_forms p !! i = Some f -> named f "querySelector" = false) ->
  fst (form_submit i p) = Ok tt.
Proof.
  intros Hn. rewrite form_submit_eq.
  destruct (page_forms p !! i) as [f|]; [|reflexivity].
  rewrite (Hn f eq_refl). now destruct (submit_button f).
Qed.

Lemma feedback_form_submit_Ok i p : fst (feedback_form_submit i p) = Ok tt.
Proof.
  destruct (page_forms p !! i) as [f|] eqn:Hf.
  - now rewrite (feedback_form_submit_eq i p f Hf).
  - unfold feedback_form_submit. run_m. now rewrite Hf.
Qed.

(** The chain before [finally]: fulfilled on a page with a container. *)
Lemma submitFeedback_chain_Ok o formElement p :
  has_container p ->
  fst (catch_ (then_ (then_ (fetch_settled o) response_json)
                     (then_data formElement)) catch_error p) = Ok tt.
Proof.
  intros Hc. unfold catch_.
  set (chain := then_ _ _).
  assert (Hk : keeps (preserves has_container) chain).
  { subst chain. unfold then_, fetch_settled, response_json.
    keeps_steps; apply then_data_has_container. }
  specialize (Hk p Hc).
  destruct (chain p) as [[[]|e] p1]; [reflexivity|]. cbn [snd] in Hk.
  destruct (page_container p1) as [children|] eqn:Hc1;
    [|now unfold has_container in Hk].
  destruct (catch_error_container e p1 children Hc1) as (q & -> & _).
  reflexivity.
Qed.

(** The form the [finally] handler meets answers to the names it had. *)
Lemma submitFeedback_chain_named o formElement p key :
  (forall f, page_forms p !! formElement = Some f -> named f key = false) ->
  forall f1,
    page_forms
      (snd (catch_ (then_ (then_ (fetch_settled o) response_json)
                          (then_data formElement)) catch_error p))
      !! formElement = Some f1 ->
    named f1 key = false.
Proof.
  intros Hn f1 Hf1.
  pose proof (submitFeedback_chain_same_named o formElement formElement p key)
    as Hk.
  rewrite Hf1 in Hk.
  destruct (page_forms p !! formElement) as [f|]; [|discriminate].
  injection Hk as ->. now apply Hn.
Qed.

Lemma submitFeedback_settled_Ok o formElement p :
  has_container p ->
  (forall f, page_forms p !! formElement = Some f ->
             named f "querySelector" = false) ->
  fst (submitFeedback_settled o formElement p) = Ok tt.
Proof.
  intros Hc Hn. unfold submitFeedback_settled, finally_.
  pose proof (submitFeedback_chain_Ok o formElement p Hc) as H.
  pose proof (submitFeedback_chain_named o formElement p _ Hn) as Hn1.
  destruct (catch_ _ _ p) as [r p1]. cbn [fst snd] in *. subst r.
  pose proof (finally_enable_Ok formElement p1 Hn1) as H.
  destruct (finally_enable formElement p1) as [[[]|e] p2];
    [reflexivity|discriminate].
Qed.

(** X8. The promise chain of [submitFeedback] ends fulfilled exactly
    on a page that has a container and for a form none of whose
    controls goes by the name or the id [querySelector], whatever the
    outcome of the request and the panels: with a container the [catch]
    handler absorbs every error of the [then] handlers, without one its
    own [showAlert] throws; and nothing absorbs an error of the
    [finally] handler. *)
Theorem submitFeedback_settled_fulfilled (o : FetchOutcome)
    (formElement : nat) (p : Page) (f : Form) :
  page_forms p !! formElement = Some f ->
  fst (submitFeedback_settled o formElement p) = Ok tt <->
  has_container p /\ named f "querySelector" = false.
Proof.
  intros Hf. split.
  - intros H. split.
    + intros Hc. revert H. unfold submitFeedback_settled, finally_.
      destruct (submitFeedback_chain_no_container o formElement p Hc)
        as (q & -> & _).
      destruct (finally_enable formElement q) as [[u|e] q']; discriminate.
    + destruct (named f "querySelector") eqn:Hn; [|reflexivity].
      exfalso. revert H. unfold submitFeedback_settled, finally_.
      destruct (submitFeedback_chain_form o formElement p f Hf)
        as (f1 & Hf1 & _ & Hk).
      destruct (catch_ _ _ p) as [r p1]. cbn [snd] in Hf1.
      rewrite finally_enable_eq, Hf1, Hk, Hn. discriminate.
  - intros [Hc Hn]. apply submitFeedback_settled_Ok; [exact Hc|].
    intros f0 Hf0. congruence.
Qed.

(** The page served with the panel open: the chain ends fulfilled, the
    missing Collapse instance notwithstanding. *)
Lemma submitFeedback_settled_fulfilled_witness :
  page_forms served_open_page !! 0 = Some rating_form /\
  fst (submitFeedback_settled (Response (Some success_body)) 0
         served_open_page) = Ok tt.
Proof.
  split; [reflexivity|].
  apply (submitFeedback_settled_fulfilled (Response (Some success_body)) 0
           served_open_page rating_form eq_refl).
  split; [discriminate|reflexivity].
Defined.


(** ** Errors no handler caught *)

#[local] Instance same_uncaught_preorder : PreOrder same_uncaught.
Proof.
  split; [intros p; reflexivity|].
  intros p q r. unfold same_uncaught. congruence.
Qed.

Lemma showAlert_same_uncaught message type :
  keeps same_uncaught (showAlert message type).
Proof.
  unfold showAlert, createElement, setTimeout.
  keeps_steps; reflexivity.
Qed.

Lemma submitFeedback_settled_same_uncaught o formElement :
  keeps same_uncaught (submitFeedback_settled o formElement).
Proof.
  unfold submitFeedback_settled, fetch_settled, response_json, then_data,
    catch_error, finally_enable, prop, reset, closest_collapse,
    Collapse_getInstance_hide, querySelector_submit, write_submitBtn,
    console_error.
  keeps_steps; try apply showAlert_same_uncaught; reflexivity.
Qed.

Lemma dispatch_Ok h p : fst (h p) = Ok tt -> dispatch h p = snd (h p).
Proof.
  unfold dispatch. destruct (h p) as [[u|e] q]; [reflexivity|discriminate].
Qed.

Lemma remove_same_uncaught n p :
  page_uncaught (snd (remove n p)) = page_uncaught p.
Proof. unfold remove, modify. cbn. now destruct (page_container p). Qed.

Lemma remove_has_container n p :
  has_container p -> has_container (snd (remove n p)).
Proof.
  unfold remove, modify, has_container. cbn.
  destruct (page_container p); cbn; congruence.
Qed.

Lemma fire_all_has_container l : forall q,
  has_container q -> has_container (fold_left fire l q).
Proof.
  induction l as [|t l IH]; intros q Hq; cbn [fold_left]; [exact Hq|].
  apply IH. unfold fire. rewrite dispatch_alert_timeout, alert_timeout_eq.
  cbn [snd]. destruct (attached _ q); [now apply remove_has_container|exact Hq].
Qed.

Lemma elapse_event_has_container ms p :
  has_container p -> has_container (elapse_event ms p).
Proof. intros Hp. unfold elapse_event. now apply fire_all_has_container. Qed.

(** The container stays along every run. *)
Lemma run_has_container (evs : list Event) (p : Page) :
  has_container p -> has_container (run evs p).
Proof.
  apply (run_inv has_container (fun _ => True)).
  - intros q r (Hc & _). unfold has_container. now rewrite Hc.
  - apply showAlert_has_container.
  - intros n _ q Hq. now apply remove_has_container.
  - apply elapse_event_has_container.
  - auto.
Qed.

Lemma step_same_uncaught ev p :
  has_container p ->
  (forall i f, page_forms p !! i = Some f -> named f "querySelector" = false) ->
  (forall k, ev <> Click k) ->
  page_uncaught (step ev p) = page_uncaught p.
Proof.
  intros Hc Hn Hev. destruct ev as [form|toggle|request o|node|ms]; cbn [step].
  - unfold submit_event.
    destruct (page_forms p !! form) as [f|] eqn:Hf; [|reflexivity].
    destruct (feedback_form_submit_frame form p f Hf) as (H1f & _ & _ & _ & H1u).
    set (p1 := if form_feedback f then _ else p) in *.
    rewrite dispatch_Ok
      by (apply form_submit_Ok; rewrite H1f; intros f0; apply Hn).
    rewrite <- H1u, form_submit_eq, H1f, Hf, (Hn form f Hf).
    now destruct (submit_button f).
  - now destruct (Hev toggle).
  - unfold settle_event.
    destruct (page_pending p !! request) as [formElement|]; [|reflexivity].
    rewrite dispatch_Ok
      by (apply submitFeedback_settled_Ok; [exact Hc|intros f0; apply Hn]).
    apply (submitFeedback_settled_same_uncaught o formElement
             (set_pending (delete request (page_pending p)) p)).
  - rewrite dispatch_Ok by reflexivity. apply remove_same_uncaught.
  - now destruct (elapse_event_container_only ms p) as (c & ts & ->).
Qed.

(** X9. On a page with a container, none of whose forms has a control
    that goes by the name or the id [querySelector], no run of
    submissions, ended requests, dismissals and passing time leaves an
    unhandled error, whatever the responses and the panels. *)
Theorem run_same_uncaught (evs : list Event) (p : Page) :
  has_container p ->
  (forall i f, page_forms p !! i = Some f -> named f "querySelector" = false) ->
  (forall k, ~ In (Click k) evs) ->
  page_uncaught (run evs p) = page_uncaught p.
Proof.
  revert p. induction evs as [|ev evs IH]; intros p Hc Hn Hev; [reflexivity|].
  change (run (ev :: evs) p) with (run evs (step ev p)).
  rewrite IH.
  - apply step_same_uncaught; [exact Hc|exact Hn|].
    intros k ->. apply (Hev k). now left.
  - apply (run_has_container [ev] p Hc).
  - apply (forms_evolve_named p); [apply step_forms_evolve|exact Hn].
  - intros k Hin. apply (Hev k). now right.
Qed.

Lemma run_same_uncaught_witness :
  has_container served_open_page /\
  (forall i f, page_forms served_open_page !! i = Some f ->
               named f "querySelector" = false) /\
  (forall k, ~ In (Click k)
                  [Submit 0; Settle 0 (Response (Some success_body));
                   Elapse 5000]) /\
  page_uncaught
    (run [Submit 0; Settle 0 (Response (Some success_body)); Elapse 5000]
         served_open_page) = page_uncaught served_open_page.
Proof.
  assert (H : has_container served_open_page) by discriminate.
  assert (Hn : forall i f, page_forms served_open_page !! i = Some f ->
                 named f "querySelector" = false).
  { intros [|i] f Hf; [|discriminate]. injection Hf as <-. reflexivity. }
  assert (H' : forall k, ~ In (Click k)
                 [Submit 0; Settle 0 (Response (Some success_body));
                  Elapse 5000]).
  { intros k [E|[E|[E|[]]]]; discriminate E. }
  split; [exact H|]. split; [exact Hn|]. split; [exact H'|].
  exact (run_same_uncaught _ served_open_page H Hn H').
Defined.


(** ** What [submitFeedback] logs *)

#[local] Instance same_console_preorder : PreOrder same_console.
Proof.
  split; [intros p; reflexivity|].
  intros p q r. unfold same_console. congruence.
Qed.

Lemma showAlert_same_console message type :
  keeps same_console (showAlert message type).
Proof.
  unfold showAlert, createElement, setTimeout.
  keeps_steps; reflexivity.
Qed.

Lemma then_data_same_console formElement data :
  keeps same_console (then_data formElement data).
Proof.
  unfold then_data, prop, reset, closest_collapse, Collapse_getInstance_hide.
  keeps_steps; try apply showAlert_same_console; reflexivity.
Qed.

Lemma finally_enable_same_console formElement :
  keeps same_console (finally_enable formElement).
Proof.
  unfold finally_enable, querySelector_submit, write_submitBtn.
  keeps_steps; reflexivity.
Qed.

(** The [catch] handler logs one line, whether its banner can be shown
    or not. *)
Lemma catch_error_console error p :
  page_console (snd (catch_error error p)) = (page_console p ++ ["Error:"])%list.
Proof.
  unfold catch_error, console_error. unfold bind at 1. cbn [modify].
  apply (showAlert_same_console _ _ (set_console _ p)).
Qed.

(** The log after the chain: one line if the [then] handlers threw, none
    otherwise. *)
Lemma submitFeedback_settled_console o formElement p :
  page_console (snd (submitFeedback_settled o formElement p)) =
  (page_console p ++
   match fst (then_ (then_ (fetch_settled o) response_json)
                    (then_data formElement) p) with
   | Ok _ => []
   | Throw _ => ["Error:"]
   end)%list.
Proof.
  unfold submitFeedback_settled, finally_, catch_.
  set (chain := then_ _ _).
  assert (Hk : keeps same_console chain).
  { subst chain. unfold then_, fetch_settled, response_json.
    keeps_steps; apply then_data_same_console. }
  specialize (Hk p). unfold same_console in Hk.
  destruct (chain p) as [[u|e] p1]; cbn [fst snd] in *.
  - pose proof (finally_enable_same_console formElement p1) as Hf.
    unfold same_console in Hf.
    destruct (finally_enable formElement p1) as [[]?]; cbn [snd] in *;
      rewrite Hf, Hk; now rewrite app_nil_r.
  - pose proof (catch_error_console e p1) as Hc.
    destruct (catch_error e p1) as [r p2]. cbn [snd] in Hc.
    pose proof (finally_enable_same_console formElement p2) as Hf.
    unfold same_console in Hf.
    destruct (finally_enable formElement p2) as [[]?]; cbn [snd] in *;
      rewrite Hf, Hc; now rewrite Hk.
Qed.

(** X10. On a page with a container, for a form with a Collapse
    instance on its panel, if it has one, and without a control that goes
    by the name or the id [reset] or [closest], [submitFeedback] logs
    one line with [console.error] exactly when the request was rejected,
    its body did not decode, it decoded to null, or it decoded to a
    response other than a success whose [error] has no text (an object
    with an own property [toString], or an array that holds one); any
    other decoded response is not logged, whatever its status. *)
Theorem submitFeedback_logs_transport_errors (o : FetchOutcome)
    (formElement : nat) (p : Page) (f : Form) :
  page_forms p !! formElement = Some f ->
  has_container p ->
  (forall k pn, form_collapse f = Some k -> page_panels p !! k = Some pn ->
                panel_instance pn = true) ->
  named f "reset" = false -> named f "closest" = false ->
  page_console (snd (submitFeedback_settled o formElement p)) =
  (page_console p ++
   match o with
   | Response (Some JNull) | Response None | Rejected => ["Error:"]
   | Response (Some data) =>
       if is_success (property data "status") then []
       else
         match to_string (property data "error") with
         | Some _ => []
         | None => ["Error:"]
         end
   end)%list.
Proof.
  intros Hf Hc Hi Hr Hcl. rewrite submitFeedback_settled_console. f_equal.
  destruct (page_container p) as [children|] eqn:Hcs;
    [|now unfold has_container in Hc].
  destruct o as [|[data|]]; [reflexivity| |reflexivity].
  unfold then_, bind. cbn [fetch_settled response_json ret].
  assert (Hd : data = JNull \/ data <> JNull)
    by (destruct data; auto; right; discriminate).
  destruct Hd as [->|Hn]; [reflexivity|].
  assert (Hm : forall l1 l2 : list string,
            match data with JNull => l1 | _ => l2 end = l2)
    by (intros l1 l2; destruct data; congruence).
  rewrite Hm.
  destruct (is_success (property data "status")) eqn:Es.
  - now destruct (then_data_success formElement data p f children Es Hf Hcs Hi
                    Hr Hcl) as (q & -> & _).
  - destruct (to_string (property data "error")) as [text|] eqn:Et.
    + now destruct (then_data_failure formElement data p children text
                      Hn Es Et Hcs) as (q & -> & _).
    + now rewrite (then_data_no_text formElement data p Hn Es Et).
Qed.

(** An application error with a text, one whose [error] is an object
    with an own [toString], and a request that failed. *)
Lemma submitFeedback_logs_transport_errors_witness :
  page_forms demo_page !! 0 = Some rating_form /\
  has_container demo_page /\
  named rating_form "reset" = false /\ named rating_form "closest" = false /\
  page_console
    (snd (submitFeedback_settled
            (Response (Some (JObj [("status", JStr "no");
                                   ("error", JStr "closed")])))
            0 demo_page)) = [] /\
  page_console
    (snd (submitFeedback_settled
            (Response (Some (JObj [("status", JStr "no");
                                   ("error", JObj [("toString", JNum "0")])])))
            0 demo_page)) = ["Error:"] /\
  page_console (snd (submitFeedback_settled Rejected 0 demo_page)) = ["Error:"].
Proof.
  assert (Hc : has_container demo_page) by discriminate.
  assert (Hi : forall k pn, form_collapse rating_form = Some k ->
                 page_panels demo_page !! k = Some pn ->
                 panel_instance pn = true).
  { intros k pn Hk Hpn. injection Hk as <-. injection Hpn as <-. reflexivity. }
  split; [reflexivity|]. split; [exact Hc|].
  split; [reflexivity|]. split; [reflexivity|].
  split; [|split].
  - exact (submitFeedback_logs_transport_errors _ 0 demo_page
             rating_form eq_refl Hc Hi eq_refl eq_refl).
  - exact (submitFeedback_logs_transport_errors
             (Response (Some (JObj [("status", JStr "no");
                                    ("error", JObj [("toString", JNum "0")])])))
             0 demo_page rating_form eq_refl Hc Hi eq_refl eq_refl).
  - exact (submitFeedback_logs_transport_errors Rejected 0 demo_page
             rating_form eq_refl Hc Hi eq_refl eq_refl).
Defined.

(** X11. On a page without a container [submitFeedback] logs one error
    line for every outcome, a success response included: the banner of
    the [then] handler cannot be shown, and the [catch] handler runs. *)
Theorem submitFeedback_logs_without_container (o : FetchOutcome)
    (formElement : nat) (p : Page) :
  page_container p = None ->
  page_console (snd (submitFeedback_settled o formElement p)) =
  (page_console p ++ ["Error:"])%list.
Proof.
  intros Hc. rewrite submitFeedback_settled_console. f_equal.
  destruct o as [|[data|]]; [reflexivity| |reflexivity].
  unfold then_, bind. cbn [fetch_settled response_json ret].
  now destruct (then_data_no_container formElement data p Hc)
    as (e & q & -> & _).
Qed.

Lemma submitFeedback_logs_without_container_witness :
  page_container no_container_page = None /\
  page_console
    (snd (submitFeedback_settled (Response (Some success_body)) 0
            no_container_page)) = ["Error:"].
Proof.
  split; [reflexivity|].
  exact (submitFeedback_logs_without_container (Response (Some success_body)) 0
           no_container_page eq_refl).
Defined.


(** ** A success response for a panel without a Collapse instance *)

(** X12. A success response for a form whose panel has no Collapse
    instance, on a page with a container and for a form without a
    control that goes by the name or the id [reset], [closest] or
    [querySelector]: the success banner is shown and every field of the
    form is put at its default, then [hide] throws on null and the
    [catch] handler runs, so that the error banner is shown above the
    success banner, one line is logged, the panels stay as they were,
    and the promise still ends fulfilled. *)
Theorem submitFeedback_success_without_instance (p : Page) (data : Json)
    (formElement : nat) (f : Form) (children : list Node) (k : nat)
    (pn : Panel) :
  is_success (property data "status") = true ->
  page_forms p !! formElement = Some f ->
  page_container p = Some children ->
  form_collapse f = Some k ->
  page_panels p !! k = Some pn ->
  panel_instance pn = false ->
  named f "reset" = false -> named f "closest" = false ->
  named f "querySelector" = false ->
  let q := snd (submitFeedback_settled (Response (Some data)) formElement p) in
  fst (submitFeedback_settled (Response (Some data)) formElement p) = Ok tt /\
  (exists f' failure success,
     page_container q = Some (failure :: success :: children) /\
     node_id failure = S (page_next_node p) /\
     node_className failure =
       "alert alert-danger alert-dismissible fade show" /\
     node_innerHTML failure =
       banner_html "Error submitting feedback. Please try again." /\
     node_id success = page_next_node p /\
     node_className success =
       "alert alert-success alert-dismissible fade show" /\
     node_innerHTML success = banner_html "Thank you for your feedback!" /\
     page_forms q !! formElement = Some f' /\
     Forall2 at_default (form_fields f) (form_fields f')) /\
  page_panels q = page_panels p /\
  page_console q = (page_console p ++ ["Error:"])%list.
Proof.
  intros Hs Hf Hc Hk Hpn Hi Hr Hcl Hqs.
  assert (Hthen : exists p1,
    then_data formElement data p = (Throw (TypeError "null.hide"), p1) /\
    page_container p1 =
      Some (alert p "Thank you for your feedback!" "success" :: children) /\
    page_panels p1 = page_panels p /\
    page_forms p1 !! formElement =
      Some (with_fields (map reset_field (form_fields f)) f) /\
    page_console p1 = page_console p /\
    page_next_node p1 = S (page_next_node p)).
  { unfold then_data.
    unfold bind at 1. rewrite prop_not_null by now apply is_success_not_null.
    rewrite Hs.
    unfold bind at 1. rewrite (showAlert_container _ _ _ children Hc).
    set (p1 := set_timers _ _).
    unfold bind at 1. rewrite (reset_Ok formElement p1 f Hf Hr).
    set (p2 := set_forms _ p1).
    assert (Hf2 : page_forms p2 !! formElement
                  = Some (with_fields (map reset_field (form_fields f)) f)).
    { subst p2. cbn. now rewrite list_lookup_alter_eq, Hf. }
    unfold bind at 1.
    rewrite (closest_collapse_Ok formElement p2 _ Hf2)
      by now rewrite named_reset.
    cbn [form_collapse with_fields]. rewrite Hk.
    change (page_panels p2) with (page_panels p). rewrite Hpn.
    unfold Collapse_getInstance_hide. unfold bind at 1. cbn [get].
    change (page_panels p2) with (page_panels p). rewrite Hpn, Hi.
    exists p2. split; [reflexivity|]. repeat split. exact Hf2. }
  destruct Hthen as (p1 & Hp1 & Hc1 & Hn1 & Hf1 & Hl1 & Hx1).
  assert (Hchain : exists q1,
    catch_ (then_ (then_ (fetch_settled (Response (Some data))) response_json)
                  (then_data formElement)) catch_error p = (Ok tt, q1) /\
    page_container q1 =
      Some (alert p1 "Error submitting feedback. Please try again." "danger"
            :: alert p "Thank you for your feedback!" "success" :: children) /\
    page_panels q1 = page_panels p /\
    page_forms q1 !! formElement =
      Some (with_fields (map reset_field (form_fields f)) f) /\
    page_console q1 = (page_console p ++ ["Error:"])%list).
  { unfold catch_, then_. unfold bind at 1. unfold bind at 1.
    cbn [fetch_settled response_json ret]. rewrite Hp1.
    destruct (catch_error_container (TypeError "null.hide") p1 _ Hc1)
      as (q1 & -> & Hqc & Hqf & Hqp & Hql).
    exists q1. split; [reflexivity|].
    now rewrite Hqc, Hqp, Hqf, Hql, Hl1, Hn1, Hf1. }
  destruct Hchain as (q1 & Hq1 & Hcq & Hpq & Hfq & Hlq).
  unfold submitFeedback_settled, finally_. rewrite Hq1.
  destruct (finally_enable_spec formElement q1 _ Hfq)
    as (Hok & f' & Hf' & _ & Hfd & _); [now rewrite named_reset|].
  destruct (finally_enable_same_display formElement q1) as (Hdc & Hdp & _).
  pose proof (finally_enable_same_console formElement q1) as Hdl.
  unfold same_console in Hdl.
  destruct (finally_enable formElement q1) as [[[]|e] q']; [|discriminate].
  cbn [fst snd] in *. split; [reflexivity|].
  split; [|now rewrite Hdp, Hdl].
  exists f'. do 2 eexists. rewrite Hdc. split; [exact Hcq|].
  repeat split; [cbn; exact Hx1|exact Hf'|].
  rewrite Hfd. apply map_reset_field_at_default.
Qed.

(** The page served with the panel open. *)
Lemma submitFeedback_success_without_instance_witness :
  is_success (property success_body "status") = true /\
  page_forms served_open_page !! 0 = Some rating_form /\
  page_container served_open_page = Some [] /\
  (map node_className <$>
     page_container
       (snd (submitFeedback_settled (Response (Some success_body)) 0
               served_open_page)))
  = Some ["alert alert-danger alert-dismissible fade show";
          "alert alert-success alert-dismissible fade show"].
Proof.
  split; [reflexivity|]. split; [reflexivity|]. split; [reflexivity|].
  destruct (submitFeedback_success_without_instance served_open_page
              success_body 0 rating_form [] 0
              {| panel_id := "feedback-7"; panel_show := true;
                 panel_instance := false |}
              eq_refl eq_refl eq_refl eq_refl eq_refl eq_refl
              eq_refl eq_refl eq_refl)
    as (_ & (f' & failure & success & H & _ & Hf & _ & _ & Hs & _) & _).
  rewrite H. cbn. now rewrite Hf, Hs.
Defined.


(** ** A form is changed by its own submission only *)

#[local] Instance same_form_preorder j : PreOrder (same_form j).
Proof.
  split; [intros p; reflexivity|].
  intros p q r. unfold same_form. congruence.
Qed.

#[local] Instance same_pending_preorder : PreOrder same_pending.
Proof.
  split; [intros p; reflexivity|].
  intros p q r. unfold same_pending. congruence.
Qed.

Lemma alter_same_form i j g p :
  i <> j -> same_form j p (set_forms (alter g i (page_forms p)) p).
Proof. intros Hne. unfold same_form. cbn. now rewrite list_lookup_alter_ne. Qed.

Lemma showAlert_same_form j message type :
  keeps (same_form j) (showAlert message type).
Proof.
  unfold showAlert, createElement, setTimeout. keeps_steps; reflexivity.
Qed.

Lemma showAlert_same_pending message type :
  keeps same_pending (showAlert message type).
Proof.
  unfold showAlert, createElement, setTimeout. keeps_steps; reflexivity.
Qed.

Lemma submitFeedback_settled_same_form o i j :
  i <> j -> keeps (same_form j) (submitFeedback_settled o i).
Proof.
  intros Hne.
  unfold submitFeedback_settled, fetch_settled, response_json, then_data,
    catch_error, finally_enable, prop, reset, closest_collapse,
    Collapse_getInstance_hide, querySelector_submit, write_submitBtn,
    console_error.
  keeps_steps; try apply showAlert_same_form;
    try (now apply alter_same_form); reflexivity.
Qed.

Lemma submitFeedback_settled_same_pending o i :
  keeps same_pending (submitFeedback_settled o i).
Proof.
  unfold submitFeedback_settled, fetch_settled, response_json, then_data,
    catch_error, finally_enable, prop, reset, closest_collapse,
    Collapse_getInstance_hide, querySelector_submit, write_submitBtn,
    console_error.
  keeps_steps; try apply showAlert_same_pending; reflexivity.
Qed.

Lemma form_submit_same_form i j : i <> j -> keeps (same_form j) (form_submit i).
Proof.
  intros Hne. unfold form_submit, querySelector_submit, write_submitBtn.
  keeps_steps; try (now apply alter_same_form); reflexivity.
Qed.

Lemma form_submit_same_pending i : keeps same_pending (form_submit i).
Proof.
  unfold form_submit, querySelector_submit, write_submitBtn.
  keeps_steps; reflexivity.
Qed.

Lemma feedback_btn_click_same_form j target :
  keeps (same_form j) (feedback_btn_click target).
Proof.
  unfold feedback_btn_click, hide_other, Collapse_getInstance_hide.
  keeps_steps; reflexivity.
Qed.

Lemma feedback_btn_click_same_pending target :
  keeps same_pending (feedback_btn_click target).
Proof.
  unfold feedback_btn_click, hide_other, Collapse_getInstance_hide.
  keeps_steps; reflexivity.
Qed.

(** What the [submit] listeners leave of the forms and the requests in
    flight. *)
Lemma submit_event_pending i p f :
  page_forms p !! i = Some f ->
  page_pending (submit_event i p) =
  (page_pending p ++ (if form_feedback f then [i] else []))%list.
Proof.
  intros Hf. unfold submit_event. rewrite Hf.
  rewrite (keeps_dispatch same_pending _ (form_submit_same_pending i))
    by reflexivity.
  destruct (form_feedback f); [|now rewrite app_nil_r].
  unfold dispatch. now rewrite (feedback_form_submit_eq i p f Hf).
Qed.

Lemma submit_event_same_form i j p :
  i <> j -> page_forms (submit_event i p) !! j = page_forms p !! j.
Proof.
  intros Hne. unfold submit_event.
  destruct (page_forms p !! i) as [f|] eqn:Hf; [|reflexivity].
  rewrite (keeps_dispatch (same_form j) _ (form_submit_same_form i j Hne))
    by reflexivity.
  destruct (form_feedback f); [|reflexivity].
  unfold dispatch. now rewrite (feedback_form_submit_eq i p f Hf).
Qed.

Lemma step_same_form ev j p :
  ev <> Submit j -> ~ In j (page_pending p) ->
  page_forms (step ev p) !! j = page_forms p !! j /\
  ~ In j (page_pending (step ev p)).
Proof.
  intros Hev Hj. destruct ev as [form|toggle|request o|node|ms]; cbn [step].
  - assert (Hne : form <> j) by congruence.
    split; [now apply submit_event_same_form|].
    destruct (page_forms p !! form) as [f|] eqn:Hf.
    + rewrite (submit_event_pending form p f Hf). intros Hin.
      apply in_app_or in Hin. destruct Hin as [Hin|Hin]; [contradiction|].
      destruct (form_feedback f); [|contradiction].
      destruct Hin as [Hin|[]]. contradiction.
    + unfold submit_event. now rewrite Hf.
  - unfold click_event.
    destruct (page_toggles p !! toggle) as [target|]; [|auto].
    rewrite (keeps_dispatch (same_form j) _ (feedback_btn_click_same_form j target))
      by reflexivity.
    rewrite (keeps_dispatch same_pending _ (feedback_btn_click_same_pending target))
      by reflexivity.
    auto.
  - unfold settle_event.
    destruct (page_pending p !! request) as [formElement|] eqn:Hr; [|auto].
    assert (Hne : formElement <> j).
    { intros ->. apply Hj. apply list_elem_of_In. eapply list_elem_of_lookup_2.
      exact Hr. }
    set (p0 := set_pending _ p).
    rewrite (keeps_dispatch (same_form j) _
               (submitFeedback_settled_same_form o formElement j Hne))
      by reflexivity.
    rewrite (keeps_dispatch same_pending _
               (submitFeedback_settled_same_pending o formElement))
      by reflexivity.
    split; [reflexivity|]. subst p0. cbn. intros Hin. apply Hj.
    apply list_elem_of_In. apply list_elem_of_In in Hin.
    eapply list_elem_of_delete_inv. exact Hin.
  - rewrite dispatch_Ok by reflexivity.
    unfold remove, modify. cbn. now destruct (page_container p).
  - destruct (elapse_event_container_only ms p) as (c & ts & ->). auto.
Qed.

(** X13. A form is changed by its own submission only: along a run of
    events in which form [j] is not submitted, and with no request of
    [j] in flight at the start, form [j] stays as it is. *)
Theorem run_same_form (evs : list Event) (j : nat) (p : Page) :
  ~ In (Submit j) evs -> ~ In j (page_pending p) ->
  page_forms (run evs p) !! j = page_forms p !! j.
Proof.
  intros Hev Hj.
  enough (page_forms (run evs p) !! j = page_forms p !! j /\
          ~ In j (page_pending (run evs p))) by tauto.
  revert p Hj. induction evs as [|ev evs IH]; intros p Hj; [auto|].
  change (run (ev :: evs) p) with (run evs (step ev p)).
  destruct (step_same_form ev j p) as [Hf Hp]; [|exact Hj|].
  { intros ->. apply Hev. now left. }
  destruct (IH (fun H => Hev (or_intror H)) (step ev p) Hp) as [Hf' Hp'].
  split; [congruence|exact Hp'].
Qed.

Lemma run_same_form_witness :
  let p := set_forms [rating_form; rating_form] demo_page in
  let evs := [Submit 1; Settle 0 (Response (Some success_body)); Click 1] in
  ~ In (Submit 0) evs /\ ~ In 0 (page_pending p) /\
  page_forms (run evs p) !! 0 = Some rating_form.
Proof.
  assert (H1 : ~ In (Submit 0)
                 [Submit 1; Settle 0 (Response (Some success_body)); Click 1]).
  { intros [E|[E|[E|[]]]]; discriminate E. }
  assert (H2 : ~ In 0 (page_pending (set_forms [rating_form; rating_form]
                                       demo_page))) by (intros []).
  split; [exact H1|]. split; [exact H2|].
  exact (run_same_form _ 0 _ H1 H2).
Defined.


(** ** The request of a submission *)







(** ** A submission from the click to the end of the request *)







(** ** Timers *)

Lemma showAlert_timers_pending message type :
  keeps (preserves timers_pending) (showAlert message type).
Proof.
  intros q Hq.
  destruct (page_container q) as [children|] eqn:Hc.
  - rewrite (showAlert_container q message type children Hc).
    intros t Hin. cbn in *. apply in_app_or in Hin.
    destruct Hin as [Hin|[<-|[]]]; [now apply Hq|cbn; lia].
  - rewrite (showAlert_no_container q message type Hc).
    intros t Hin. cbn in *. now apply Hq.
Qed.

Lemma elapse_event_timers ms p :
  page_timers (elapse_event ms p) =
    List.filter (fun t => negb (is_due (page_now p + ms) t)) (page_timers p) /\
  page_now (elapse_event ms p) = page_now p + ms.
Proof.
  unfold elapse_event.
  match goal with
  | |- context [fold_left _ ?l ?q0] =>
      change (fold_left _ l q0) with (fold_left fire l q0);
      destruct (fire_all_schedule l q0) as (-> & -> & _)
  end.
  split; reflexivity.
Qed.

Lemma elapse_event_timers_pending ms p :
  timers_pending p -> timers_pending (elapse_event ms p).
Proof.
  intros Hp t Hin. destruct (elapse_event_timers ms p) as [Ht Hn].
  rewrite Ht in Hin. rewrite Hn. apply filter_In in Hin.
  destruct Hin as [Hin Hd]. apply Hp in Hin.
  unfold is_due in Hd. apply negb_true_iff, Nat.leb_gt in Hd. lia.
Qed.

Lemma run_timers_pending_inv (evs : list Event) (p : Page) :
  timers_pending p -> timers_pending (run evs p).
Proof.
  apply (run_inv timers_pending (fun _ => True)).
  - intros q r (_ & Ht & Hn & _). unfold timers_pending. now rewrite Ht, Hn.
  - apply showAlert_timers_pending.
  - intros n _ q Hq. unfold remove, modify. cbn [snd].
    destruct (page_container q); exact Hq.
  - apply elapse_event_timers_pending.
  - auto.
Qed.

(** X16. Every pending timer is due later than now and within 5000 ms,
    along every run of events; and once 5000 ms pass in one piece, no
    timer is left pending. *)
Theorem run_timers_pending (evs : list Event) (p : Page) :
  timers_pending p ->
  timers_pending (run evs p) /\
  forall ms, 5000 <= ms -> page_timers (run (evs ++ [Elapse ms]) p) = [].
Proof.
  intros Hp. pose proof (run_timers_pending_inv evs p Hp) as Hq.
  split; [exact Hq|]. intros ms Hms.
  unfold run. rewrite fold_left_app. cbn [fold_left step].
  fold (run evs p).
  destruct (elapse_event_timers ms (run evs p)) as [-> _].
  unfold timers_pending in Hq.
  induction (page_timers (run evs p)) as [|t l IH]; [reflexivity|].
  cbn [List.filter].
  assert (Ht : is_due (page_now (run evs p) + ms) t = true).
  { unfold is_due. apply Nat.leb_le.
    specialize (Hq t (or_introl eq_refl)). lia. }
  rewrite Ht. cbn [negb]. apply IH. intros t' Hin. apply Hq. now right.
Qed.

Lemma run_timers_pending_witness :
  timers_pending demo_page /\
  page_timers (run ([Submit 0; Settle 0 Rejected] ++ [Elapse 5000]) demo_page) = [].
Proof.
  assert (H : timers_pending demo_page) by (intros t []).
  split; [exact H|].
  apply (run_timers_pending [Submit 0; Settle 0 Rejected] demo_page H). lia.
Defined.


(** ** [getRecommendations] and the page *)

(** X17. [getRecommendations] logs one line with [console.error]
    exactly when its request was rejected or the body did not decode,
    and leaves the forms, the panels, the container, the timers and the
    feedback requests in flight untouched. *)
Theorem getRecommendations_log (o : FetchOutcome) (studentId : string)
    (topN : option string) (p : Page) :
  let q := snd (getRecommendations o studentId topN p) in
  page_console q =
    (page_console p ++
     match o with
     | Response (Some _) => []
     | _ => ["API Error:"]
     end)%list /\
  page_forms q = page_forms p /\ page_panels q = page_panels p /\
  page_container q = page_container p /\ page_timers q = page_timers p /\
  page_pending q = page_pending p /\ page_uncaught q = page_uncaught p.
Proof.
  unfold getRecommendations, fetch, console_error. run_m.
  destruct o as [|[data|]]; cbn; rewrite ?app_nil_r; repeat split.
Qed.


(** ** The only endpoint the page calls *)

#[local] Instance fetches_feedback_preorder : PreOrder fetches_feedback.
Proof.
  split.
  - intros p. exists []. split; [now rewrite app_nil_r|constructor].
  - intros p q r (rs1 & H1 & F1) (rs2 & H2 & F2).
    exists (rs1 ++ rs2)%list. split.
    + now rewrite H2, H1, app_assoc.
    + apply Forall_app. auto.
Qed.

Lemma fetches_feedback_same p q :
  page_fetched q = page_fetched p -> fetches_feedback p q.
Proof. intros H. exists []. split; [now rewrite app_nil_r|constructor]. Qed.

Ltac fetches_steps :=
  keeps_steps; try (apply fetches_feedback_same; reflexivity).

Lemma showAlert_fetches_feedback message type :
  keeps fetches_feedback (showAlert message type).
Proof. unfold showAlert, createElement, setTimeout. fetches_steps. Qed.

Lemma submitFeedback_settled_fetches_feedback o i :
  keeps fetches_feedback (submitFeedback_settled o i).
Proof.
  unfold submitFeedback_settled, fetch_settled, response_json, then_data,
    catch_error, finally_enable, prop, reset, closest_collapse,
    Collapse_getInstance_hide, querySelector_submit, write_submitBtn,
    console_error.
  fetches_steps; apply showAlert_fetches_feedback.
Qed.

Lemma feedback_form_submit_fetches_feedback i :
  keeps fetches_feedback (feedback_form_submit i).
Proof.
  unfold feedback_form_submit, submitFeedback, fetch. fetches_steps.
  eexists [_]. split; [reflexivity|].
  repeat constructor. discriminate.
Qed.

Lemma step_fetches_feedback ev p : fetches_feedback p (step ev p).
Proof.
  assert (Hu : forall q e,
            fetches_feedback q (set_uncaught (page_uncaught q ++ [e]) q))
    by (intros q e; now apply fetches_feedback_same).
  destruct ev as [form|toggle|request o|node|ms]; cbn [step].
  - unfold submit_event.
    destruct (page_forms p !! form) as [f|]; [|reflexivity].
    etransitivity; [|apply (keeps_dispatch fetches_feedback); [|exact Hu]].
    + destruct (form_feedback f); [|reflexivity].
      apply (keeps_dispatch fetches_feedback); [|exact Hu].
      apply feedback_form_submit_fetches_feedback.
    + unfold form_submit, querySelector_submit, write_submitBtn. fetches_steps.
  - unfold click_event.
    destruct (page_toggles p !! toggle) as [target|]; [|reflexivity].
    apply (keeps_dispatch fetches_feedback); [|exact Hu].
    unfold feedback_btn_click, hide_other, Collapse_getInstance_hide.
    fetches_steps.
  - unfold settle_event.
    destruct (page_pending p !! request) as [formElement|]; [|reflexivity].
    etransitivity; [|apply (keeps_dispatch fetches_feedback); [|exact Hu]].
    + now apply fetches_feedback_same.
    + apply submitFeedback_settled_fetches_feedback.
  - apply (keeps_dispatch fetches_feedback); [|exact Hu].
    intros q. apply fetches_feedback_same.
    unfold remove, modify. cbn. now destruct (page_container q).
  - destruct (elapse_event_container_only ms p) as (c & ts & ->).
    now apply fetches_feedback_same.
Qed.

(** X18. The listeners of the page call one endpoint only: whatever
    the events, every request issued during a run is a POST to
    [/feedback] with a body. *)
Theorem run_fetches_feedback (evs : list Event) (p : Page) :
  fetches_feedback p (run evs p).
Proof.
  revert p. unfold run.
  induction evs as [|ev evs IH]; intros p; cbn [fold_left]; [reflexivity|].
  etransitivity; [apply step_fetches_feedback|apply IH].
Qed.


(** ** No banner is left behind *)

Lemma attached_In c cs p :
  page_container p = Some cs -> In c cs -> attached (node_id c) p = true.
Proof.
  intros Hc Hin. unfold attached. rewrite Hc.
  apply existsb_exists. exists c. split; [exact Hin|apply Nat.eqb_refl].
Qed.

(** The timers only take children away. *)
Lemma fire_all_children l : forall q cs c,
  page_container (fold_left fire l q) = Some cs -> In c cs ->
  exists cs0, page_container q = Some cs0 /\ In c cs0.
Proof.
  induction l as [|t l IH]; intros q cs c Hc Hin; cbn [fold_left] in Hc;
    [eauto|].
  destruct (IH _ _ _ Hc Hin) as (cs1 & Hc1 & Hin1).
  unfold fire in Hc1. rewrite dispatch_alert_timeout, alert_timeout_eq in Hc1.
  cbn [snd] in Hc1. destruct (attached _ q); [|eauto].
  unfold remove, modify in Hc1. cbn [snd] in Hc1.
  destruct (page_container q) as [cs0|] eqn:Hq; [|cbn in Hc1; congruence].
  cbn in Hc1. injection Hc1 as <-. apply filter_In in Hin1.
  exists cs0. tauto.
Qed.

Section BannersTimed.
Variable p0 : Page.

Lemma banners_timed_same_alerts p q :
  same_alerts p q -> banners_timed p0 p -> banners_timed p0 q.
Proof.
  intros (Hc & Ht & _). unfold banners_timed. now rewrite Hc, Ht.
Qed.

Lemma showAlert_banners_timed message type :
  keeps (preserves (banners_timed p0)) (showAlert message type).
Proof.
  intros q Hq.
  destruct (page_container q) as [children|] eqn:Hc.
  - rewrite (showAlert_container q message type children Hc).
    intros cs c Hcs Hin. cbn in Hcs. injection Hcs as <-. cbn.
    destruct Hin as [<-|Hin].
    + right. eexists. split; [apply in_or_app; right; now left|reflexivity].
    + destruct (Hq children c Hc Hin) as [H|(t & Ht & Hn)]; [now left|].
      right. exists t. split; [apply in_or_app; now left|exact Hn].
  - rewrite (showAlert_no_container q message type Hc).
    intros cs c Hcs. cbn in Hcs. congruence.
Qed.

Lemma remove_banners_timed n :
  keeps (preserves (banners_timed p0)) (remove n).
Proof.
  intros q Hq. unfold remove, modify. cbn [snd].
  destruct (page_container q) as [children|] eqn:Hc; [|exact Hq].
  intros cs c Hcs Hin. cbn in Hcs. injection Hcs as <-.
  apply filter_In in Hin. destruct Hin as [Hin _].
  exact (Hq children c Hc Hin).
Qed.

Lemma elapse_event_banners_timed ms q :
  banners_timed p0 q -> banners_timed p0 (elapse_event ms q).
Proof.
  intros Hq cs c Hcs Hin.
  destruct (elapse_event_timers ms q) as [Ht _]. rewrite Ht.
  pose proof (attached_In c cs _ Hcs Hin) as Hatt.
  unfold elapse_event in Hcs, Hatt.
  set (now := page_now q + ms) in *.
  set (q0 := set_now now (set_timers _ q)) in *.
  change (fold_left _ ?l q0) with (fold_left fire l q0) in Hcs, Hatt.
  destruct (fire_all_children _ _ _ _ Hcs Hin) as (cs0 & Hc0 & Hin0).
  destruct (Hq cs0 c Hc0 Hin0) as [H|(t & Hin_t & Hn)]; [now left|].
  right. exists t. split; [|exact Hn].
  apply filter_In. split; [exact Hin_t|].
  destruct (is_due now t) eqn:Hd; [|reflexivity].
  rewrite (fire_all_detaches c) in Hatt; [discriminate|].
  exists t. split; [|exact Hn]. apply filter_In. auto.
Qed.

Lemma run_banners_timed evs p :
  banners_timed p0 p -> banners_timed p0 (run evs p).
Proof.
  apply (run_inv (banners_timed p0) (fun _ => True)).
  - apply banners_timed_same_alerts.
  - apply showAlert_banners_timed.
  - intros n _. apply remove_banners_timed.
  - apply elapse_event_banners_timed.
  - auto.
Qed.
End BannersTimed.

(** X20. No banner is left behind: on a page whose pending timers are due
    within 5000 ms, whatever events happen, once 5000 ms or more then
    pass in one piece the container holds none of the banners the script
    has shown: every child it has was a child at the start. *)
Theorem run_banners_expire (evs : list Event) (ms : nat) (p : Page)
    (cs : list Node) (c : Node) :
  timers_pending p -> 5000 <= ms ->
  page_container (run (evs ++ [Elapse ms]) p) = Some cs -> In c cs ->
  exists cs0, page_container p = Some cs0 /\ In c cs0.
Proof.
  intros Hp Hms Hcs Hin.
  assert (Hb : banners_timed p (run (evs ++ [Elapse ms]) p)).
  { apply run_banners_timed. intros cs1 c1 Hc1 Hin1. left. eauto. }
  destruct (Hb cs c Hcs Hin) as [H|(t & Ht & _)]; [exact H|].
  exfalso. revert Ht.
  unfold run. rewrite fold_left_app. cbn [fold_left step]. fold (run evs p).
  destruct (elapse_event_timers ms (run evs p)) as [-> _].
  intros Ht. apply filter_In in Ht. destruct Ht as [Ht Hd].
  apply (run_timers_pending_inv evs p Hp) in Ht.
  unfold is_due in Hd. apply negb_true_iff, Nat.leb_gt in Hd. lia.
Qed.

(** A page that starts with one child in its container: after a failed
    submission and five seconds, that child is all the container
    holds. *)
Lemma run_banners_expire_witness :
  let c0 := {| node_id := 0; node_className := "row"; node_innerHTML := "" |} in
  let p := set_next_node 1 (set_container (Some [c0]) demo_page) in
  timers_pending p /\ 5000 <= 5000 /\
  page_container (run ([Submit 0; Settle 0 Rejected] ++ [Elapse 5000]) p)
    = Some [c0] /\
  In c0 [c0] /\
  exists cs0, page_container p = Some cs0 /\ In c0 cs0.
Proof.
  cbv zeta.
  set (c0 := {| node_id := 0; node_className := "row"; node_innerHTML := "" |}).
  set (p := set_next_node 1 (set_container (Some [c0]) demo_page)).
  assert (H : timers_pending p) by (intros t []).
  assert (Hin : In c0 [c0]) by now left.
  split; [exact H|]. split; [lia|]. split; [reflexivity|]. split; [exact Hin|].
  exact (run_banners_expire [Submit 0; Settle 0 Rejected] 5000 p [c0] c0 H
           (le_n 5000) eq_refl Hin).
Defined.
